(** * S4CSTP: the FITS-header validation suite [tests/test_keywords.py]

    A shallow embedding of the class [Test_Keywords] and a verification of
    the statements its specification makes about it.

    - A header is the ordered sequence of its cards (keyword, value,
      comment), as the FITS decoder returns it.
    - The checks run in a small monad that threads the header under test
      (two checks delete its COMMENT entry), appends to the log, and may
      raise a Python exception.
    - [float()], [int()], [re.match] and the text of a float are functions
      of the Python runtime; they are variables of the section, so every
      theorem holds whatever they compute. *)

From Stdlib Require Import ZArith QArith Qabs Lqa String Ascii List Lia.
From stdpp Require Import base decidable option list strings pretty gmap.

Local Open Scope string_scope.
Local Open Scope list_scope.

(* ===================================================================== *)
(** ** Python values *)
(* ===================================================================== *)

(** A Python float: the finite ones are rationals, which is all that the
    comparisons of the suite see. *)
Inductive pyfloat :=
| Finite (q : Q)
| PosInf
| NegInf
| NaN.

(** The value of a card, or of a cell of a table.  [VSeq] is the aggregate
    value of a commentary entry: the sequence of its lines. *)
Inductive value :=
| VInt (z : Z)
| VFloat (f : pyfloat)
| VStr (s : string)
| VBool (b : bool)
| VSeq (lines : list string).

Inductive pytype := TFloat | TInt | TStr | TBool | TSeq.

Definition type_of (v : value) : pytype :=
  match v with
  | VInt _ => TInt
  | VFloat _ => TFloat
  | VStr _ => TStr
  | VBool _ => TBool
  | VSeq _ => TSeq
  end.

Definition pytype_eqb (a b : pytype) : bool :=
  match a, b with
  | TFloat, TFloat | TInt, TInt | TStr, TStr | TBool, TBool | TSeq, TSeq => true
  | _, _ => false
  end.

(** [isinstance(value, _type)]: [bool] is a subclass of [int]. *)
Definition isinstance (v : value) (t : pytype) : bool :=
  pytype_eqb (type_of v) t || (pytype_eqb (type_of v) TBool && pytype_eqb t TInt).

(** [a <= b] and [a == b] on floats; every comparison with NaN is false. *)
Definition float_le (a b : pyfloat) : bool :=
  match a, b with
  | NaN, _ | _, NaN => false
  | NegInf, _ => true
  | _, PosInf => true
  | Finite x, Finite y => Qle_bool x y
  | _, _ => false
  end.

Definition float_eqb (a b : pyfloat) : bool :=
  match a, b with
  | Finite x, Finite y => Qeq_bool x y
  | PosInf, PosInf | NegInf, NegInf => true
  | _, _ => false
  end.

(** The number a value stands for in arithmetic and comparisons
    ([True] is 1, [False] is 0); strings and aggregates are not numbers. *)
Definition as_number (v : value) : option pyfloat :=
  match v with
  | VInt z => Some (Finite (inject_Z z))
  | VFloat f => Some f
  | VBool b => Some (Finite (if b then 1 else 0)%Q)
  | VStr _ | VSeq _ => None
  end.

Definition list_string_eqb (a b : list string) : bool := bool_decide (a = b).

(** [v == w]: numbers compare by value across int, float and bool, strings
    with strings; values of unrelated types are different. *)
Definition py_eq (v w : value) : bool :=
  match as_number v, as_number w with
  | Some a, Some b => float_eqb a b
  | _, _ =>
      match v, w with
      | VStr s, VStr t => String.eqb s t
      | VSeq a, VSeq b => list_string_eqb a b
      | _, _ => false
      end
  end.

(** [value in _list] *)
Definition py_in (v : value) (l : list value) : bool := existsb (py_eq v) l.

(** Relative and absolute tolerance of [np.allclose]. *)
Definition rtol : Q := 1 # 100000.
Definition atol : Q := 1 # 100000000.

(** [np.isclose(a, b)] on two numbers:
    [|a - b| <= atol + rtol * |b|] for a finite [b], or [a == b].  The
    inequality is evaluated over the rationals; numpy evaluates it in
    float arithmetic, whose rounding can change the outcome at the edge of
    the tolerance and nowhere else. *)
Definition isclose (a b : pyfloat) : bool :=
  match a, b with
  | Finite x, Finite y => Qle_bool (Qabs (x - y)) (atol + rtol * Qabs y)
  | _, _ => float_eqb a b
  end.

(* ===================================================================== *)
(** ** Headers, the schema and the calibration tables *)
(* ===================================================================== *)

Record card := { c_kw : string; c_val : value; c_comment : string }.

Definition header := list card.

(** The value of the first card of a keyword. *)
Fixpoint first_value (k : string) (h : header) : option value :=
  match h with
  | [] => None
  | c :: rest => if String.eqb (c_kw c) k then Some (c_val c) else first_value k rest
  end.

(** The text of a commentary card (a commentary card holds text). *)
Definition comment_text (v : value) : string :=
  match v with
  | VStr s => s
  | VInt _ | VFloat _ | VBool _ | VSeq _ => ""
  end.

(** The texts of the COMMENT cards, in the order of the header. *)
Definition comment_lines (h : header) : list string :=
  map (fun c => comment_text (c_val c))
      (List.filter (fun c => String.eqb (c_kw c) "COMMENT") h).

(** [hdr[k]]: the value of the first card of that keyword; for COMMENT,
    the decoder hands back the aggregate of all the COMMENT cards, which
    has one line for each card and so at least one whenever the header has
    a COMMENT card.  A keyword that the header lacks is a KeyError
    ([None]).  Keywords are compared as the decoder stores them, in upper
    case, which is how the suite writes its own. *)
Definition lookup_kw (k : string) (h : header) : option value :=
  if String.eqb k "COMMENT" then
    match comment_lines h with
    | [] => None
    | line :: rest => Some (VSeq (line :: rest))
    end
  else first_value k h.

(** [hdr.keys()] and [hdr.comments] *)
Definition keys (h : header) : list string := map c_kw h.
Definition comments (h : header) : list string := map c_comment h.

Definition has_kw (k : string) (h : header) : bool := existsb (String.eqb k) (keys h).

(** [del hdr[k]] removes every card of that keyword. *)
Definition remove_kw (k : string) (h : header) : header :=
  List.filter (fun c => negb (String.eqb (c_kw c) k)) h.

(** One row of [header_content.csv]; an empty "Allowed values" cell is read
    as a missing value, which is not a string. *)
Record schema_row := {
  row_Keyword : string;
  row_Type : string;
  row_Allowed_values : option string;
  row_Comment : string
}.

Definition schema := list schema_row.

(** A table read by [pd.read_csv]: named columns over rows of cells. *)
Record DataFrame := { columns : list string; rows : list (list value) }.

Fixpoint index_of (name : string) (l : list string) : option nat :=
  match l with
  | [] => None
  | c :: rest => if String.eqb c name then Some 0%nat else S <$> index_of name rest
  end.

Definition cell (i : nat) (r : list value) : value := nth i r (VFloat NaN).

(* ===================================================================== *)
(** ** Exceptions and the log *)
(* ===================================================================== *)

Inductive exn :=
| KeyError (key : string)
| IndexError
| TypeError
| AttributeError
| AssertionError
| ValueError (descr : string) (args : list value).

(** What a log line reports, after "Test: ..., filename: ...". *)
Inductive payload :=
| PNumbers (expected received : value)
| PDiff (diff : gset string)
| PSame (expected received : gset string)
| PType (kw : string) (wanted found : pytype)
| PInterval (kw : string) (lo hi : pyfloat) (v : value)
| PNotIn (kw : string) (allowed : list value) (v : value)
| PRegex (kw : string) (v : value)
| PSize (kw : string) (limit actual : nat)
| PSimulated (kw : string)
| PEmptyObserver
| PExn (kw : option string) (e : exn).

Record record := { rec_test : string; rec_filename : value; rec_payload : payload }.

(* ===================================================================== *)
(** ** The monad of a check on one header *)
(* ===================================================================== *)

Inductive outcome (A : Type) :=
| Normal (a : A)
| Raise (e : exn).
Arguments Normal {A} a.
Arguments Raise {A} e.

Record res (A : Type) := Res { r_hdr : header; r_log : list record; r_out : outcome A }.
Arguments Res {A} _ _ _.
Arguments r_hdr {A} _.
Arguments r_log {A} _.
Arguments r_out {A} _.

Definition M (A : Type) : Type := header -> res A.

Definition ret {A} (a : A) : M A := fun h => Res h [] (Normal a).

Definition raise {A} (e : exn) : M A := fun h => Res h [] (Raise e).

Definition bind {A B} (m : M A) (f : A -> M B) : M B :=
  fun h =>
    let r := m h in
    match r_out r with
    | Normal a =>
        let r' := f a (r_hdr r) in
        Res (r_hdr r') (r_log r ++ r_log r') (r_out r')
    | Raise e => Res (r_hdr r) (r_log r) (Raise e)
    end.

Notation "x <~ m ;; k" := (bind m (fun x => k))
  (at level 100, m at next level, right associativity).
Notation "m ;;; k" := (bind m (fun _ => k))
  (at level 100, right associativity).

(** [try: body  except Exception as e: handler e] *)
Definition try_except (body : M unit) (handler : exn -> M unit) : M unit :=
  fun h =>
    let r := body h in
    match r_out r with
    | Normal _ => r
    | Raise e =>
        let r' := handler e (r_hdr r) in
        Res (r_hdr r') (r_log r ++ r_log r') (r_out r')
    end.

(** [for x in xs: body x] *)
Fixpoint for_each {X} (xs : list X) (body : X -> M unit) : M unit :=
  match xs with
  | [] => ret tt
  | x :: rest => body x ;;; for_each rest body
  end.

Definition logging_error (r : record) : M unit := fun h => Res h [r] (Normal tt).

Definition getitem (k : string) : M value :=
  fun h =>
    match lookup_kw k h with
    | Some v => Res h [] (Normal v)
    | None => Res h [] (Raise (KeyError k))
    end.

Definition contains (k : string) : M bool := fun h => Res h [] (Normal (has_kw k h)).

Definition delitem (k : string) : M unit :=
  fun h =>
    if has_kw k h then Res (remove_kw k h) [] (Normal tt)
    else Res h [] (Raise (KeyError k)).

Definition get_keys : M (list string) := fun h => Res h [] (Normal (keys h)).
Definition get_comments : M (list string) := fun h => Res h [] (Normal (comments h)).

Definition of_option {A} (e : exn) (o : option A) : M A :=
  match o with
  | Some a => ret a
  | None => raise e
  end.

(** [for hdr in self.hdrs_list: body]: the headers are shared objects, so
    what a body does to one stays done for the checks that run later. *)
Record run := Run { run_hdrs : list header; run_log : list record; run_out : outcome unit }.

Fixpoint for_hdrs (body : M unit) (hs : list header) : run :=
  match hs with
  | [] => Run [] [] (Normal tt)
  | h :: rest =>
      let r := body h in
      match r_out r with
      | Normal _ =>
          let r' := for_hdrs body rest in
          Run (r_hdr r :: run_hdrs r') (r_log r ++ run_log r') (run_out r')
      | Raise e => Run (r_hdr r :: rest) (r_log r) (Raise e)
      end
  end.

(* ===================================================================== *)
(** ** Strings, sets and sequences of the Python runtime *)
(* ===================================================================== *)

(** [s.split(",")] *)
Fixpoint split_on (sep : ascii) (s : string) : list string :=
  match s with
  | EmptyString => [EmptyString]
  | String c rest =>
      if Ascii.eqb c sep then EmptyString :: split_on sep rest
      else match split_on sep rest with
           | [] => [String c EmptyString]
           | w :: ws => String c w :: ws
           end
  end.

Definition comma : ascii := ","%char.

(** The characters of a string, each as a string of length one. *)
Fixpoint chars (s : string) : list string :=
  match s with
  | EmptyString => []
  | String c rest => String c EmptyString :: chars rest
  end.


(** [expected ^ received] *)
Definition symdiff (a b : gset string) : gset string := (a ∖ b) ∪ (b ∖ a).

(** [len(v)] *)
Definition py_len (v : value) : option nat :=
  match v with
  | VStr s => Some (String.length s)
  | VSeq l => Some (length l)
  | VInt _ | VFloat _ | VBool _ => None
  end.

(** [v[-1]] *)
Definition last_item (v : value) : outcome value :=
  match v with
  | VStr s =>
      match rev (chars s) with
      | c :: _ => Normal (VStr c)
      | [] => Raise IndexError
      end
  | VSeq l =>
      match rev l with
      | x :: _ => Normal (VStr x)
      | [] => Raise IndexError
      end
  | VInt _ | VFloat _ | VBool _ => Raise TypeError
  end.

Definition lift {A} (o : outcome A) : M A :=
  match o with
  | Normal a => ret a
  | Raise e => raise e
  end.

(* ===================================================================== *)
(** ** The class attributes of [Test_Keywords] *)
(* ===================================================================== *)

Definition var_types : list (string * pytype) :=
  [("float", TFloat); ("integer", TInt); ("string", TStr); ("boolean", TBool)].

Definition kws_specific_values : list string :=
  ["BITPIX"; "INSTMODE"; "SYNCMODE"; "FILTER"; "OBSTYPE"; "ACQMODE"; "PREAMP";
   "READRATE"; "VSHIFT"; "TRIGGER"; "EMMODE"; "SHUTTER"; "TEMPST"; "VCLKAMP";
   "CTRLINTE"; "WPSEL"; "CALW"].

Definition regex_expressions : list (string * string) :=
  [("FILENAME", "\d{8}_s4c[1-4]_\d{6}(_[a-z0-9]+)?\.fits");
   ("DATE-OBS", "\d{4}-\d{2}-\d{2}T\d{2}:\d{2}:\d{2}\.\d{6}");
   ("UTTIME", "\d{2}:\d{2}:\d{2}\.\d{6}");
   ("UTDATE", "\d{4}-\d{2}-\d{2}");
   ("RA", "[\+-]?\d{2}:\d{2}:\d{2}\.\d+");
   ("DEC", "[\+-]?\d{2}:\d{2}:\d{2}\.\d+");
   ("TCSHA", "[\+-]?\d{2}:\d{2}:\d{2}(\.\d+)?");
   ("TCSDATE", "\d{4}-\d{2}-\d{2}T\d{2}:\d{2}:\d{2}\.\d{3}");
   ("ACSVRSN", "v\d+\.\d+\.\d+");
   ("GUIVRSN", "v\d+\.\d+\.\d+");
   ("ICSVRSN", "v\d+\.\d+\.\d+")].

Definition kws_fixed_str_size : list (string * nat) :=
  [("PROJID", 15%nat); ("OBJECT", 30%nat); ("OBSERVER", 54%nat)].

Definition simulated_mode_kws : list string :=
  ["ACSMODE"; "WPROMODE"; "WPSEMODE"; "ANMODE"; "CALWMODE"; "GMIRMODE";
   "GFOCMODE"; "TCSMODE"].

(** [var_types[name]] *)
Fixpoint assoc {V} (k : string) (l : list (string * V)) : option V :=
  match l with
  | [] => None
  | (k', v) :: rest => if String.eqb k' k then Some v else assoc k rest
  end.

(** [keyword in self.kws_specific_values] *)
Definition in_strings (k : string) (l : list string) : bool := existsb (String.eqb k) l.

(** A decimal fragment of [int()] and [float()], for running the checks on
    concrete tables: an optional sign, digits, and for a float an optional
    fraction. *)
Definition digit_of (c : ascii) : option Z :=
  let n := Z.of_nat (nat_of_ascii c) in
  if (48 <=? n)%Z && (n <=? 57)%Z then Some (n - 48)%Z else None.

Fixpoint digits_from (acc : Z) (s : string) : option Z :=
  match s with
  | EmptyString => Some acc
  | String c rest =>
      match digit_of c with
      | Some d => digits_from (10 * acc + d)%Z rest
      | None => None
      end
  end.

Definition dec_nat (s : string) : option Z :=
  match s with
  | EmptyString => None
  | _ => digits_from 0%Z s
  end.

Definition dec_int (s : string) : option Z :=
  match s with
  | String "-"%char rest => Z.opp <$> dec_nat rest
  | String "+"%char rest => dec_nat rest
  | _ => dec_nat s
  end.

Definition dec_unsigned (s : string) : option Q :=
  match split_on "."%char s with
  | [i] => inject_Z <$> dec_nat i
  | [i; f] =>
      match dec_nat i, dec_nat f with
      | Some a, Some b =>
          Some (Qred (inject_Z a + Qmake b (Pos.of_nat (Nat.pow 10 (String.length f)))))
      | _, _ => None
      end
  | _ => None
  end.

Definition dec_float (s : string) : option pyfloat :=
  match s with
  | String "-"%char rest => (fun q => Finite (Qopp q)) <$> dec_unsigned rest
  | String "+"%char rest => Finite <$> dec_unsigned rest
  | _ => Finite <$> dec_unsigned s
  end.

(** [re.match] on the texts of the example headers: each pattern of the
    catalog with the example texts that it matches from their first
    character on. *)
Definition ex_matches : list (string * string) :=
  [ ("\d{8}_s4c[1-4]_\d{6}(_[a-z0-9]+)?\.fits", "20250522_s4c1_000008.fits");
    ("\d{4}-\d{2}-\d{2}T\d{2}:\d{2}:\d{2}\.\d{6}", "2025-05-22T08:05:00.123456");
    ("\d{2}:\d{2}:\d{2}\.\d{6}", "08:05:00.123456");
    ("[\+-]?\d{2}:\d{2}:\d{2}\.\d+", "+05:35:17.3");
    ("[\+-]?\d{2}:\d{2}:\d{2}\.\d+", "-05:23:28.0");
    ("[\+-]?\d{2}:\d{2}:\d{2}(\.\d+)?", "+01:02:03");
    ("\d{4}-\d{2}-\d{2}T\d{2}:\d{2}:\d{2}\.\d{3}", "2025-05-22T08:05:00.123");
    ("v\d+\.\d+\.\d+", "v1.0.0");
    ("v\d+\.\d+\.\d+", "v0.9.12") ].

Definition ex_re_match (pattern text : string) : bool :=
  existsb (fun entry => String.eqb (fst entry) pattern && String.eqb (snd entry) text)
          ex_matches.

(** A stand-in for the text of a float or of an aggregate. *)
Definition value_text (v : value) : string := "<value>".

(* ===================================================================== *)
(** ** The checks *)
(* ===================================================================== *)

Section Suite.

(** [float(s)] and [int(s)] on a string ([None]: ValueError),
    [re.match(pattern, text)], and the text of a value that is neither a
    string, an integer nor a boolean. *)
Variable float_of_string : string -> option pyfloat.
Variable int_of_string : string -> option Z.
Variable re_match : string -> string -> bool.
Variable repr : value -> string.

(** The reference tables read by [_read_csvs]. *)
Variable header_content : schema.
Variable ccd_gains : DataFrame.
Variable read_noises : DataFrame.

(** [float(v)] *)
Definition py_float (v : value) : M pyfloat :=
  match v with
  | VStr s =>
      of_option (ValueError "could not convert string to float" [VStr s])
                (float_of_string s)
  | VSeq _ => raise TypeError
  | VInt _ | VFloat _ | VBool _ => of_option TypeError (as_number v)
  end.

(** [int(s)] *)
Definition py_int (s : string) : M Z :=
  of_option (ValueError "invalid literal for int()" [VStr s]) (int_of_string s).

(** [f'{v}'] *)
Definition format_value (v : value) : string :=
  match v with
  | VStr s => s
  | VInt z => pretty z
  | VBool true => "True"
  | VBool false => "False"
  | VFloat _ | VSeq _ => repr v
  end.

Definition log_line (func_name : string) (filename : value) (p : payload) : M unit :=
  logging_error {| rec_test := func_name; rec_filename := filename; rec_payload := p |}.

(** [np.allclose(expected, received)] on two scalars. *)
Definition allclose (expected received : value) : M bool :=
  match as_number expected, as_number received with
  | Some a, Some b => ret (isclose a b)
  | _, _ => raise TypeError
  end.

(** *** The static methods *)

Definition compare_numbers (expected received filename : value) (func_name : string)
  : M unit :=
  close <~ allclose expected received ;;
  if negb close then log_line func_name filename (PNumbers expected received)
  else ret tt.

Definition compare_lists (expected received : list string) (filename : value)
    (func_name : string) : M unit :=
  let expected : gset string := list_to_set expected in
  let received : gset string := list_to_set received in
  if bool_decide (expected ≠ received)
  then log_line func_name filename (PDiff (symdiff expected received))
  else ret tt.


Definition verify_type (kw : string) (v : value) (_type : pytype) (filename : value)
    (func_name : string) : M unit :=
  if negb (isinstance v _type)
  then log_line func_name filename (PType kw _type (type_of v))
  else ret tt.

Definition kw_in_interval (_min _max : pyfloat) (v : value) (kw : string)
    (filename : value) (func_name : string) : M unit :=
  x <~ of_option TypeError (as_number v) ;;
  if negb (float_le _min x && float_le x _max)
  then log_line func_name filename (PInterval kw _min _max v)
  else ret tt.

Definition val_in_list (v : value) (_list : list value) (kw : string)
    (filename : value) (func_name : string) : M unit :=
  if negb (py_in v _list)
  then log_line func_name filename (PNotIn kw _list v)
  else ret tt.

Definition verify_regex (v : value) (expression kw : string) (filename : value)
    (func_name : string) : M unit :=
  match v with
  | VStr s =>
      if negb (re_match expression s)
      then log_line func_name filename (PRegex kw v)
      else ret tt
  | VInt _ | VFloat _ | VBool _ | VSeq _ => raise TypeError
  end.

Definition verify_str_size (v : value) (str_size : nat) (kw : string)
    (filename : value) (func_name : string) : M unit :=
  n <~ of_option TypeError (py_len v) ;;
  if (str_size <? n)%nat
  then log_line func_name filename (PSize kw str_size n)
  else ret tt.

(** *** Presence of the keywords and of their comments *)

Definition test_missing_keywords_hdr : M unit :=
  present <~ contains "COMMENT" ;;
  (if present then delitem "COMMENT" else ret tt) ;;;
  hdr_keywords <~ get_keys ;;
  let csv_keywords := map row_Keyword header_content in
  let func_name := "test_missing_keywords" in
  filename <~ getitem "FILENAME" ;;
  compare_lists csv_keywords hdr_keywords filename func_name.

Definition test_missing_keywords : list header -> run :=
  for_hdrs test_missing_keywords_hdr.

Definition test_kw_comments_hdr : M unit :=
  present <~ contains "COMMENT" ;;
  (if present then delitem "COMMENT" else ret tt) ;;;
  hdr_comment <~ get_comments ;;
  let csv_comment := map row_Comment header_content in
  let func_name := "test_kw_comments" in
  filename <~ getitem "FILENAME" ;;
  compare_lists csv_comment hdr_comment filename func_name.

Definition test_kw_comments : list header -> run :=
  for_hdrs test_kw_comments_hdr.

(** *** Types, intervals and enumerations *)

Definition test_keywords_types_row (func_name : string) (row : schema_row) : M unit :=
  let kw := row_Keyword row in
  try_except
    (keyword_val <~ getitem kw ;;
     _type <~ of_option (KeyError (row_Type row)) (assoc (row_Type row) var_types) ;;
     filename <~ getitem "FILENAME" ;;
     verify_type kw keyword_val _type filename func_name)
    (fun e =>
       filename <~ getitem "FILENAME" ;;
       log_line func_name filename (PExn (Some kw) e)).

Definition test_keywords_types_hdr : M unit :=
  let func_name := "test_keywords_types" in
  for_each header_content (test_keywords_types_row func_name).

Definition test_keywords_types : list header -> run :=
  for_hdrs test_keywords_types_hdr.

Definition is_numeric_type (t : string) : bool := in_strings t ["integer"; "float"].

Definition filtered_hdr_content : schema :=
  List.filter (fun row => is_numeric_type (row_Type row)) header_content.

Definition test_kws_in_interval_row (func_name : string) (row : schema_row) : M unit :=
  try_except
    (let keyword := row_Keyword row in
     v <~ getitem keyword ;;
     filename <~ getitem "FILENAME" ;;
     if negb (in_strings keyword kws_specific_values) then
       allowed <~ of_option AttributeError (row_Allowed_values row) ;;
       match split_on comma allowed with
       | [_min; _max] =>
           _min <~ py_float (VStr _min) ;;
           _max <~ (if String.eqb _max "inf" then ret PosInf
                    else py_float (VStr _max)) ;;
           kw_in_interval _min _max v keyword filename func_name
       | _ => raise (ValueError "wrong number of values to unpack" [])
       end
     else ret tt)
    (fun e =>
       filename <~ getitem "FILENAME" ;;
       log_line func_name filename (PExn None e)).

Definition test_kws_in_interval_hdr : M unit :=
  let func_name := "test_kws_in_interval" in
  for_each filtered_hdr_content (test_kws_in_interval_row func_name).

Definition test_kws_in_interval : list header -> run :=
  for_hdrs test_kws_in_interval_hdr.

(** [[self.var_types[_type](new_val) for new_val in allowed_vals]] *)
Fixpoint coerce_all (_type : string) (l : list string) : M (list value) :=
  match l with
  | [] => ret []
  | new_val :: rest =>
      v <~ (if String.eqb _type "integer" then z <~ py_int new_val ;; ret (VInt z)
            else f <~ py_float (VStr new_val) ;; ret (VFloat f)) ;;
      vs <~ coerce_all _type rest ;;
      ret (v :: vs)
  end.

(** [row["Allowed values"].values[0].split(",")], coerced when numeric. *)
Definition allowed_values_of (kw : string) : M (list value) :=
  let row := List.filter (fun r => String.eqb (row_Keyword r) kw) header_content in
  first <~ of_option IndexError (head row) ;;
  allowed <~ of_option AttributeError (row_Allowed_values first) ;;
  let allowed_vals := split_on comma allowed in
  let _type := row_Type first in
  if is_numeric_type _type then coerce_all _type allowed_vals
  else ret (map VStr allowed_vals).

Definition test_kws_specific_vals_kw (kw : string) : M unit :=
  allowed_vals <~ allowed_values_of kw ;;
  file_name <~ getitem "FILENAME" ;;
  let func_name := "test_kws_specific_vals" in
  v <~ getitem kw ;;
  val_in_list v allowed_vals kw file_name func_name ;;;
  again <~ getitem kw ;;
  if py_in again allowed_vals then ret tt else raise AssertionError.

Definition test_kws_specific_vals_hdr : M unit :=
  for_each kws_specific_values test_kws_specific_vals_kw.

Definition test_kws_specific_vals : list header -> run :=
  for_hdrs test_kws_specific_vals_hdr.

(** *** Patterns, the waveplate position and the COMMENT entry *)

Definition test_kws_regex_hdr : M unit :=
  for_each regex_expressions (fun '(kw, expression) =>
    v <~ getitem kw ;;
    filename <~ getitem "FILENAME" ;;
    let func_name := "test_kws_regex" in
    verify_regex v expression kw filename func_name).

Definition test_kws_regex : list header -> run := for_hdrs test_kws_regex_hdr.

Definition test_WPPOS_hdr : M unit :=
  instmode <~ getitem "INSTMODE" ;;
  wppos <~ getitem "WPPOS" ;;
  if py_eq instmode (VStr "POLAR") && py_eq wppos (VInt 0) then
    filename <~ getitem "FILENAME" ;;
    raise (ValueError "The value WPPOS=0 was found the polarimetric mode." [filename])
  else ret tt.

Definition test_WPPOS : list header -> run := for_hdrs test_WPPOS_hdr.



(** *** The content of the keywords *)

Definition test_observatory_coords_hdr : M unit :=
  filename <~ getitem "FILENAME" ;;
  let func_name := "test_observatory_coords" in
  received <~ getitem "OBSLONG" ;;
  let expected := VFloat (Finite (- (455825 # 10000))) in
  compare_numbers expected received filename func_name ;;;
  received <~ getitem "OBSLAT" ;;
  let expected := VFloat (Finite (- (22534 # 1000))) in
  compare_numbers expected received filename func_name ;;;
  received <~ getitem "OBSALT" ;;
  let expected := VFloat (Finite 1864) in
  compare_numbers expected received filename func_name.

Definition test_observatory_coords : list header -> run :=
  for_hdrs test_observatory_coords_hdr.

(** [if em_mode != "Conventional": em_mode = "EM"] *)
Definition normalize_em_mode (em_mode : value) : value :=
  if negb (py_eq em_mode (VStr "Conventional")) then VStr "EM" else em_mode.

(** [table[name]] *)
Definition df_column (table : DataFrame) (name : string) : M (list value) :=
  i <~ of_option (KeyError name) (index_of name (columns table)) ;;
  ret (map (cell i) (rows table)).

(** [table[mask]] *)
Fixpoint select_rows (mask : list bool) (rs : list (list value)) : list (list value) :=
  match mask, rs with
  | b :: mask', r :: rs' => if b then r :: select_rows mask' rs' else select_rows mask' rs'
  | _, _ => []
  end.

Definition zip_and (a b : list bool) : list bool :=
  map (fun p => andb (fst p) (snd p)) (combine a b).

(** The body shared, word for word, by [test_ccd_gain] (table [ccd_gains],
    keyword GAIN) and [test_read_noise] (table [read_noises], keyword
    RDNOISE), from the line that reads READRATE on: [em_mode] is the
    EM-mode component of the lookup key. *)
Definition calibration_lookup (table : DataFrame) (value_kw func_name : string)
    (em_mode : value) : M unit :=
  readout <~ getitem "READRATE" ;;
  preamp_kw <~ getitem "PREAMP" ;;
  last <~ lift (last_item preamp_kw) ;;
  preamp <~ py_float last ;;
  ccdsern <~ getitem "CCDSERN" ;;
  let serial_number := format_value ccdsern in
  gain <~ getitem value_kw ;;
  c_em <~ df_column table "EM Mode" ;;
  c_rate <~ df_column table "Readout Rate" ;;
  c_preamp <~ df_column table "Preamp" ;;
  let filter :=
    zip_and (zip_and (map (fun c => py_eq c em_mode) c_em)
                     (map (fun c => py_eq c readout) c_rate))
            (map (fun c => py_eq c (VFloat preamp)) c_preamp) in
  let line := {| columns := columns table; rows := select_rows filter (rows table) |} in
  filename <~ getitem "FILENAME" ;;
  col <~ df_column line serial_number ;;
  expected <~ of_option IndexError (head col) ;;
  let received := gain in
  compare_numbers expected received filename func_name.

(** The first lines of the two bodies: the key is read and normalized. *)
Definition calibration_hdr (table : DataFrame) (value_kw func_name : string) : M unit :=
  em_mode <~ getitem "EMMODE" ;;
  let em_mode := normalize_em_mode em_mode in
  calibration_lookup table value_kw func_name em_mode.

Definition test_ccd_gain_hdr : M unit := calibration_hdr ccd_gains "GAIN" "test_ccd_gain".
Definition test_ccd_gain : list header -> run := for_hdrs test_ccd_gain_hdr.

Definition test_read_noise_hdr : M unit :=
  calibration_hdr read_noises "RDNOISE" "test_read_noise".
Definition test_read_noise : list header -> run := for_hdrs test_read_noise_hdr.

Definition test_equinox_hdr : M unit :=
  filename <~ getitem "FILENAME" ;;
  received <~ getitem "EQUINOX" ;;
  compare_numbers (VFloat (Finite 2000)) received filename "test_equinox".
Definition test_equinox : list header -> run := for_hdrs test_equinox_hdr.

Definition test_BSCALE_hdr : M unit :=
  filename <~ getitem "FILENAME" ;;
  received <~ getitem "BSCALE" ;;
  compare_numbers (VInt 1) received filename "test_BSCALE".
Definition test_BSCALE : list header -> run := for_hdrs test_BSCALE_hdr.

Definition test_BZERO_hdr : M unit :=
  received <~ getitem "BZERO" ;;
  let expected := VInt (2 ^ 15) in
  filename <~ getitem "FILENAME" ;;
  compare_numbers expected received filename "test_BZERO".
Definition test_BZERO : list header -> run := for_hdrs test_BZERO_hdr.

Definition test_BITPIX_hdr : M unit :=
  filename <~ getitem "FILENAME" ;;
  received <~ getitem "BITPIX" ;;
  compare_numbers (VInt 16) received filename "test_BITPIX".
Definition test_BITPIX : list header -> run := for_hdrs test_BITPIX_hdr.

Definition test_NAXIS_hdr : M unit :=
  filename <~ getitem "FILENAME" ;;
  received <~ getitem "NAXIS" ;;
  compare_numbers (VInt 2) received filename "test_NAXIS".
Definition test_NAXIS : list header -> run := for_hdrs test_NAXIS_hdr.

Definition test_kw_sizes_kw (entry : string * nat) : M unit :=
  let '(kw, str_size) := entry in
  kw_value <~ getitem kw ;;
  filename <~ getitem "FILENAME" ;;
  let func_name := "test_kw_sizes" in
  verify_str_size kw_value str_size kw filename func_name.

Definition test_kw_sizes_hdr : M unit := for_each kws_fixed_str_size test_kw_sizes_kw.
Definition test_kw_sizes : list header -> run := for_hdrs test_kw_sizes_hdr.

Definition test_simulated_mode_hdr : M unit :=
  let func_name := "test_simulated_mode" in
  for_each simulated_mode_kws (fun kw =>
    v <~ getitem kw ;;
    if py_eq v (VBool false) then
      filename <~ getitem "FILENAME" ;;
      log_line func_name filename (PSimulated kw)
    else ret tt).
Definition test_simulated_mode : list header -> run := for_hdrs test_simulated_mode_hdr.

Definition test_empty_observer_kw_hdr : M unit :=
  let func_name := "test_empty_observer_kw" in
  v <~ getitem "OBSERVER" ;;
  if py_eq v (VStr "") then
    filename <~ getitem "FILENAME" ;;
    log_line func_name filename PEmptyObserver
  else ret tt.

End Suite.

(* ===================================================================== *)
(** ** The vocabulary of the statements *)
(* ===================================================================== *)

(** The line of the presence check. *)
Definition presence_record (fn : value) (expected received : gset string) : record :=
  {| rec_test := "test_missing_keywords"; rec_filename := fn;
     rec_payload := PDiff (symdiff expected received) |}.

(** A computation that hands the header back as it received it. *)
Definition readonly {A} (m : M A) : Prop := forall h, r_hdr (m h) = h.

(** What the size check logs for a string stored under [kw]. *)
Definition size_record (fn : value) (kw : string) (limit : nat) (s : string)
  : list record :=
  if (limit <? String.length s)%nat
  then [ {| rec_test := "test_kw_sizes"; rec_filename := fn;
            rec_payload := PSize kw limit (String.length s) |} ]
  else [].

(** INSTMODE equal to "POLAR" and WPPOS equal to 0. *)
Definition polar_at_zero (h : header) : bool :=
  match lookup_kw "INSTMODE" h, lookup_kw "WPPOS" h with
  | Some instmode, Some wppos => py_eq instmode (VStr "POLAR") && py_eq wppos (VInt 0)
  | _, _ => false
  end.

(** The header has a card for each of the keywords. *)
Definition carries (ks : list string) (h : header) : Prop :=
  Forall (fun k => is_Some (lookup_kw k h)) ks.

(** The error of the waveplate check. *)
Definition wppos_error (filename : value) : exn :=
  ValueError "The value WPPOS=0 was found the polarimetric mode." [filename].

(** The line of the interval check. *)
Definition interval_record (fn : value) (kw : string) (lo hi : pyfloat) (v : value)
  : record :=
  {| rec_test := "test_kws_in_interval"; rec_filename := fn;
     rec_payload := PInterval kw lo hi v |}.

(** [b] read as the upper bound: the token "inf" is positive infinity,
    anything else goes through [float()]. *)
Definition upper_bound (fos : string -> option pyfloat) (b : string) : option pyfloat :=
  if String.eqb b "inf" then Some PosInf else fos b.

(** The line a guard logs for the exception it caught. *)
Definition exn_record (func_name : string) (fn : value) (kw : option string) (e : exn)
  : record :=
  {| rec_test := func_name; rec_filename := fn; rec_payload := PExn kw e |}.

(** The line of the enumeration check. *)
Definition enum_record (fn : value) (kw : string) (allowed : list value) (v : value)
  : record :=
  {| rec_test := "test_kws_specific_vals"; rec_filename := fn;
     rec_payload := PNotIn kw allowed v |}.

(** What one keyword of the enumeration check can leave behind: nothing in
    the log, or one line followed by the failed assertion. *)
Definition logs_then_aborts (l : list record) (o : outcome unit) : Prop :=
  l = [] \/ exists line, l = [line] /\ o = Raise AssertionError.

(** A line of [compare_numbers]: two numbers that are not close. *)
Definition tolerance_failure (r : record) : Prop :=
  exists expected received a b,
    rec_payload r = PNumbers expected received /\
    as_number expected = Some a /\ as_number received = Some b /\
    isclose a b = false.

(** Every line a computation logs satisfies [P]. *)
Definition logs_only {A} (P : record -> Prop) (m : M A) : Prop :=
  forall h, Forall P (r_log (m h)).

(** The line of [compare_numbers]. *)
Definition numbers_record (func_name : string) (fn expected received : value) : record :=
  {| rec_test := func_name; rec_filename := fn;
     rec_payload := PNumbers expected received |}.

(* ===================================================================== *)
(** ** A night's batch, small *)
(* ===================================================================== *)


Definition mk_card (k : string) (v : value) : card :=
  {| c_kw := k; c_val := v; c_comment := k |}.

Definition mk_row (k t : string) (allowed : option string) : schema_row :=
  {| row_Keyword := k; row_Type := t; row_Allowed_values := allowed; row_Comment := k |}.

Definition ex_schema : schema :=
  [ mk_row "FILENAME" "string" None;
    mk_row "BITPIX" "integer" (Some "16");
    mk_row "INSTMODE" "string" (Some "PHOT,POLAR");
    mk_row "SYNCMODE" "string" (Some "SYNC,ASYNC");
    mk_row "FILTER" "string" (Some "CLEAR,B,V,R,I");
    mk_row "EXPTIME" "float" (Some "0.5,inf");
    mk_row "CCDTEMP" "float" (Some "x,20") ].

Definition ex_filename : value := VStr "20250522_s4c1_000001.fits".

(** A header with an exposure time below the interval of the schema, an
    OBSERVER of 60 characters and one COMMENT card whose text is empty. *)
Definition ex_hdr : header :=
  [ mk_card "FILENAME" ex_filename;
    mk_card "BITPIX" (VInt 16);
    mk_card "INSTMODE" (VStr "PHOT");
    mk_card "SYNCMODE" (VStr "SYNC");
    mk_card "FILTER" (VStr "CLEAR");
    mk_card "EXPTIME" (VFloat (Finite (1 # 4)));
    mk_card "CCDTEMP" (VFloat (Finite (- (70 # 1))));
    mk_card "WPPOS" (VInt 0);
    mk_card "PROJID" (VStr "P-001");
    mk_card "OBJECT" (VStr "HD 1234");
    mk_card "OBSERVER"
      (VStr "abcdefghijabcdefghijabcdefghijabcdefghijabcdefghijabcdefghij");
    mk_card "EMMODE" (VStr "Convencional");
    mk_card "READRATE" (VInt 1);
    mk_card "PREAMP" (VStr "Gain 1");
    mk_card "CCDSERN" (VInt 9914);
    mk_card "GAIN" (VFloat (Finite (33 # 10)));
    mk_card "COMMENT" (VStr "") ].

(** The same night in polarimetric mode, waveplate at position 0. *)
Definition ex_hdr_polar : header :=
  [ mk_card "FILENAME" (VStr "20250522_s4c1_000002.fits");
    mk_card "INSTMODE" (VStr "POLAR");
    mk_card "WPPOS" (VInt 0) ].

(** A header without FILTER. *)
Definition ex_hdr_no_filter : header :=
  [ mk_card "FILENAME" (VStr "20250522_s4c1_000003.fits");
    mk_card "BITPIX" (VInt 16);
    mk_card "INSTMODE" (VStr "PHOT");
    mk_card "SYNCMODE" (VStr "SYNC") ].

(** A header whose BITPIX is within the tolerance of 16 and not 16. *)
Definition ex_hdr_bitpix : header :=
  [ mk_card "FILENAME" (VStr "20250522_s4c1_000004.fits");
    mk_card "BITPIX" (VFloat (Finite (1600001 # 100000))) ].

Definition ex_gains : DataFrame :=
  {| columns := ["EM Mode"; "Readout Rate"; "Preamp"; "9914"];
     rows := [ [VStr "Conventional"; VInt 1; VFloat (Finite 1); VFloat (Finite (33 # 10))];
               [VStr "EM"; VInt 1; VFloat (Finite 1); VFloat (Finite (33 # 10))];
               [VStr "EM"; VInt 1; VFloat (Finite 1); VFloat (Finite (16 # 1))] ] |}.

Definition ex_gains_conventional : DataFrame :=
  {| columns := ["EM Mode"; "Readout Rate"; "Preamp"; "9914"];
     rows := [ [VStr "Conventional"; VInt 1; VFloat (Finite 1); VFloat (Finite (33 # 10))] ] |}.

(* ===================================================================== *)
(** ** The loader of the batch: [_get_image_folder], [_get_headers] *)
(* ===================================================================== *)

(** An error of the operating system or of a library outside the suite. *)
Inductive os_error :=
| FileNotFoundError (descr : string)
| NameError (name : string)
| OtherError (descr : string).

Inductive attempt (A : Type) :=
| Got (a : A)
| Failed (e : os_error).
Arguments Got {A} a.
Arguments Failed {A} e.

(** [sub in s] on strings. *)
Fixpoint is_infix (sub s : string) : bool :=
  String.prefix sub s ||
  match s with
  | EmptyString => false
  | String _ rest => is_infix sub rest
  end.

(** [s[-n:]]: the last [n] characters, the whole string when it is
    shorter. *)
Definition last_chars (n : nat) (s : string) : string :=
  String.substring (String.length s - n) n s.

Section Loader.

(** [os.listdir], [os.path.isdir], [os.path.join] on two parts,
    [fits.getheader], and the text of yesterday's date, [%Y%m%d]. *)
Variable listdir : string -> attempt (list string).
Variable isdir : string -> bool.
Variable join : string -> string -> string.
Variable getheader : string -> attempt header.
Variable yesterday_stamp : string.

(** [[file for file in listing if ".fits" in file]] *)
Definition fits_named (listing : list string) : list string :=
  List.filter (is_infix ".fits") listing.

(** [today] is the image path of the configuration file. *)
Definition _get_image_folder (today : string) : attempt string :=
  match listdir today with
  | Failed e => Failed e
  | Got listing =>
      let today_list := fits_named listing in
      match today_list with
      | _ :: _ => Got today
      | [] =>
          let yesterday := join (join today "..") yesterday_stamp in
          if negb (isdir yesterday)
          then Failed (FileNotFoundError
                         ("The folder " ++ yesterday ++ " does not exist."))
          else Got yesterday
      end
  end.

(** The loop of [_get_headers] over the listing of the folder. *)
Fixpoint read_headers (folder : string) (listing : list string) (hdrs_list : list header)
  : attempt (list header) :=
  match listing with
  | [] => Got hdrs_list
  | file :: rest =>
      if negb (String.eqb (last_chars 4 file) "fits")
      then read_headers folder rest hdrs_list
      else match getheader (join folder file) with
           | Failed e => Failed e
           | Got hdr => read_headers folder rest (hdrs_list ++ [hdr])
           end
  end.

Definition _get_headers (image_folder : string) : attempt (list header) :=
  let folder := image_folder in
  match listdir folder with
  | Failed e => Failed e
  | Got listing => read_headers folder listing []
  end.

(** The two calls of [setUpClass] that produce [hdrs_list]. *)
Definition setUpClass_hdrs_list (today : string) : attempt (list header) :=
  match _get_image_folder today with
  | Failed e => Failed e
  | Got image_folder => _get_headers image_folder
  end.

End Loader.

(* ===================================================================== *)
(** ** The log scanner [scripts/read_log.py], from the reading of the
       events log on *)
(* ===================================================================== *)

Definition newline : string := String (ascii_of_nat 10) EmptyString.

(** What the script does that can be seen from outside: a line of its own
    log, and a mail handed to the server. *)
Inductive event :=
| Info (msg : string)
| Sent (sender receiver text : string).

Record message := {
  msg_From : string;
  msg_Subject : string;
  msg_To : list string;
  msg_body : string
}.

Definition BASE_STRING (channel yesterday : string) : string :=
  newline ++ "Hello," ++ newline ++ newline
  ++ "You are receiving the errors and warnings found for the SPARC4 channel "
  ++ channel ++ ", occurred in " ++ yesterday ++ "." ++ newline ++ newline.

(** [for line in lines: if "ERROR" in line: EMAIL_STRING += line + "\n"; i += 1] *)
Fixpoint scan (lines : list string) (EMAIL_STRING : string) (i : nat) : string * nat :=
  match lines with
  | [] => (EMAIL_STRING, i)
  | line :: rest =>
      if is_infix "ERROR" line
      then scan rest (EMAIL_STRING ++ line ++ newline) (S i)
      else scan rest EMAIL_STRING i
  end.

Section ReadLog.

(** The mail server ([SMTP_SSL], [login], [sendmail], [quit]), the
    rendering of a message ([as_string]) and of an exception ([repr]). *)
Variable smtp_connect : attempt unit.
Variable smtp_login : string -> string -> attempt unit.
Variable smtp_sendmail : string -> string -> string -> attempt unit.
Variable smtp_quit : attempt unit.
Variable as_string : message -> string.
Variable repr_error : os_error -> string.

(** [for receiver in RECEIVERS: msg["To"] = receiver; server.sendmail(...)] *)
Fixpoint send_all (USER texto : string) (RECEIVERS : list string)
  : list event * attempt unit :=
  match RECEIVERS with
  | [] => ([], Got tt)
  | receiver :: rest =>
      match smtp_sendmail USER receiver texto with
      | Failed e => ([], Failed e)
      | Got _ =>
          let '(evs, r) := send_all USER texto rest in
          (Sent USER receiver texto
             :: Info ("The email has been sent to " ++ receiver ++ " succesfully.")
             :: evs, r)
      end
  end.

(** The body of the [try] of the sending step. *)
Definition send_try (USER PASSWORD : string) (msg : message) (RECEIVERS : list string)
  : list event * attempt unit :=
  match smtp_connect with
  | Failed e => ([], Failed e)
  | Got _ =>
      match smtp_login USER PASSWORD with
      | Failed e => ([], Failed e)
      | Got _ =>
          let texto := as_string msg in
          let '(evs, r) := send_all USER texto RECEIVERS in
          match r with
          | Failed e => (evs, Failed e)
          | Got _ =>
              match smtp_quit with
              | Failed e => (evs, Failed e)
              | Got _ => (evs, Got tt)
              end
          end
      end
  end.

(** The sending step: [if EMAIL_STRING != BASE_STRING: try ... except
    Exception ... else ...]. *)
Definition send_step (USER PASSWORD : string) (msg : message) (RECEIVERS : list string)
    (EMAIL_STRING BASE : string) : list event :=
  if negb (String.eqb EMAIL_STRING BASE) then
    let '(evs, r) := send_try USER PASSWORD msg RECEIVERS in
    match r with
    | Got _ => evs
    | Failed e => evs ++ [Info ("Error when sending the email: " ++ repr_error e)]
    end
  else [Info "There are no events to report."; Info "There are no events to report."].

(** The script from the line that computes [yesterday] on.  [file] is what
    opening and reading the events log gives; a log that is not found
    leaves [lines] unbound. *)
Definition read_log (channel yesterday USER PASSWORD : string)
    (file : attempt (list string)) : list event * attempt unit :=
  let ev1 := [Info ("The observation date was " ++ yesterday ++ ".")] in
  match file with
  | Failed (FileNotFoundError d) =>
      (ev1 ++ [Info ("The file " ++ yesterday ++ "_events.log was not found."
                     ++ repr_error (FileNotFoundError d))],
       Failed (NameError "lines"))
  | Failed e => (ev1, Failed e)
  | Got lines =>
      let ev2 := ev1 ++ [Info "The log file has been read."] in
      let BASE := BASE_STRING channel yesterday in
      let '(EMAIL_STRING, i) := scan lines BASE 0 in
      let ev3 := ev2 ++ [Info ("There is (are) " ++ pretty i ++ " line(s) to log.")] in
      let RECEIVERS := [USER] in
      let msg := {| msg_From := USER;
                    msg_Subject := yesterday
                      ++ ": errors and warnings found for the SPARC4 channel "
                      ++ channel ++ ".";
                    msg_To := [];
                    msg_body := EMAIL_STRING |} in
      (ev3 ++ send_step USER PASSWORD msg RECEIVERS EMAIL_STRING BASE, Got tt)
  end.

End ReadLog.

(* ===================================================================== *)
(** ** More vocabulary: the lines of the other checks *)
(* ===================================================================== *)

(** The line of the type check. *)
Definition type_record (fn : value) (kw : string) (wanted found : pytype) : record :=
  {| rec_test := "test_keywords_types"; rec_filename := fn;
     rec_payload := PType kw wanted found |}.

(** The number of occurrences of a character in a string. *)
Fixpoint count_char (c : ascii) (s : string) : nat :=
  match s with
  | EmptyString => 0%nat
  | String d rest => ((if Ascii.eqb d c then 1 else 0) + count_char c rest)%nat
  end.

(** What the regex check logs for one entry of its catalog, on a header
    that stores a string under the keyword. *)
Definition regex_lines (re : string -> string -> bool) (h : header) (fn : value)
    (entry : string * string) : list record :=
  match lookup_kw (fst entry) h with
  | Some (VStr s) =>
      if re (snd entry) s then []
      else [ {| rec_test := "test_kws_regex"; rec_filename := fn;
                rec_payload := PRegex (fst entry) (VStr s) |} ]
  | _ => []
  end.

(** What the simulated-mode check logs for one keyword. *)
Definition simulated_lines (h : header) (fn : value) (kw : string) : list record :=
  match lookup_kw kw h with
  | Some v =>
      if py_eq v (VBool false)
      then [ {| rec_test := "test_simulated_mode"; rec_filename := fn;
                rec_payload := PSimulated kw |} ]
      else []
  | None => []
  end.

(** The line of the comment-text check. *)
Definition comments_record (fn : value) (expected received : gset string) : record :=
  {| rec_test := "test_kw_comments"; rec_filename := fn;
     rec_payload := PDiff (symdiff expected received) |}.

(** What the presence check logs for a header whose filename is [fn]. *)
Definition presence_lines (S : schema) (h : header) (fn : value) : list record :=
  let expected : gset string := list_to_set (map row_Keyword S) in
  let received : gset string := list_to_set (keys (remove_kw "COMMENT" h)) in
  if bool_decide (expected <> received) then [presence_record fn expected received]
  else [].

(** What the comment-text check logs for a header whose filename is [fn]. *)
Definition comments_lines (S : schema) (h : header) (fn : value) : list record :=
  let expected : gset string := list_to_set (map row_Comment S) in
  let received : gset string := list_to_set (comments (remove_kw "COMMENT" h)) in
  if bool_decide (expected <> received) then [comments_record fn expected received]
  else [].

(** The filename of a header, for the lines that name it. *)
Definition filename_of (h : header) : value :=
  match lookup_kw "FILENAME" h with
  | Some fn => fn
  | None => VStr ""
  end.

(** The rows of a calibration table whose three key cells equal the key of
    a header. *)
Definition matching_rows (table : DataFrame) (i_em i_rate i_preamp : nat)
    (em_mode readout : value) (preamp : pyfloat) : list (list value) :=
  List.filter
    (fun r => py_eq (cell i_em r) em_mode && py_eq (cell i_rate r) readout
              && py_eq (cell i_preamp r) (VFloat preamp))
    (rows table).

(** The names that [_get_headers] reads: those whose last four characters
    are "fits". *)
Definition ends_fits (file : string) : bool := String.eqb (last_chars 4 file) "fits".

(** The lines of the events log that the scanner reports, and the text it
    appends to the mail for them. *)
Definition error_lines (lines : list string) : list string :=
  List.filter (is_infix "ERROR") lines.

Definition error_text (ls : list string) : string :=
  fold_right (fun line acc => (line ++ newline ++ acc)%string) "" ls.

(** The message the scanner builds for a channel, a date and a body. *)
Definition report (channel yesterday USER body : string) : message :=
  {| msg_From := USER;
     msg_Subject := yesterday ++ ": errors and warnings found for the SPARC4 channel "
                    ++ channel ++ ".";
     msg_To := [];
     msg_body := body |}.

(* ===================================================================== *)
(** ** More of the example night *)
(* ===================================================================== *)

(** A header without FILENAME. *)
Definition ex_hdr_anonymous : header := [ mk_card "BITPIX" (VInt 16) ].

(** A header whose exposure time is a text. *)
Definition ex_hdr_text : header :=
  [ mk_card "FILENAME" (VStr "20250522_s4c1_000005.fits");
    mk_card "EXPTIME" (VStr "fast") ].

(** A header with a string under each keyword of the regex catalog. *)
Definition ex_hdr_regex : header :=
  [ mk_card "FILENAME" (VStr "20250522_s4c1_000008.fits");
    mk_card "DATE-OBS" (VStr "2025-05-22T08:05:00.123456");
    mk_card "UTTIME" (VStr "08:05:00.123456");
    mk_card "UTDATE" (VStr "22/05/2025");
    mk_card "RA" (VStr "+05:35:17.3");
    mk_card "DEC" (VStr "-05:23:28.0");
    mk_card "TCSHA" (VStr "+01:02:03");
    mk_card "TCSDATE" (VStr "2025-05-22T08:05:00.123");
    mk_card "ACSVRSN" (VStr "1.46.4");
    mk_card "GUIVRSN" (VStr "v1.0.0");
    mk_card "ICSVRSN" (VStr "v0.9.12") ].

(** A header with the eight simulated-mode flags, one of them the
    integer 0. *)
Definition ex_hdr_simulated : header :=
  mk_card "FILENAME" (VStr "20250522_s4c1_000006.fits")
  :: mk_card "ACSMODE" (VInt 0)
  :: map (fun kw => mk_card kw (VBool true))
       ["WPROMODE"; "WPSEMODE"; "ANMODE"; "CALWMODE"; "GMIRMODE"; "GFOCMODE"; "TCSMODE"].

(** A header with a readout rate and no PREAMP. *)
Definition ex_hdr_no_preamp : header :=
  [ mk_card "FILENAME" (VStr "20250522_s4c1_000007.fits");
    mk_card "READRATE" (VInt 1) ].

(** A file system with one folder, and a decoder that knows one header. *)
Definition ex_today : string := "D:/images/20250522".

Definition ex_listing : list string :=
  ["notes.txt"; "20250522_s4c1_000001.fits"; "20250522_s4c1_000001.fits.bak"].

Definition ex_listdir (path : string) : attempt (list string) :=
  if String.eqb path ex_today then Got ex_listing
  else Failed (FileNotFoundError path).

Definition ex_isdir (path : string) : bool := false.

Definition ex_join (a b : string) : string := a ++ "/" ++ b.

Definition ex_decode (file : string) : header := ex_hdr.

Definition ex_getheader (path : string) : attempt header := Got ex_hdr.

(** Three lines of an events log, and a mail server that accepts
    everything. *)
Definition ex_lines : list string :=
  ["08:00 INFO dome open"; "08:05 ERROR shutter timeout"; "08:07 WARNING ccd warm"].

Definition ex_connect : attempt unit := Got tt.
Definition ex_login (user password : string) : attempt unit := Got tt.
Definition ex_sendmail (sender receiver text : string) : attempt unit := Got tt.
Definition ex_as_string (m : message) : string := msg_body m.
Definition ex_repr (e : os_error) : string := "error".

(** The tolerance of [np.allclose] around a received number. *)
Definition tolerance (y : Q) : Q := atol + rtol * Qabs y.

(** Two numbers closer than half the tolerance, and two numbers further
    apart than twice the tolerance: between the two lies the edge, where
    the outcome of the comparison hangs on the rounding of the float
    arithmetic. *)
Definition well_within (x y : Q) : Prop := (2 * Qabs (x - y) <= tolerance y)%Q.
Definition well_apart (x y : Q) : Prop := (2 * tolerance y <= Qabs (x - y))%Q.

(** A line of [compare_numbers]: two numbers, the first not well within
    the tolerance of the second. *)
Definition outside_tolerance (r : record) : Prop :=
  exists expected received a b,
    rec_payload r = PNumbers expected received /\
    as_number expected = Some a /\ as_number received = Some b /\
    forall x y, a = Finite x -> b = Finite y -> ~ well_within x y.








(** The calibration keys of the example header, with the EM mode spelt as
    the tables spell it. *)
Definition ex_hdr_conventional : header :=
  [ mk_card "FILENAME" (VStr "20250522_s4c1_000009.fits");
    mk_card "EMMODE" (VStr "Conventional");
    mk_card "READRATE" (VInt 1);
    mk_card "PREAMP" (VStr "Gain 1");
    mk_card "CCDSERN" (VInt 9914);
    mk_card "GAIN" (VFloat (Finite (33 # 10))) ].



(* ===================================================================== *)
(** ** Laws of the monad and of the header operations *)
(* ===================================================================== *)

Lemma res_eta {A} (r : res A) : Res (r_hdr r) (r_log r) (r_out r) = r.
Proof. by destruct r. Qed.

Lemma bind_pure {A B} (m : M A) (f : A -> M B) (h : header) (a : A) :
  m h = Res h [] (Normal a) -> bind m f h = f a h.
Proof. intros E. unfold bind. rewrite E. simpl. apply res_eta. Qed.

Lemma bind_normal {A B} (m : M A) (f : A -> M B) (h h1 : header) l (a : A) :
  m h = Res h1 l (Normal a) ->
  bind m f h = Res (r_hdr (f a h1)) (l ++ r_log (f a h1)) (r_out (f a h1)).
Proof. intros E. unfold bind. by rewrite E. Qed.

Lemma bind_raise {A B} (m : M A) (f : A -> M B) (h h1 : header) l e :
  m h = Res h1 l (Raise e) -> bind m f h = Res h1 l (Raise e).
Proof. intros E. unfold bind. by rewrite E. Qed.

Lemma getitem_some k h v : lookup_kw k h = Some v -> getitem k h = Res h [] (Normal v).
Proof. intros E. unfold getitem. by rewrite E. Qed.

Lemma getitem_none k h : lookup_kw k h = None -> getitem k h = Res h [] (Raise (KeyError k)).
Proof. intros E. unfold getitem. by rewrite E. Qed.

Lemma has_kw_false_remove k h : has_kw k h = false -> remove_kw k h = h.
Proof.
  unfold has_kw, keys, remove_kw. induction h as [|c h IH]; simpl; [done|].
  intros [E1 E2]%orb_false_elim. rewrite String.eqb_sym, E1. simpl. by rewrite IH.
Qed.

Lemma comment_lines_remove_ne k' h :
  k' <> "COMMENT" -> comment_lines (remove_kw k' h) = comment_lines h.
Proof.
  intros Hne. unfold comment_lines, remove_kw.
  induction h as [|c h IH]; [done|]. cbn [List.filter].
  destruct (String.eqb_spec (c_kw c) k') as [E|Hc]; cbn [negb].
  - destruct (String.eqb_spec (c_kw c) "COMMENT") as [E'|_]; [congruence|done].
  - cbn [List.filter]. destruct (String.eqb (c_kw c) "COMMENT"); cbn [map];
      by rewrite IH.
Qed.

Lemma first_value_remove_ne k k' h :
  k <> k' -> first_value k (remove_kw k' h) = first_value k h.
Proof.
  intros Hne. unfold remove_kw. induction h as [|c h IH]; simpl; [done|].
  destruct (String.eqb_spec (c_kw c) k') as [E|Hc]; simpl.
  - rewrite IH. by destruct (String.eqb_spec (c_kw c) k); [congruence|].
  - by rewrite IH.
Qed.

Lemma lookup_remove_ne k k' h : k <> k' -> lookup_kw k (remove_kw k' h) = lookup_kw k h.
Proof.
  intros Hne. unfold lookup_kw. destruct (String.eqb_spec k "COMMENT") as [->|Hk].
  - rewrite comment_lines_remove_ne by congruence. done.
  - by apply first_value_remove_ne.
Qed.

Lemma has_kw_remove k h : has_kw k (remove_kw k h) = false.
Proof.
  unfold has_kw, keys, remove_kw. induction h as [|c h IH]; simpl; [done|].
  destruct (String.eqb_spec (c_kw c) k) as [E|Hc]; simpl; [done|].
  rewrite IH. by destruct (String.eqb_spec k (c_kw c)); [congruence|].
Qed.

Lemma symdiff_empty (a b : gset string) : symdiff a b = ∅ <-> a = b.
Proof.
  unfold symdiff. set_unfold. split.
  - intros E x. specialize (E x).
    destruct (decide (x ∈ a)), (decide (x ∈ b)); tauto.
  - intros E x. specialize (E x). tauto.
Qed.

(** The header as the two presence checks leave it. *)
Lemma drop_comment h :
  (if has_kw "COMMENT" h then delitem "COMMENT" else ret tt) h
  = Res (remove_kw "COMMENT" h) [] (Normal tt).
Proof.
  unfold delitem, ret.
  destruct (has_kw "COMMENT" h) eqn:E; rewrite ?E; [done|].
  by rewrite has_kw_false_remove.
Qed.

(** C2. After the COMMENT entry is removed, the presence check logs one
    record, carrying the symmetric difference of the schema's and the
    header's keyword sets, exactly when the two sets differ; the header
    keeps every card but COMMENT, nothing is raised, and two headers with
    the same filename and the same set of keywords (in any order, with any
    repetitions) are logged alike. *)
Theorem presence_check_sets (S : schema) (h : header) (fn : value) :
  lookup_kw "FILENAME" h = Some fn ->
  let expected : gset string := list_to_set (map row_Keyword S) in
  let received : gset string := list_to_set (keys (remove_kw "COMMENT" h)) in
  let r := test_missing_keywords_hdr S h in
  r_hdr r = remove_kw "COMMENT" h /\
  r_out r = Normal tt /\
  (r_log r = [presence_record fn expected received] <-> expected ≠ received) /\
  (r_log r = [] <-> expected = received) /\
  (symdiff expected received = ∅ -> r_log r = []) /\
  (forall h2 : header,
      lookup_kw "FILENAME" h2 = Some fn ->
      list_to_set (keys (remove_kw "COMMENT" h2)) = received ->
      r_log (test_missing_keywords_hdr S h2) = r_log r).
Proof.
  intros Hfn expected received r.
  assert (Hrun : forall h0 : header,
             lookup_kw "FILENAME" h0 = Some fn ->
             test_missing_keywords_hdr S h0 =
             Res (remove_kw "COMMENT" h0)
                 (if bool_decide
                       (expected ≠ list_to_set (keys (remove_kw "COMMENT" h0)))
                  then [presence_record fn expected
                          (list_to_set (keys (remove_kw "COMMENT" h0)))]
                  else [])
                 (Normal tt)).
  { intros h0 H0. unfold test_missing_keywords_hdr.
    rewrite <- (lookup_remove_ne "FILENAME" "COMMENT") in H0 by done.
    rewrite (bind_pure (contains "COMMENT") _ h0 (has_kw "COMMENT" h0) eq_refl).
    rewrite (bind_normal _ _ _ _ _ _ (drop_comment h0)).
    rewrite (bind_pure get_keys _ _ (keys (remove_kw "COMMENT" h0)) eq_refl).
    rewrite (bind_pure _ _ _ _ (getitem_some _ _ _ H0)).
    unfold compare_lists. fold expected.
    destruct (bool_decide _); reflexivity. }
  subst r. rewrite (Hrun h Hfn). fold received. cbn [r_hdr r_log r_out].
  assert (Hlog : symdiff expected received = ∅ <-> expected = received)
    by apply symdiff_empty.
  split; [done|]. split; [done|].
  case_bool_decide as Hd.
  - split; [done|]. split; [split; [discriminate|done]|].
    split; [by intros E%Hlog|].
    intros h2 H2 E2. rewrite (Hrun h2 H2), E2. cbn [r_log].
    by rewrite bool_decide_true.
  - assert (expected = received) as Heq
      by (destruct (decide (expected = received)); tauto).
    split; [split; [discriminate|intros N; by destruct N]|].
    split; [split; intros _; [exact Heq|reflexivity]|].
    split; [intros _; reflexivity|].
    intros h2 H2 E2. rewrite (Hrun h2 H2), E2. cbn [r_log].
    rewrite bool_decide_false; [done|]. intros N. by apply N.
Qed.

(** *** Checks that only read the header *)

Lemma readonly_ret {A} (a : A) : readonly (ret a).
Proof. by intros h. Qed.

Lemma readonly_raise {A} e : readonly (@raise A e).
Proof. by intros h. Qed.

Lemma readonly_getitem k : readonly (getitem k).
Proof. intros h. unfold getitem. by destruct (lookup_kw k h). Qed.

Lemma readonly_contains k : readonly (contains k).
Proof. by intros h. Qed.

Lemma readonly_logging r : readonly (logging_error r).
Proof. by intros h. Qed.

Lemma readonly_of_option {A} e (o : option A) : readonly (of_option e o).
Proof. destruct o; [apply readonly_ret|apply readonly_raise]. Qed.

Lemma readonly_lift {A} (o : outcome A) : readonly (lift o).
Proof. destruct o; [apply readonly_ret|apply readonly_raise]. Qed.

Lemma readonly_bind {A B} (m : M A) (f : A -> M B) :
  readonly m -> (forall a, readonly (f a)) -> readonly (bind m f).
Proof.
  intros Hm Hf h. unfold bind. specialize (Hm h).
  destruct (r_out (m h)); cbn [r_hdr]; [|done].
  rewrite Hf. done.
Qed.

Lemma readonly_try body handler :
  readonly body -> (forall e, readonly (handler e)) -> readonly (try_except body handler).
Proof.
  intros Hb Hh h. unfold try_except. specialize (Hb h).
  destruct (r_out (body h)); cbn [r_hdr]; [done|].
  rewrite Hh. done.
Qed.

Lemma readonly_for_each {X} (xs : list X) body :
  (forall x, readonly (body x)) -> readonly (for_each xs body).
Proof.
  intros Hb. induction xs as [|x xs IH]; simpl; [apply readonly_ret|].
  apply readonly_bind; [apply Hb|]. intros _. apply IH.
Qed.

Lemma readonly_if {A} (b : bool) (m1 m2 : M A) :
  readonly m1 -> readonly m2 -> readonly (if b then m1 else m2).
Proof. by destruct b. Qed.

Ltac readonly_tac :=
  repeat first
    [ apply readonly_ret | apply readonly_raise | apply readonly_getitem
    | apply readonly_contains | apply readonly_logging | apply readonly_of_option
    | apply readonly_lift | apply readonly_for_each; intros
    | apply readonly_try; intros | apply readonly_bind; intros
    | match goal with
      | |- readonly (if ?b then _ else _) => destruct b
      | |- readonly (match ?x with _ => _ end) => destruct x
      | |- readonly (let '(_, _) := ?x in _) => destruct x
      end ].

(** A loop whose bodies all end normally on [h] and leave it alone logs
    the bodies' lines one after the other. *)
Lemma for_each_quiet {X} (xs : list X) (body : X -> M unit) (h : header) :
  (forall x, In x xs -> r_hdr (body x h) = h /\ r_out (body x h) = Normal tt) ->
  for_each xs body h = Res h (concat (map (fun x => r_log (body x h)) xs)) (Normal tt).
Proof.
  induction xs as [|x xs IH]; intros Hq; simpl; [done|].
  destruct (Hq x (or_introl eq_refl)) as [Hh Ho].
  unfold bind. rewrite Ho, Hh. rewrite IH by (intros y Hy; apply Hq; by right).
  done.
Qed.

Lemma for_hdrs_quiet (body : M unit) (hs : list header) :
  (forall h, In h hs -> r_hdr (body h) = h /\ r_out (body h) = Normal tt) ->
  for_hdrs body hs = Run hs (concat (map (fun h => r_log (body h)) hs)) (Normal tt).
Proof.
  induction hs as [|h hs IH]; intros Hq; simpl; [done|].
  destruct (Hq h (or_introl eq_refl)) as [Hh Ho].
  rewrite Ho, Hh. rewrite IH by (intros y Hy; apply Hq; by right).
  done.
Qed.

Lemma in_concat_map {X Y} (f : X -> list Y) (xs : list X) x y :
  In x xs -> In y (f x) -> In y (concat (map f xs)).
Proof. intros Hx Hy. apply in_concat. exists (f x). split; [by apply in_map|done]. Qed.

(** A guarded body that only reads ends normally as soon as its handler
    does. *)
Lemma try_except_total body handler h :
  readonly body ->
  (forall e, r_out (handler e h) = Normal tt) ->
  r_out (try_except body handler h) = Normal tt.
Proof.
  intros Hb Hh. unfold try_except. specialize (Hb h).
  destruct (r_out (body h)) as [[]|e] eqn:E; [done|].
  cbn [r_out]. rewrite Hb. apply Hh.
Qed.

Lemma try_except_caught body handler h l e :
  body h = Res h l (Raise e) ->
  try_except body handler h =
  Res (r_hdr (handler e h)) (l ++ r_log (handler e h)) (r_out (handler e h)).
Proof. intros E. unfold try_except. by rewrite E. Qed.

Lemma try_except_normal body handler h l :
  body h = Res h l (Normal tt) -> try_except body handler h = Res h l (Normal tt).
Proof. intros E. unfold try_except. by rewrite E. Qed.

Lemma has_kw_first_value k h : has_kw k h = false <-> first_value k h = None.
Proof.
  unfold has_kw, keys. induction h as [|c h IH]; simpl; [done|].
  rewrite (String.eqb_sym k). destruct (String.eqb (c_kw c) k); simpl; [|done].
  split; discriminate.
Qed.

Lemma has_kw_filter k h :
  has_kw k h = false <-> List.filter (fun c => String.eqb (c_kw c) k) h = [].
Proof.
  unfold has_kw, keys. induction h as [|c h IH]; simpl; [done|].
  rewrite (String.eqb_sym k). destruct (String.eqb (c_kw c) k); simpl; [|done].
  split; discriminate.
Qed.

Lemma has_kw_comment_lines h : has_kw "COMMENT" h = false <-> comment_lines h = [].
Proof.
  rewrite has_kw_filter. unfold comment_lines.
  destruct (List.filter _ h); split; done.
Qed.

Lemma has_kw_lookup k h : has_kw k h = false <-> lookup_kw k h = None.
Proof.
  unfold lookup_kw. destruct (String.eqb_spec k "COMMENT") as [->|Hk].
  - rewrite has_kw_comment_lines. destruct (comment_lines h); split; done.
  - apply has_kw_first_value.
Qed.

Lemma lookup_has_kw k h v : lookup_kw k h = Some v -> has_kw k h = true.
Proof.
  intros E. destruct (has_kw k h) eqn:Hk; [done|].
  apply has_kw_lookup in Hk. congruence.
Qed.

Lemma list_to_set_empty_inv (l : list string) :
  list_to_set (C := gset string) l = ∅ -> l = [].
Proof.
  destruct l as [|x l]; [done|]. simpl. intros E.
  assert (x ∈ (∅ : gset string)) as N by (rewrite <- E; set_solver).
  set_solver.
Qed.






Lemma test_kw_sizes_kw_string h fn kw limit s :
  lookup_kw "FILENAME" h = Some fn ->
  lookup_kw kw h = Some (VStr s) ->
  test_kw_sizes_kw (kw, limit) h = Res h (size_record fn kw limit s) (Normal tt).
Proof.
  intros Hfn Hk. unfold test_kw_sizes_kw.
  rewrite (bind_pure _ _ _ _ (getitem_some _ _ _ Hk)).
  rewrite (bind_pure _ _ _ _ (getitem_some _ _ _ Hfn)).
  unfold verify_str_size, size_record, bind, of_option, ret, log_line, logging_error.
  cbn [py_len r_out r_hdr r_log app].
  by destruct (limit <? String.length s)%nat.
Qed.

(** C7. On a header that stores strings under PROJID, OBJECT and OBSERVER,
    the size check logs, for each of the three in that order, one line
    with the keyword, its limit (15, 30, 54) and the actual length exactly
    when the length is strictly above the limit: an OBSERVER of 60
    characters gives the single line (OBSERVER, 54, 60) and a string of
    exactly the limit gives none. *)
Theorem kw_sizes_exact (h : header) (fn : value) (projid object observer : string) :
  lookup_kw "FILENAME" h = Some fn ->
  lookup_kw "PROJID" h = Some (VStr projid) ->
  lookup_kw "OBJECT" h = Some (VStr object) ->
  lookup_kw "OBSERVER" h = Some (VStr observer) ->
  test_kw_sizes_hdr h =
    Res h (size_record fn "PROJID" 15 projid ++ size_record fn "OBJECT" 30 object
           ++ size_record fn "OBSERVER" 54 observer) (Normal tt)
  /\ (forall kw limit s,
        size_record fn kw limit s =
          [ {| rec_test := "test_kw_sizes"; rec_filename := fn;
               rec_payload := PSize kw limit (String.length s) |} ]
        <-> (limit < String.length s)%nat)
  /\ (forall kw limit s,
        size_record fn kw limit s = [] <-> (String.length s <= limit)%nat)
  /\ ((String.length projid <= 15)%nat -> (String.length object <= 30)%nat ->
      String.length observer = 60%nat ->
      r_log (test_kw_sizes_hdr h) =
        [ {| rec_test := "test_kw_sizes"; rec_filename := fn;
             rec_payload := PSize "OBSERVER" 54 60 |} ]).
Proof.
  intros Hfn Hp Hob Hobs.
  assert (Hrun : test_kw_sizes_hdr h =
    Res h (size_record fn "PROJID" 15 projid ++ size_record fn "OBJECT" 30 object
           ++ size_record fn "OBSERVER" 54 observer) (Normal tt)).
  { unfold test_kw_sizes_hdr, kws_fixed_str_size. cbn [for_each].
    rewrite (bind_normal _ _ _ _ _ _ (test_kw_sizes_kw_string _ _ _ _ _ Hfn Hp)).
    rewrite (bind_normal _ _ _ _ _ _ (test_kw_sizes_kw_string _ _ _ _ _ Hfn Hob)).
    rewrite (bind_normal _ _ _ _ _ _ (test_kw_sizes_kw_string _ _ _ _ _ Hfn Hobs)).
    cbn [ret r_out r_hdr r_log]. by rewrite app_nil_r. }
  assert (Hone : forall kw limit s,
        size_record fn kw limit s =
          [ {| rec_test := "test_kw_sizes"; rec_filename := fn;
               rec_payload := PSize kw limit (String.length s) |} ]
        <-> (limit < String.length s)%nat).
  { intros kw limit s. unfold size_record.
    destruct (Nat.ltb_spec limit (String.length s)); split; try done; lia. }
  assert (Hnone : forall kw limit s,
        size_record fn kw limit s = [] <-> (String.length s <= limit)%nat).
  { intros kw limit s. unfold size_record.
    destruct (Nat.ltb_spec limit (String.length s)); split; try done; lia. }
  split; [exact Hrun|]. split; [exact Hone|]. split; [exact Hnone|].
  intros H1 H2 H3. rewrite Hrun. cbn [r_log].
  rewrite (proj2 (Hnone "PROJID" 15%nat projid) H1).
  rewrite (proj2 (Hnone "OBJECT" 30%nat object) H2).
  rewrite (proj2 (Hone "OBSERVER" 54%nat observer)) by lia.
  by rewrite H3.
Qed.

(** *** The waveplate position *)

Lemma test_WPPOS_hdr_run h :
  carries ["INSTMODE"; "WPPOS"; "FILENAME"] h ->
  exists fn, lookup_kw "FILENAME" h = Some fn /\
    test_WPPOS_hdr h =
      Res h [] (if polar_at_zero h then Raise (wppos_error fn) else Normal tt).
Proof.
  intros Hc. unfold carries in Hc.
  apply Forall_cons in Hc as [[i Hi] Hc]. apply Forall_cons in Hc as [[w Hw] Hc].
  apply Forall_cons in Hc as [[fn Hfn] _].
  exists fn. split; [done|].
  unfold test_WPPOS_hdr, polar_at_zero. rewrite Hi, Hw.
  rewrite (bind_pure _ _ _ _ (getitem_some _ _ _ Hi)).
  rewrite (bind_pure _ _ _ _ (getitem_some _ _ _ Hw)).
  destruct (py_eq i (VStr "POLAR") && py_eq w (VInt 0)); [|done].
  by rewrite (bind_pure _ _ _ _ (getitem_some _ _ _ Hfn)).
Qed.

(** C4. On a batch whose headers carry INSTMODE, WPPOS and FILENAME: if
    some header has INSTMODE equal to "POLAR" and WPPOS equal to 0, the
    waveplate check raises, with nothing logged, a ValueError that names
    the filename of such a header (the first one of the batch); if no
    header has both, it ends normally with nothing logged. *)
Theorem wppos_check_fatal (hs : list header) :
  Forall (carries ["INSTMODE"; "WPPOS"; "FILENAME"]) hs ->
  ((exists h, In h hs /\ polar_at_zero h = true) ->
   exists h fn,
     In h hs /\ polar_at_zero h = true /\ lookup_kw "FILENAME" h = Some fn /\
     test_WPPOS hs = Run hs [] (Raise (wppos_error fn)))
  /\ ((forall h, In h hs -> polar_at_zero h = false) ->
      test_WPPOS hs = Run hs [] (Normal tt)).
Proof.
  unfold test_WPPOS. induction hs as [|h hs IH]; intros Hc.
  - split; [intros (h & [] & _)|done].
  - apply Forall_cons in Hc as [Hh Hc]. destruct (IH Hc) as [IH1 IH2].
    destruct (test_WPPOS_hdr_run h Hh) as (fn & Hfn & Hrun).
    cbn [for_hdrs]. rewrite Hrun. cbn [r_out r_hdr r_log].
    destruct (polar_at_zero h) eqn:Hp.
    + split.
      * intros _. exists h, fn. repeat split; try done. by left.
      * intros Hall. specialize (Hall h (or_introl eq_refl)). congruence.
    + split.
      * intros (h' & [->|Hin] & Hp'); [congruence|].
        destruct IH1 as (h2 & fn2 & Hin2 & Hp2 & Hfn2 & Hrun2); [by exists h'|].
        exists h2, fn2. repeat split; try done; [by right|].
        by rewrite Hrun2.
      * intros Hall. rewrite IH2; [done|]. intros h' Hin. apply Hall. by right.
Qed.

(** *** The EM-mode component of the calibration key *)

Lemma py_eq_string v s : py_eq v (VStr s) = true <-> v = VStr s.
Proof.
  split.
  - destruct v as [z|f|t|b|l]; unfold py_eq; simpl; try discriminate.
    intros E%String.eqb_eq. by subst.
  - intros ->. unfold py_eq. simpl. apply String.eqb_refl.
Qed.

Lemma normalize_em_mode_other v :
  v <> VStr "Conventional" -> normalize_em_mode v = VStr "EM".
Proof.
  intros Hv. unfold normalize_em_mode.
  destruct (py_eq v (VStr "Conventional")) eqn:E; [|done].
  apply py_eq_string in E. done.
Qed.

(** *** The guarded checks: types and intervals *)

Lemma of_option_some {A} e (a : A) h : of_option e (Some a) h = Res h [] (Normal a).
Proof. done. Qed.

Lemma of_option_none {A} e h : of_option e (@None A) h = Res h [] (Raise e).
Proof. done. Qed.

Lemma log_with_filename h fn func_name p :
  lookup_kw "FILENAME" h = Some fn ->
  bind (getitem "FILENAME") (fun filename => log_line func_name filename p) h
  = Res h [ {| rec_test := func_name; rec_filename := fn; rec_payload := p |} ] (Normal tt).
Proof. intros Hfn. by rewrite (bind_pure _ _ _ _ (getitem_some _ _ _ Hfn)). Qed.

Lemma readonly_log_line f fn p : readonly (log_line f fn p).
Proof. by intros h. Qed.

Lemma readonly_py_float fos v : readonly (py_float fos v).
Proof. unfold py_float. destruct v; readonly_tac. Qed.

Lemma readonly_types_row f row : readonly (test_keywords_types_row f row).
Proof.
  unfold test_keywords_types_row, verify_type.
  readonly_tac; apply readonly_log_line.
Qed.

Lemma readonly_interval_row fos f row : readonly (test_kws_in_interval_row fos f row).
Proof.
  unfold test_kws_in_interval_row, kw_in_interval.
  readonly_tac; try apply readonly_log_line; try apply readonly_py_float.
Qed.

Lemma types_row_quiet f row h fn :
  lookup_kw "FILENAME" h = Some fn ->
  r_hdr (test_keywords_types_row f row h) = h /\
  r_out (test_keywords_types_row f row h) = Normal tt.
Proof.
  intros Hfn. split; [apply readonly_types_row|].
  apply try_except_total.
  - unfold verify_type. readonly_tac; apply readonly_log_line.
  - intros e. by rewrite (log_with_filename _ _ _ _ Hfn).
Qed.

Lemma interval_row_quiet fos f row h fn :
  lookup_kw "FILENAME" h = Some fn ->
  r_hdr (test_kws_in_interval_row fos f row h) = h /\
  r_out (test_kws_in_interval_row fos f row h) = Normal tt.
Proof.
  intros Hfn. split; [apply readonly_interval_row|].
  apply try_except_total.
  - unfold kw_in_interval.
    readonly_tac; try apply readonly_log_line; try apply readonly_py_float.
  - intros e. by rewrite (log_with_filename _ _ _ _ Hfn).
Qed.

Lemma types_hdr_run S h fn :
  lookup_kw "FILENAME" h = Some fn ->
  test_keywords_types_hdr S h =
    Res h (concat (map (fun row => r_log (test_keywords_types_row "test_keywords_types" row h)) S))
        (Normal tt).
Proof.
  intros Hfn. unfold test_keywords_types_hdr. apply for_each_quiet.
  intros row _. by apply (types_row_quiet _ _ _ fn).
Qed.

Lemma interval_hdr_run fos S h fn :
  lookup_kw "FILENAME" h = Some fn ->
  test_kws_in_interval_hdr fos S h =
    Res h (concat (map (fun row =>
                          r_log (test_kws_in_interval_row fos "test_kws_in_interval" row h))
                       (filtered_hdr_content S)))
        (Normal tt).
Proof.
  intros Hfn. unfold test_kws_in_interval_hdr. apply for_each_quiet.
  intros row _. by apply (interval_row_quiet _ _ _ _ fn).
Qed.

Lemma float_le_finite x y : float_le (Finite x) (Finite y) = true <-> (x <= y)%Q.
Proof. apply Qle_bool_iff. Qed.

(** C5. For a schema row of type integer or float whose keyword is not on
    the exclusion list, with a cell "min,max" whose two parts parse (the
    token "inf" as max being positive infinity) and a header that holds a
    number under the keyword: the interval check logs exactly one line,
    naming the keyword, when the value is outside [min, max], and no line
    when min <= value <= max, both bounds included.  The line is part of
    what the check logs for that header, and nothing is raised. *)
Theorem interval_check_closed
    (fos : string -> option pyfloat) (S : schema) (row : schema_row) (h : header)
    (fn v : value) (x lo hi : pyfloat) (allowed a b : string) :
  In row S ->
  is_numeric_type (row_Type row) = true ->
  in_strings (row_Keyword row) kws_specific_values = false ->
  lookup_kw "FILENAME" h = Some fn ->
  lookup_kw (row_Keyword row) h = Some v ->
  as_number v = Some x ->
  row_Allowed_values row = Some allowed ->
  split_on comma allowed = [a; b] ->
  fos a = Some lo ->
  upper_bound fos b = Some hi ->
  let inside := float_le lo x && float_le x hi in
  let line := interval_record fn (row_Keyword row) lo hi v in
  test_kws_in_interval_row fos "test_kws_in_interval" row h =
    Res h (if inside then [] else [line]) (Normal tt)
  /\ In row (filtered_hdr_content S)
  /\ (inside = false -> In line (r_log (test_kws_in_interval_hdr fos S h)))
  /\ r_out (test_kws_in_interval_hdr fos S h) = Normal tt
  /\ (b = "inf" -> hi = PosInf)
  /\ (forall l q u : Q, lo = Finite l -> x = Finite q -> hi = Finite u ->
        (inside = true <-> (l <= q)%Q /\ (q <= u)%Q))
  /\ (forall l q : Q, lo = Finite l -> x = Finite q -> hi = PosInf ->
        (inside = true <-> (l <= q)%Q)).
Proof.
  intros Hin Hnum Hex Hfn Hv Hx Hcell Hsplit Hlo Hhi inside line.
  assert (Hrow : test_kws_in_interval_row fos "test_kws_in_interval" row h =
                 Res h (if inside then [] else [line]) (Normal tt)).
  { unfold test_kws_in_interval_row. apply try_except_normal.
    rewrite (bind_pure _ _ _ _ (getitem_some _ _ _ Hv)).
    rewrite (bind_pure _ _ _ _ (getitem_some _ _ _ Hfn)).
    rewrite Hex. cbn [negb]. rewrite Hcell.
    rewrite (bind_pure _ _ _ _ (of_option_some _ _ _)).
    rewrite Hsplit.
    rewrite (bind_pure (py_float fos (VStr a)) _ h lo)
      by (unfold py_float; by rewrite Hlo).
    rewrite (bind_pure _ _ h hi).
    2:{ unfold upper_bound in Hhi. destruct (String.eqb b "inf").
        - by injection Hhi as <-.
        - unfold py_float. by rewrite Hhi. }
    unfold kw_in_interval. rewrite Hx.
    rewrite (bind_pure _ _ _ _ (of_option_some _ _ _)).
    fold inside. by destruct inside. }
  assert (Hfilt : In row (filtered_hdr_content S)).
  { unfold filtered_hdr_content. apply filter_In. by split. }
  split; [exact Hrow|]. split; [exact Hfilt|].
  rewrite (interval_hdr_run fos S h fn Hfn). cbn [r_log r_out].
  split.
  { intros Hout. apply (in_concat_map _ _ row); [done|].
    rewrite Hrow. cbn [r_log]. rewrite Hout. by left. }
  split; [done|]. split.
  { intros ->. unfold upper_bound in Hhi. simpl in Hhi. by injection Hhi as <-. }
  split.
  - intros l q u -> -> ->. subst inside.
    rewrite andb_true_iff, !float_le_finite. done.
  - intros l q -> -> ->. subst inside. simpl.
    rewrite andb_true_r. apply Qle_bool_iff.
Qed.

Lemma types_row_missing f row h fn :
  lookup_kw "FILENAME" h = Some fn ->
  lookup_kw (row_Keyword row) h = None ->
  test_keywords_types_row f row h =
    Res h [exn_record f fn (Some (row_Keyword row)) (KeyError (row_Keyword row))] (Normal tt).
Proof.
  intros Hfn Hk. unfold test_keywords_types_row. cbv zeta.
  rewrite (try_except_caught _ _ h [] (KeyError (row_Keyword row)))
    by (apply bind_raise; exact (getitem_none _ _ Hk)).
  by rewrite (log_with_filename _ _ _ _ Hfn).
Qed.

Lemma interval_row_missing fos f row h fn :
  lookup_kw "FILENAME" h = Some fn ->
  lookup_kw (row_Keyword row) h = None ->
  test_kws_in_interval_row fos f row h =
    Res h [exn_record f fn None (KeyError (row_Keyword row))] (Normal tt).
Proof.
  intros Hfn Hk. unfold test_kws_in_interval_row.
  rewrite (try_except_caught _ _ h [] (KeyError (row_Keyword row)))
    by (apply bind_raise; exact (getitem_none _ _ Hk)).
  by rewrite (log_with_filename _ _ _ _ Hfn).
Qed.

Lemma interval_row_malformed fos f row h fn v allowed a b :
  lookup_kw "FILENAME" h = Some fn ->
  lookup_kw (row_Keyword row) h = Some v ->
  in_strings (row_Keyword row) kws_specific_values = false ->
  row_Allowed_values row = Some allowed ->
  split_on comma allowed = [a; b] ->
  fos a = None ->
  test_kws_in_interval_row fos f row h =
    Res h [exn_record f fn None
             (ValueError "could not convert string to float" [VStr a])] (Normal tt).
Proof.
  intros Hfn Hv Hex Hcell Hsplit Ha. unfold test_kws_in_interval_row.
  rewrite (try_except_caught _ _ h []
             (ValueError "could not convert string to float" [VStr a])).
  - by rewrite (log_with_filename _ _ _ _ Hfn).
  - rewrite (bind_pure _ _ _ _ (getitem_some _ _ _ Hv)).
    rewrite (bind_pure _ _ _ _ (getitem_some _ _ _ Hfn)).
    rewrite Hex. cbn [negb]. rewrite Hcell.
    rewrite (bind_pure _ _ _ _ (of_option_some _ _ _)).
    rewrite Hsplit. apply bind_raise. unfold py_float. by rewrite Ha.
Qed.

(** C3, as the code has it.  The type check and the interval check guard
    the body of each row: on a batch whose headers carry FILENAME they end
    normally and leave the headers as they are, and a keyword that the
    header lacks, or a lower bound that is not a number, is logged with
    the exception it raised. *)
Theorem guarded_checks_continue
    (fos : string -> option pyfloat) (S : schema) (hs : list header) :
  Forall (carries ["FILENAME"]) hs ->
  (run_out (test_keywords_types S hs) = Normal tt /\
   run_hdrs (test_keywords_types S hs) = hs) /\
  (run_out (test_kws_in_interval fos S hs) = Normal tt /\
   run_hdrs (test_kws_in_interval fos S hs) = hs) /\
  (forall h row fn,
      In h hs -> In row S ->
      lookup_kw "FILENAME" h = Some fn ->
      lookup_kw (row_Keyword row) h = None ->
      In (exn_record "test_keywords_types" fn (Some (row_Keyword row))
            (KeyError (row_Keyword row)))
         (run_log (test_keywords_types S hs)) /\
      (is_numeric_type (row_Type row) = true ->
       In (exn_record "test_kws_in_interval" fn None (KeyError (row_Keyword row)))
          (run_log (test_kws_in_interval fos S hs)))) /\
  (forall h row fn v allowed a b,
      In h hs -> In row S ->
      lookup_kw "FILENAME" h = Some fn ->
      is_numeric_type (row_Type row) = true ->
      lookup_kw (row_Keyword row) h = Some v ->
      in_strings (row_Keyword row) kws_specific_values = false ->
      row_Allowed_values row = Some allowed ->
      split_on comma allowed = [a; b] ->
      fos a = None ->
      In (exn_record "test_kws_in_interval" fn None
            (ValueError "could not convert string to float" [VStr a]))
         (run_log (test_kws_in_interval fos S hs))).
Proof.
  intros Hc.
  assert (Hfn : forall h, In h hs -> exists fn, lookup_kw "FILENAME" h = Some fn).
  { intros h Hin. rewrite Forall_forall in Hc.
    specialize (Hc h (proj2 (list_elem_of_In _ _) Hin)).
    by apply Forall_cons in Hc as [Hf _]. }
  assert (Ht : test_keywords_types S hs =
               Run hs (concat (map (fun h => r_log (test_keywords_types_hdr S h)) hs))
                   (Normal tt)).
  { apply for_hdrs_quiet. intros h Hin. destruct (Hfn h Hin) as [fn E].
    by rewrite (types_hdr_run S h fn E). }
  assert (Hi : test_kws_in_interval fos S hs =
               Run hs (concat (map (fun h => r_log (test_kws_in_interval_hdr fos S h)) hs))
                   (Normal tt)).
  { apply for_hdrs_quiet. intros h Hin. destruct (Hfn h Hin) as [fn E].
    by rewrite (interval_hdr_run fos S h fn E). }
  rewrite Ht, Hi. cbn [run_out run_hdrs run_log].
  split; [done|]. split; [done|]. split.
  - intros h row fn Hin Hrow E Hk. split.
    + apply (in_concat_map _ _ h); [done|].
      rewrite (types_hdr_run S h fn E). cbn [r_log].
      apply (in_concat_map _ _ row); [done|].
      rewrite (types_row_missing _ _ _ _ E Hk). by left.
    + intros Hnum. apply (in_concat_map _ _ h); [done|].
      rewrite (interval_hdr_run fos S h fn E). cbn [r_log].
      apply (in_concat_map _ _ row).
      * unfold filtered_hdr_content. apply filter_In. by split.
      * rewrite (interval_row_missing _ _ _ _ _ E Hk). by left.
  - intros h row fn v allowed a b Hin Hrow E Hnum Hv Hex Hcell Hsplit Ha.
    apply (in_concat_map _ _ h); [done|].
    rewrite (interval_hdr_run fos S h fn E). cbn [r_log].
    apply (in_concat_map _ _ row).
    + unfold filtered_hdr_content. apply filter_In. by split.
    + rewrite (interval_row_malformed _ _ _ _ _ _ _ _ _ E Hv Hex Hcell Hsplit Ha).
      by left.
Qed.

(** *** The enumeration check *)

Lemma coerce_all_pure fos ios t l h :
  exists o, coerce_all fos ios t l h = Res h [] o.
Proof.
  induction l as [|s l [o IH]]; [by eexists|]. cbn [coerce_all].
  assert (exists o1, (if String.eqb t "integer"
                      then bind (py_int ios s) (fun z => ret (VInt z))
                      else bind (py_float fos (VStr s)) (fun f => ret (VFloat f))) h
                     = Res h [] o1) as [o1 E1].
  { destruct (String.eqb t "integer"); unfold bind, py_int, py_float, of_option.
    - destruct (ios s); by eexists.
    - destruct (fos s); by eexists. }
  destruct o1 as [v|e].
  - rewrite (bind_pure _ _ _ _ E1). destruct o as [vs|e].
    + rewrite (bind_pure _ _ _ _ IH). by eexists.
    + rewrite (bind_raise _ _ _ _ _ _ IH). by eexists.
  - rewrite (bind_raise _ _ _ _ _ _ E1). by eexists.
Qed.

Lemma allowed_values_pure fos ios S kw h :
  exists o, allowed_values_of fos ios S kw h = Res h [] o.
Proof.
  unfold allowed_values_of.
  destruct (head _) as [first|]; [|by eexists].
  rewrite (bind_pure _ _ _ _ (of_option_some _ _ _)).
  destruct (row_Allowed_values first) as [allowed|]; [|by eexists].
  rewrite (bind_pure _ _ _ _ (of_option_some _ _ _)).
  destruct (is_numeric_type _); [apply coerce_all_pure|by eexists].
Qed.

Lemma specific_vals_kw_run fos ios S kw h fn v allowed :
  allowed_values_of fos ios S kw h = Res h [] (Normal allowed) ->
  lookup_kw "FILENAME" h = Some fn ->
  lookup_kw kw h = Some v ->
  test_kws_specific_vals_kw fos ios S kw h =
    if py_in v allowed then Res h [] (Normal tt)
    else Res h [enum_record fn kw allowed v] (Raise AssertionError).
Proof.
  intros Ha Hfn Hv. unfold test_kws_specific_vals_kw.
  rewrite (bind_pure _ _ _ _ Ha).
  rewrite (bind_pure _ _ _ _ (getitem_some _ _ _ Hfn)).
  rewrite (bind_pure _ _ _ _ (getitem_some _ _ _ Hv)).
  unfold val_in_list. destruct (py_in v allowed) eqn:Hin; cbn [negb].
  - rewrite (bind_pure (ret tt) _ h tt eq_refl).
    rewrite (bind_pure _ _ _ _ (getitem_some _ _ _ Hv)). by rewrite Hin.
  - unfold bind at 1. cbn [log_line logging_error r_out r_hdr r_log].
    rewrite (bind_pure _ _ _ _ (getitem_some _ _ _ Hv)). by rewrite Hin.
Qed.

Lemma specific_vals_kw_shape fos ios S kw h :
  let r := test_kws_specific_vals_kw fos ios S kw h in
  r_hdr r = h /\ logs_then_aborts (r_log r) (r_out r).
Proof.
  cbv zeta. destruct (allowed_values_pure fos ios S kw h) as [[allowed|e] Ha].
  2:{ unfold test_kws_specific_vals_kw. rewrite (bind_raise _ _ _ _ _ _ Ha).
      split; [done|by left]. }
  destruct (lookup_kw "FILENAME" h) as [fn|] eqn:Hfn.
  2:{ unfold test_kws_specific_vals_kw. rewrite (bind_pure _ _ _ _ Ha).
      rewrite (bind_raise _ _ _ _ _ _ (getitem_none _ _ Hfn)).
      split; [done|by left]. }
  destruct (lookup_kw kw h) as [v|] eqn:Hv.
  2:{ unfold test_kws_specific_vals_kw. rewrite (bind_pure _ _ _ _ Ha).
      rewrite (bind_pure _ _ _ _ (getitem_some _ _ _ Hfn)).
      rewrite (bind_raise _ _ _ _ _ _ (getitem_none _ _ Hv)).
      split; [done|by left]. }
  rewrite (specific_vals_kw_run _ _ _ _ _ _ _ _ Ha Hfn Hv).
  destruct (py_in v allowed); (split; [done|]); [by left|right; by eexists].
Qed.

Lemma for_each_shape {X} (xs : list X) (body : X -> M unit) h :
  (forall x h, r_hdr (body x h) = h /\ logs_then_aborts (r_log (body x h)) (r_out (body x h))) ->
  r_hdr (for_each xs body h) = h /\
  logs_then_aborts (r_log (for_each xs body h)) (r_out (for_each xs body h)).
Proof.
  intros Hb. induction xs as [|x xs [IH1 IH2]]; [split; [done|by left]|].
  cbn [for_each]. unfold bind. destruct (Hb x h) as [Hh Hs].
  destruct (r_out (body x h)) as [[]|e] eqn:Ho; cbn [r_hdr r_log r_out].
  - rewrite Hh. split; [exact IH1|].
    destruct Hs as [->|(line & _ & N)]; [exact IH2|discriminate].
  - split; [exact Hh|]. exact Hs.
Qed.

Lemma for_hdrs_shape (body : M unit) (hs : list header) :
  (forall h, r_hdr (body h) = h /\ logs_then_aborts (r_log (body h)) (r_out (body h))) ->
  run_hdrs (for_hdrs body hs) = hs /\
  logs_then_aborts (run_log (for_hdrs body hs)) (run_out (for_hdrs body hs)).
Proof.
  intros Hb. induction hs as [|h hs [IH1 IH2]]; [split; [done|by left]|].
  cbn [for_hdrs]. destruct (Hb h) as [Hh Hs].
  destruct (r_out (body h)) as [[]|e] eqn:Ho; cbn [run_hdrs run_log run_out].
  - rewrite Hh, IH1. split; [done|].
    destruct Hs as [->|(line & _ & N)]; [exact IH2|discriminate].
  - rewrite Hh. split; [done|]. exact Hs.
Qed.

(** C1, as the code has it.  For a keyword of the exclusion list whose
    allowed values parse, on a header that carries FILENAME and the
    keyword: a value that is a member logs nothing and the check goes on;
    a value that is not a member logs one line (keyword, allowed values,
    value) and then fails the assertion that closes the loop body, which
    ends the check.  So a run of the check logs at most one line, and one
    that logs a line ends in AssertionError; the headers are left as they
    are. *)
Theorem enum_check_logs_then_aborts
    (fos : string -> option pyfloat) (ios : string -> option Z) (S : schema) :
  (forall kw h fn v allowed,
      allowed_values_of fos ios S kw h = Res h [] (Normal allowed) ->
      lookup_kw "FILENAME" h = Some fn ->
      lookup_kw kw h = Some v ->
      test_kws_specific_vals_kw fos ios S kw h =
        if py_in v allowed then Res h [] (Normal tt)
        else Res h [enum_record fn kw allowed v] (Raise AssertionError))
  /\ (forall hs,
        let r := test_kws_specific_vals fos ios S hs in
        run_hdrs r = hs /\
        (run_log r = [] \/
         exists line, run_log r = [line] /\ run_out r = Raise AssertionError)).
Proof.
  split; [apply specific_vals_kw_run|].
  intros hs. cbv zeta. unfold test_kws_specific_vals.
  apply for_hdrs_shape. intros h. unfold test_kws_specific_vals_hdr.
  apply for_each_shape. intros kw h'. apply specific_vals_kw_shape.
Qed.

(** *** Which checks touch the headers *)

Lemma for_hdrs_readonly (body : M unit) (hs : list header) :
  readonly body -> run_hdrs (for_hdrs body hs) = hs.
Proof.
  intros Hb. induction hs as [|h hs IH]; [done|]. cbn [for_hdrs].
  destruct (r_out (body h)); cbn [run_hdrs]; rewrite Hb; [by rewrite IH|done].
Qed.

Lemma readonly_coerce_all fos ios t l : readonly (coerce_all fos ios t l).
Proof.
  induction l as [|s l IH]; cbn [coerce_all]; [apply readonly_ret|].
  unfold py_int. readonly_tac; try apply readonly_py_float. apply IH.
Qed.

Lemma readonly_allclose e r : readonly (allclose e r).
Proof. unfold allclose. destruct (as_number e), (as_number r); readonly_tac. Qed.

Ltac readonly_leaves :=
  first [ apply readonly_log_line | apply readonly_py_float | apply readonly_allclose
        | apply readonly_coerce_all ].

Lemma readonly_compare_numbers e r fn f : readonly (compare_numbers e r fn f).
Proof. unfold compare_numbers. readonly_tac; readonly_leaves. Qed.

Lemma readonly_specific_vals fos ios S : readonly (test_kws_specific_vals_hdr fos ios S).
Proof.
  unfold test_kws_specific_vals_hdr, test_kws_specific_vals_kw, allowed_values_of,
    val_in_list.
  readonly_tac; readonly_leaves.
Qed.















Lemma presence_hdr_no_filename S h :
  lookup_kw "FILENAME" h = None ->
  test_missing_keywords_hdr S h =
    Res (remove_kw "COMMENT" h) [] (Raise (KeyError "FILENAME")).
Proof.
  intros Hfn. rewrite <- (lookup_remove_ne "FILENAME" "COMMENT") in Hfn by done.
  unfold test_missing_keywords_hdr.
  rewrite (bind_pure (contains "COMMENT") _ h (has_kw "COMMENT" h) eq_refl).
  rewrite (bind_normal _ _ _ _ _ _ (drop_comment h)).
  rewrite (bind_pure get_keys _ _ (keys (remove_kw "COMMENT" h)) eq_refl).
  by rewrite (bind_raise _ _ _ _ _ _ (getitem_none _ _ Hfn)).
Qed.


(** *** Checks that do not see the COMMENT cards *)

Lemma remove_kw_idem k h : remove_kw k (remove_kw k h) = remove_kw k h.
Proof. apply has_kw_false_remove, has_kw_remove. Qed.









































(** *** Approximate and exact comparisons *)

Lemma logs_only_silent {A} P (m : M A) : (forall h, r_log (m h) = []) -> logs_only P m.
Proof. intros Hm h. rewrite Hm. constructor. Qed.

Lemma silent_getitem k h : r_log (getitem k h) = [].
Proof. unfold getitem. by destruct (lookup_kw k h). Qed.

Lemma silent_of_option {A} e (o : option A) h : r_log (of_option e o h) = [].
Proof. by destruct o. Qed.

Lemma silent_lift {A} (o : outcome A) h : r_log (lift o h) = [].
Proof. by destruct o. Qed.

Lemma silent_py_float fos v h : r_log (py_float fos v h) = [].
Proof. unfold py_float. destruct v; try apply silent_of_option; done. Qed.

Lemma silent_df_column t name h : r_log (df_column t name h) = [].
Proof.
  unfold df_column, bind. destruct (index_of name (columns t)); done.
Qed.

Lemma logs_only_bind {A B} P (m : M A) (f : A -> M B) :
  logs_only P m -> (forall a, logs_only P (f a)) -> logs_only P (bind m f).
Proof.
  intros Hm Hf h. unfold bind. specialize (Hm h).
  destruct (r_out (m h)); cbn [r_log]; [|done].
  apply Forall_app. split; [done|apply Hf].
Qed.

Lemma for_hdrs_logs_only P (body : M unit) hs :
  logs_only P body -> Forall P (run_log (for_hdrs body hs)).
Proof.
  intros Hb. induction hs as [|h hs IH]; [constructor|]. cbn [for_hdrs].
  destruct (r_out (body h)); cbn [run_log]; [|apply Hb].
  apply Forall_app. split; [apply Hb|done].
Qed.

Lemma compare_numbers_run expected received fn f h a b :
  as_number expected = Some a -> as_number received = Some b ->
  compare_numbers expected received fn f h =
    Res h (if isclose a b then [] else [numbers_record f fn expected received])
        (Normal tt).
Proof.
  intros Ha Hb. unfold compare_numbers, allclose. rewrite Ha, Hb.
  rewrite (bind_pure (ret (isclose a b)) _ h (isclose a b) eq_refl).
  by destruct (isclose a b).
Qed.

Lemma compare_numbers_logs expected received fn f :
  logs_only tolerance_failure (compare_numbers expected received fn f).
Proof.
  intros h. unfold compare_numbers, allclose.
  destruct (as_number expected) as [a|] eqn:Ha; [|constructor].
  destruct (as_number received) as [b|] eqn:Hb; [|constructor].
  rewrite (bind_pure (ret (isclose a b)) _ h (isclose a b) eq_refl).
  destruct (isclose a b) eqn:Hc; [constructor|].
  repeat constructor. by exists expected, received, a, b.
Qed.

Ltac logs_only_tac :=
  repeat first
    [ apply compare_numbers_logs
    | apply logs_only_silent; intros;
      first [ apply silent_getitem | apply silent_of_option | apply silent_lift
            | apply silent_py_float | apply silent_df_column | reflexivity ]
    | apply logs_only_bind; intros ].

Lemma calibration_logs fos repr table kw f :
  logs_only tolerance_failure (calibration_hdr fos repr table kw f).
Proof. unfold calibration_hdr, calibration_lookup. logs_only_tac. Qed.

Lemma observatory_logs : logs_only tolerance_failure test_observatory_coords_hdr.
Proof. unfold test_observatory_coords_hdr. logs_only_tac. Qed.

Lemma constants_logs :
  logs_only tolerance_failure test_equinox_hdr /\
  logs_only tolerance_failure test_BSCALE_hdr /\
  logs_only tolerance_failure test_BZERO_hdr /\
  logs_only tolerance_failure test_BITPIX_hdr /\
  logs_only tolerance_failure test_NAXIS_hdr.
Proof.
  unfold test_equinox_hdr, test_BSCALE_hdr, test_BZERO_hdr, test_BITPIX_hdr,
    test_NAXIS_hdr.
  repeat split; logs_only_tac.
Qed.

Lemma val_in_list_run v l kw fn f h :
  val_in_list v l kw fn f h =
    Res h (if py_in v l then []
           else [ {| rec_test := f; rec_filename := fn; rec_payload := PNotIn kw l v |} ])
        (Normal tt).
Proof. unfold val_in_list. by destruct (py_in v l). Qed.

Lemma py_in_finite (x : Q) (l : list Q) :
  py_in (VFloat (Finite x)) (map (fun y => VFloat (Finite y)) l) = true
  <-> exists y, In y l /\ (x == y)%Q.
Proof.
  unfold py_in. rewrite existsb_exists. split.
  - intros (w & (y & <- & Hy)%in_map_iff & E). exists y. split; [done|].
    by apply Qeq_bool_iff.
  - intros (y & Hy & E). exists (VFloat (Finite y)). split.
    + apply in_map_iff. by exists y.
    + by apply Qeq_bool_iff.
Qed.

Lemma well_within_close x y : well_within x y -> isclose (Finite x) (Finite y) = true.
Proof.
  unfold well_within, tolerance, isclose. intros H. apply Qle_bool_iff.
  pose proof (Qabs_nonneg (x - y)) as Hd. lra.
Qed.

Lemma well_apart_not_close x y : well_apart x y -> isclose (Finite x) (Finite y) = false.
Proof.
  unfold well_apart, tolerance, isclose. intros H.
  destruct (Qle_bool (Qabs (x - y)) (atol + rtol * Qabs y)) eqn:E; [|done].
  apply Qle_bool_iff in E. pose proof (Qabs_nonneg y) as Hy.
  unfold atol, rtol in *. lra.
Qed.

Lemma tolerance_failure_outside r : tolerance_failure r -> outside_tolerance r.
Proof.
  intros (expected & received & a & b & Hp & Ha & Hb & Hc).
  exists expected, received, a, b. repeat split; try done.
  intros x y -> -> Hw. by rewrite (well_within_close x y Hw) in Hc.
Qed.

Lemma logs_outside (l : list record) : Forall tolerance_failure l -> Forall outside_tolerance l.
Proof.
  induction 1 as [|r l Hr _ IH]; constructor; [by apply tolerance_failure_outside|exact IH].
Qed.

(** C8, as the code has it.  The comparisons made through
    [compare_numbers] (the observatory coordinates, EQUINOX, BSCALE, BZERO,
    BITPIX, NAXIS, the gain and the read noise) are approximate: two
    numbers closer than half of 1e-8 + 1e-5 * |received| log nothing, two
    numbers further apart than twice that tolerance log one line, and
    every line that these checks log names two numbers that are not well
    within the tolerance.  The membership test of the enumeration check is
    exact: a line is logged exactly when no allowed value is equal to the
    header's value, so that a value well within the tolerance of the one
    allowed value, and not equal to it, is accepted by the first and
    rejected by the second. *)
Theorem comparisons_tolerant_membership_exact
    (fos : string -> option pyfloat) (repr : value -> string) (gains noises : DataFrame) :
  (forall expected received fn f h x y,
      as_number expected = Some (Finite x) -> as_number received = Some (Finite y) ->
      (well_within x y ->
         compare_numbers expected received fn f h = Res h [] (Normal tt)) /\
      (well_apart x y ->
         compare_numbers expected received fn f h =
           Res h [numbers_record f fn expected received] (Normal tt)))
  /\ (forall hs,
        Forall outside_tolerance (run_log (test_observatory_coords hs)) /\
        Forall outside_tolerance (run_log (test_ccd_gain fos repr gains hs)) /\
        Forall outside_tolerance (run_log (test_read_noise fos repr noises hs)) /\
        Forall outside_tolerance (run_log (test_equinox hs)) /\
        Forall outside_tolerance (run_log (test_BSCALE hs)) /\
        Forall outside_tolerance (run_log (test_BZERO hs)) /\
        Forall outside_tolerance (run_log (test_BITPIX hs)) /\
        Forall outside_tolerance (run_log (test_NAXIS hs)))
  /\ (forall v l kw fn f h,
        val_in_list v l kw fn f h =
          Res h (if py_in v l then []
                 else [ {| rec_test := f; rec_filename := fn;
                           rec_payload := PNotIn kw l v |} ])
              (Normal tt))
  /\ (forall (x : Q) (l : list Q),
        py_in (VFloat (Finite x)) (map (fun y => VFloat (Finite y)) l) = true
        <-> exists y, In y l /\ (x == y)%Q)
  /\ (forall (x y : Q) kw fn f h,
        well_within x y -> ~ (x == y)%Q ->
        r_log (compare_numbers (VFloat (Finite x)) (VFloat (Finite y)) fn f h) = [] /\
        r_log (val_in_list (VFloat (Finite y)) [VFloat (Finite x)] kw fn f h) =
          [ {| rec_test := f; rec_filename := fn;
               rec_payload := PNotIn kw [VFloat (Finite x)] (VFloat (Finite y)) |} ]).
Proof.
  split; [|split; [|split; [|split]]].
  - intros expected received fn f h x y Ha Hb.
    rewrite (compare_numbers_run expected received fn f h _ _ Ha Hb). split.
    + intros Hw. by rewrite (well_within_close x y Hw).
    + intros Hw. by rewrite (well_apart_not_close x y Hw).
  - intros hs. destruct constants_logs as (He & Hs & Hz & Hb & Hn).
    repeat split; apply logs_outside, for_hdrs_logs_only;
      first [ apply observatory_logs | apply calibration_logs | assumption ].
  - apply val_in_list_run.
  - apply py_in_finite.
  - intros x y kw fn f h Hw Hne. split.
    + rewrite (compare_numbers_run (VFloat (Finite x)) (VFloat (Finite y)) fn f h
                 (Finite x) (Finite y) eq_refl eq_refl).
      by rewrite (well_within_close x y Hw).
    + rewrite val_in_list_run.
      assert (E : py_in (VFloat (Finite y)) [VFloat (Finite x)] = false).
      { unfold py_in. cbn [existsb]. unfold py_eq. cbn [as_number float_eqb].
        destruct (Qeq_bool y x) eqn:E; [|done].
        apply Qeq_bool_iff in E. destruct Hne. by symmetry. }
      by rewrite E.
Qed.


(* ===================================================================== *)
(** ** The theorems at work on the example batch *)
(* ===================================================================== *)

Lemma ex_carries_filename :
  Forall (carries ["FILENAME"]) [ex_hdr; ex_hdr_no_filter].
Proof. repeat constructor; by eexists. Defined.



Lemma presence_check_sets_witness :
  lookup_kw "FILENAME" ex_hdr = Some ex_filename /\
  r_hdr (test_missing_keywords_hdr ex_schema ex_hdr) = remove_kw "COMMENT" ex_hdr /\
  r_out (test_missing_keywords_hdr ex_schema ex_hdr) = Normal tt.
Proof.
  split; [reflexivity|].
  pose proof (presence_check_sets ex_schema ex_hdr ex_filename eq_refl) as H.
  cbv zeta in H. split; [exact (proj1 H)|exact (proj1 (proj2 H))].
Defined.

Lemma kw_sizes_exact_witness :
  lookup_kw "OBSERVER" ex_hdr
    = Some (VStr "abcdefghijabcdefghijabcdefghijabcdefghijabcdefghijabcdefghij") /\
  r_log (test_kw_sizes_hdr ex_hdr) =
    [ {| rec_test := "test_kw_sizes"; rec_filename := ex_filename;
         rec_payload := PSize "OBSERVER" 54 60 |} ].
Proof.
  split; [reflexivity|].
  refine (proj2 (proj2 (proj2
    (kw_sizes_exact ex_hdr ex_filename "P-001" "HD 1234"
       "abcdefghijabcdefghijabcdefghijabcdefghijabcdefghijabcdefghij"
       eq_refl eq_refl eq_refl eq_refl))) _ _ eq_refl); vm_compute; lia.
Defined.

Lemma ex_carries_wppos :
  Forall (carries ["INSTMODE"; "WPPOS"; "FILENAME"]) [ex_hdr; ex_hdr_polar].
Proof. repeat constructor; by eexists. Defined.

Lemma wppos_check_fatal_witness :
  Forall (carries ["INSTMODE"; "WPPOS"; "FILENAME"]) [ex_hdr; ex_hdr_polar] /\
  polar_at_zero ex_hdr_polar = true /\
  exists h fn,
    In h [ex_hdr; ex_hdr_polar] /\ polar_at_zero h = true /\
    lookup_kw "FILENAME" h = Some fn /\
    test_WPPOS [ex_hdr; ex_hdr_polar] =
      Run [ex_hdr; ex_hdr_polar] [] (Raise (wppos_error fn)).
Proof.
  split; [exact ex_carries_wppos|]. split; [reflexivity|].
  apply (proj1 (wppos_check_fatal [ex_hdr; ex_hdr_polar] ex_carries_wppos)).
  exists ex_hdr_polar. split; [right; left; reflexivity|reflexivity].
Defined.

Lemma interval_check_closed_witness :
  lookup_kw "EXPTIME" ex_hdr = Some (VFloat (Finite (1 # 4))) /\
  split_on comma "0.5,inf" = ["0.5"; "inf"] /\
  test_kws_in_interval_row dec_float "test_kws_in_interval"
    (mk_row "EXPTIME" "float" (Some "0.5,inf")) ex_hdr =
    Res ex_hdr
      [interval_record ex_filename "EXPTIME" (Finite (1 # 2)) PosInf
         (VFloat (Finite (1 # 4)))]
      (Normal tt).
Proof.
  split; [reflexivity|]. split; [reflexivity|].
  refine (proj1
    (interval_check_closed dec_float ex_schema
       (mk_row "EXPTIME" "float" (Some "0.5,inf")) ex_hdr ex_filename
       (VFloat (Finite (1 # 4))) (Finite (1 # 4)) (Finite (1 # 2)) PosInf
       "0.5,inf" "0.5" "inf" _ eq_refl eq_refl eq_refl eq_refl eq_refl eq_refl
       eq_refl eq_refl eq_refl)).
  do 5 right. left. reflexivity.
Defined.

Lemma guarded_checks_continue_witness :
  Forall (carries ["FILENAME"]) [ex_hdr; ex_hdr_no_filter] /\
  lookup_kw "FILTER" ex_hdr_no_filter = None /\
  run_out (test_keywords_types ex_schema [ex_hdr; ex_hdr_no_filter]) = Normal tt /\
  In (exn_record "test_keywords_types" (VStr "20250522_s4c1_000003.fits")
        (Some "FILTER") (KeyError "FILTER"))
     (run_log (test_keywords_types ex_schema [ex_hdr; ex_hdr_no_filter])).
Proof.
  split; [exact ex_carries_filename|]. split; [reflexivity|].
  pose proof (guarded_checks_continue dec_float ex_schema [ex_hdr; ex_hdr_no_filter]
                ex_carries_filename) as H.
  split; [exact (proj1 (proj1 H))|].
  refine (proj1 (proj1 (proj2 (proj2 H)) ex_hdr_no_filter
                   (mk_row "FILTER" "string" (Some "CLEAR,B,V,R,I"))
                   (VStr "20250522_s4c1_000003.fits") _ _ eq_refl eq_refl)).
  - right. left. reflexivity.
  - do 4 right. left. reflexivity.
Defined.

Lemma enum_check_logs_then_aborts_witness :
  allowed_values_of dec_float dec_int ex_schema "BITPIX" ex_hdr_bitpix
    = Res ex_hdr_bitpix [] (Normal [VInt 16]) /\
  test_kws_specific_vals_kw dec_float dec_int ex_schema "BITPIX" ex_hdr_bitpix =
    Res ex_hdr_bitpix
      [enum_record (VStr "20250522_s4c1_000004.fits") "BITPIX" [VInt 16]
         (VFloat (Finite (1600001 # 100000)))]
      (Raise AssertionError).
Proof.
  split; [reflexivity|].
  exact (proj1 (enum_check_logs_then_aborts dec_float dec_int ex_schema)
           "BITPIX" ex_hdr_bitpix (VStr "20250522_s4c1_000004.fits")
           (VFloat (Finite (1600001 # 100000))) [VInt 16] eq_refl eq_refl eq_refl).
Defined.

Lemma comparisons_tolerant_membership_exact_witness :
  as_number (VInt 16) = Some (Finite 16) /\
  well_within 16 (1600001 # 100000) /\
  compare_numbers (VInt 16) (VFloat (Finite (1600001 # 100000)))
    (VStr "20250522_s4c1_000004.fits") "test_BITPIX" ex_hdr_bitpix
  = Res ex_hdr_bitpix [] (Normal tt) /\
  well_apart 16 32 /\
  compare_numbers (VInt 16) (VInt 32)
    (VStr "20250522_s4c1_000004.fits") "test_BITPIX" ex_hdr_bitpix
  = Res ex_hdr_bitpix
      [numbers_record "test_BITPIX" (VStr "20250522_s4c1_000004.fits") (VInt 16) (VInt 32)]
      (Normal tt).
Proof.
  assert (Hw : well_within 16 (1600001 # 100000)) by (vm_compute; discriminate).
  assert (Ha : well_apart 16 32) by (vm_compute; discriminate).
  split; [reflexivity|]. split; [exact Hw|]. split; [|split; [exact Ha|]].
  - exact (proj1 (proj1 (comparisons_tolerant_membership_exact dec_float value_text
                           ex_gains ex_gains)
                   (VInt 16) (VFloat (Finite (1600001 # 100000)))
                   (VStr "20250522_s4c1_000004.fits") "test_BITPIX" ex_hdr_bitpix
                   16%Q (1600001 # 100000)%Q eq_refl eq_refl) Hw).
  - exact (proj2 (proj1 (comparisons_tolerant_membership_exact dec_float value_text
                           ex_gains ex_gains)
                   (VInt 16) (VInt 32)
                   (VStr "20250522_s4c1_000004.fits") "test_BITPIX" ex_hdr_bitpix
                   16%Q 32%Q eq_refl eq_refl) Ha).
Defined.

(** C1 as stated fails: two headers carry a BITPIX outside the allowed
    set; the check logs the first and stops on the failed assertion, and
    the second header is never examined. *)
Lemma enum_violation_is_fatal :
  py_in (VFloat (Finite (1600001 # 100000))) [VInt 16] = false /\
  test_kws_specific_vals dec_float dec_int ex_schema [ex_hdr_bitpix; ex_hdr_bitpix] =
    Run [ex_hdr_bitpix; ex_hdr_bitpix]
        [enum_record (VStr "20250522_s4c1_000004.fits") "BITPIX" [VInt 16]
           (VFloat (Finite (1600001 # 100000)))]
        (Raise AssertionError).
Proof. split; reflexivity. Qed.

(** C3 as stated fails: a header without FILTER ends the enumeration check
    in an uncaught KeyError; a calibration lookup that matches no row ends
    in an uncaught IndexError; one that matches two rows raises nothing and
    takes the first. *)
Lemma unguarded_checks_raise :
  lookup_kw "FILTER" ex_hdr_no_filter = None /\
  test_kws_specific_vals dec_float dec_int ex_schema [ex_hdr_no_filter; ex_hdr] =
    Run [ex_hdr_no_filter; ex_hdr] [] (Raise (KeyError "FILTER")) /\
  test_ccd_gain dec_float value_text ex_gains_conventional [ex_hdr] =
    Run [ex_hdr] [] (Raise IndexError) /\
  test_ccd_gain dec_float value_text ex_gains [ex_hdr] = Run [ex_hdr] [] (Normal tt).
Proof. repeat split; reflexivity. Qed.

(** C9 as stated fails: on a table whose only row is a Conventional one,
    the misspelt EMMODE of the example header is looked up as "EM", the
    filter misses on the EM-mode column and the gain check ends in
    IndexError, where a header with the same keys and EMMODE "Conventional"
    hits the row. *)
Lemma invalid_emmode_misses_without_em_rows :
  lookup_kw "EMMODE" ex_hdr = Some (VStr "Convencional") /\
  normalize_em_mode (VStr "Convencional") = VStr "EM" /\
  map (fun c => py_eq c (normalize_em_mode (VStr "Convencional")))
      (map (cell 0) (rows ex_gains_conventional)) = [false] /\
  map (fun c => py_eq c (normalize_em_mode (VStr "Conventional")))
      (map (cell 0) (rows ex_gains_conventional)) = [true] /\
  test_ccd_gain_hdr dec_float value_text ex_gains_conventional ex_hdr =
    Res ex_hdr [] (Raise IndexError) /\
  test_ccd_gain_hdr dec_float value_text ex_gains_conventional ex_hdr_conventional =
    Res ex_hdr_conventional [] (Normal tt).
Proof. repeat split; reflexivity. Qed.


(** C8 as stated fails: a BITPIX of 16.00001 is within the tolerance of 16,
    and the constant check accepts it, but it is no member of the allowed
    set {16} for the enumeration check, which compares exactly. *)
Lemma enum_membership_is_exact :
  isclose (Finite 16) (Finite (1600001 # 100000)) = true /\
  run_log (test_BITPIX [ex_hdr_bitpix]) = [] /\
  run_log (test_kws_specific_vals dec_float dec_int ex_schema [ex_hdr_bitpix]) =
    [enum_record (VStr "20250522_s4c1_000004.fits") "BITPIX" [VInt 16]
       (VFloat (Finite (1600001 # 100000)))].
Proof. repeat split; reflexivity. Qed.

(* ===================================================================== *)
(** ** Further properties of the checks *)
(* ===================================================================== *)

(** *** The type check *)

(** X1. For a schema row whose keyword the header stores, on a header with
    FILENAME: when the type name is one of float, integer, string,
    boolean, the type check logs one line (keyword, wanted type, found
    type) exactly when the value is not an instance of the type, where a
    boolean counts as an integer and an integer does not count as a float;
    a type name outside the four is logged as the KeyError it raises. *)
Theorem type_check_row (row : schema_row) (h : header) (fn v : value) :
  lookup_kw "FILENAME" h = Some fn ->
  lookup_kw (row_Keyword row) h = Some v ->
  let run := test_keywords_types_row "test_keywords_types" row h in
  (forall t, assoc (row_Type row) var_types = Some t ->
     run = Res h (if isinstance v t then []
                  else [type_record fn (row_Keyword row) t (type_of v)]) (Normal tt))
  /\ (assoc (row_Type row) var_types = None ->
      run = Res h [exn_record "test_keywords_types" fn (Some (row_Keyword row))
                     (KeyError (row_Type row))] (Normal tt))
  /\ (row_Type row = "integer" -> type_of v = TBool -> r_log run = [])
  /\ (row_Type row = "float" -> type_of v = TInt ->
      r_log run = [type_record fn (row_Keyword row) TFloat TInt]).
Proof.
  intros Hfn Hv run.
  assert (Hknown : forall t, assoc (row_Type row) var_types = Some t ->
     run = Res h (if isinstance v t then []
                  else [type_record fn (row_Keyword row) t (type_of v)]) (Normal tt)).
  { intros t Ht. subst run. unfold test_keywords_types_row. cbv zeta.
    apply try_except_normal.
    rewrite (bind_pure _ _ _ _ (getitem_some _ _ _ Hv)). rewrite Ht.
    rewrite (bind_pure _ _ _ _ (of_option_some _ _ _)).
    rewrite (bind_pure _ _ _ _ (getitem_some _ _ _ Hfn)).
    unfold verify_type. by destruct (isinstance v t). }
  split; [exact Hknown|]. split; [|split].
  - intros Ht. subst run. unfold test_keywords_types_row. cbv zeta.
    rewrite (try_except_caught _ _ h [] (KeyError (row_Type row))).
    + by rewrite (log_with_filename _ _ _ _ Hfn).
    + rewrite (bind_pure _ _ _ _ (getitem_some _ _ _ Hv)). rewrite Ht.
      by apply bind_raise.
  - intros Ht Hb. rewrite (Hknown TInt) by (by rewrite Ht).
    unfold isinstance. rewrite Hb. done.
  - intros Ht Hi. rewrite (Hknown TFloat) by (by rewrite Ht).
    unfold isinstance. rewrite Hi. done.
Qed.

(** *** The guards need FILENAME *)

Lemma types_row_no_filename f row h :
  lookup_kw "FILENAME" h = None ->
  test_keywords_types_row f row h = Res h [] (Raise (KeyError "FILENAME")).
Proof.
  intros Hfn. unfold test_keywords_types_row. cbv zeta.
  assert (Hh : forall p,
             bind (getitem "FILENAME") (fun filename => log_line f filename p) h
             = Res h [] (Raise (KeyError "FILENAME"))).
  { intros p. apply bind_raise. by apply getitem_none. }
  destruct (lookup_kw (row_Keyword row) h) as [v|] eqn:Hv.
  - destruct (assoc (row_Type row) var_types) as [t|] eqn:Ht.
    + rewrite (try_except_caught _ _ h [] (KeyError "FILENAME")).
      * by rewrite Hh.
      * rewrite (bind_pure _ _ _ _ (getitem_some _ _ _ Hv)).
        rewrite (bind_pure _ _ _ _ (of_option_some _ _ _)).
        apply bind_raise. by apply getitem_none.
    + rewrite (try_except_caught _ _ h [] (KeyError (row_Type row))).
      * by rewrite Hh.
      * rewrite (bind_pure _ _ _ _ (getitem_some _ _ _ Hv)).
        by apply bind_raise.
  - rewrite (try_except_caught _ _ h [] (KeyError (row_Keyword row))).
    + by rewrite Hh.
    + apply bind_raise. by apply getitem_none.
Qed.

Lemma interval_row_no_filename fos f row h :
  lookup_kw "FILENAME" h = None ->
  test_kws_in_interval_row fos f row h = Res h [] (Raise (KeyError "FILENAME")).
Proof.
  intros Hfn. unfold test_kws_in_interval_row.
  assert (Hh : forall p,
             bind (getitem "FILENAME") (fun filename => log_line f filename p) h
             = Res h [] (Raise (KeyError "FILENAME"))).
  { intros p. apply bind_raise. by apply getitem_none. }
  destruct (lookup_kw (row_Keyword row) h) as [v|] eqn:Hv.
  - rewrite (try_except_caught _ _ h [] (KeyError "FILENAME")).
    + by rewrite Hh.
    + rewrite (bind_pure _ _ _ _ (getitem_some _ _ _ Hv)).
      apply bind_raise. by apply getitem_none.
  - rewrite (try_except_caught _ _ h [] (KeyError (row_Keyword row))).
    + by rewrite Hh.
    + apply bind_raise. by apply getitem_none.
Qed.

Lemma for_each_first_raises {X} (x : X) (xs : list X) (body : X -> M unit) h l e :
  body x h = Res h l (Raise e) ->
  for_each (x :: xs) body h = Res h l (Raise e).
Proof. intros E. cbn [for_each]. by apply bind_raise. Qed.

(** X2. The guards of the type check and of the interval check name the
    file in their handler: on a header without FILENAME the handler itself
    raises, so with a schema that has a row (a numeric row, for the
    interval check) both checks end in KeyError('FILENAME') with nothing
    logged, at the first such header of a batch. *)
Theorem guards_need_filename
    (fos : string -> option pyfloat) (S : schema) (h : header) (hs : list header) :
  lookup_kw "FILENAME" h = None ->
  (S <> [] ->
   test_keywords_types_hdr S h = Res h [] (Raise (KeyError "FILENAME")) /\
   test_keywords_types S (h :: hs) = Run (h :: hs) [] (Raise (KeyError "FILENAME")))
  /\ (filtered_hdr_content S <> [] ->
      test_kws_in_interval_hdr fos S h = Res h [] (Raise (KeyError "FILENAME")) /\
      test_kws_in_interval fos S (h :: hs) =
        Run (h :: hs) [] (Raise (KeyError "FILENAME"))).
Proof.
  intros Hfn. split.
  - intros HS. destruct S as [|row S]; [done|].
    assert (E : test_keywords_types_hdr (row :: S) h
                = Res h [] (Raise (KeyError "FILENAME"))).
    { unfold test_keywords_types_hdr. cbv zeta.
      apply for_each_first_raises. by apply types_row_no_filename. }
    split; [exact E|]. unfold test_keywords_types. cbn [for_hdrs]. by rewrite E.
  - intros HS.
    assert (E : test_kws_in_interval_hdr fos S h
                = Res h [] (Raise (KeyError "FILENAME"))).
    { unfold test_kws_in_interval_hdr. cbv zeta.
      destruct (filtered_hdr_content S) as [|row rows]; [done|].
      apply for_each_first_raises. by apply interval_row_no_filename. }
    split; [exact E|]. unfold test_kws_in_interval. cbn [for_hdrs]. by rewrite E.
Qed.

(** *** The interval check: exclusions, the shape of the cell, values that
        do not compare *)

(** X3. The interval check reads the header before it looks at the
    exclusion list: for a keyword on the list that the header stores it
    logs nothing, whatever the cell and the value; for one that the header
    lacks it still logs the KeyError. *)
Theorem interval_check_excluded
    (fos : string -> option pyfloat) (row : schema_row) (h : header) (fn : value) :
  lookup_kw "FILENAME" h = Some fn ->
  in_strings (row_Keyword row) kws_specific_values = true ->
  let run := test_kws_in_interval_row fos "test_kws_in_interval" row h in
  (is_Some (lookup_kw (row_Keyword row) h) -> run = Res h [] (Normal tt))
  /\ (lookup_kw (row_Keyword row) h = None ->
      run = Res h [exn_record "test_kws_in_interval" fn None
                     (KeyError (row_Keyword row))] (Normal tt)).
Proof.
  intros Hfn Hex run. split.
  - intros [v Hv]. subst run. unfold test_kws_in_interval_row.
    apply try_except_normal.
    rewrite (bind_pure _ _ _ _ (getitem_some _ _ _ Hv)).
    rewrite (bind_pure _ _ _ _ (getitem_some _ _ _ Hfn)).
    by rewrite Hex.
  - intros Hv. by apply interval_row_missing.
Qed.

Lemma split_on_length c s : length (split_on c s) = S (count_char c s).
Proof.
  induction s as [|d s IH]; [done|]. cbn [split_on count_char].
  destruct (Ascii.eqb d c); cbn [length]; [by rewrite IH|].
  destruct (split_on c s) as [|w ws]; [discriminate|]. cbn [length] in *. lia.
Qed.

Lemma interval_row_caught fos f row h fn v e :
  lookup_kw "FILENAME" h = Some fn ->
  lookup_kw (row_Keyword row) h = Some v ->
  in_strings (row_Keyword row) kws_specific_values = false ->
  (bind (of_option AttributeError (row_Allowed_values row))
        (fun allowed =>
           match split_on comma allowed with
           | [_min; _max] =>
               bind (py_float fos (VStr _min)) (fun _min =>
               bind (if String.eqb _max "inf" then ret PosInf
                     else py_float fos (VStr _max)) (fun _max =>
               kw_in_interval _min _max v (row_Keyword row) fn f))
           | _ => raise (ValueError "wrong number of values to unpack" [])
           end) h
      = Res h [] (Raise e)) ->
  test_kws_in_interval_row fos f row h = Res h [exn_record f fn None e] (Normal tt).
Proof.
  intros Hfn Hv Hex Hbody. unfold test_kws_in_interval_row.
  rewrite (try_except_caught _ _ h [] e).
  - by rewrite (log_with_filename _ _ _ _ Hfn).
  - rewrite (bind_pure _ _ _ _ (getitem_some _ _ _ Hv)).
    rewrite (bind_pure _ _ _ _ (getitem_some _ _ _ Hfn)).
    rewrite Hex. cbn [negb]. exact Hbody.
Qed.

(** X4. For a keyword off the exclusion list that the header stores, the
    interval check needs a cell of exactly two comma-separated parts: an
    empty cell is logged as AttributeError, and a cell whose number of
    commas is not one as the ValueError of the failed unpacking; in both
    cases the check goes on. *)
Theorem interval_check_cell_shape
    (fos : string -> option pyfloat) (row : schema_row) (h : header) (fn v : value) :
  lookup_kw "FILENAME" h = Some fn ->
  lookup_kw (row_Keyword row) h = Some v ->
  in_strings (row_Keyword row) kws_specific_values = false ->
  let run := test_kws_in_interval_row fos "test_kws_in_interval" row h in
  (row_Allowed_values row = None ->
   run = Res h [exn_record "test_kws_in_interval" fn None AttributeError] (Normal tt))
  /\ (forall allowed,
        row_Allowed_values row = Some allowed ->
        count_char comma allowed <> 1%nat ->
        run = Res h [exn_record "test_kws_in_interval" fn None
                       (ValueError "wrong number of values to unpack" [])]
                (Normal tt)).
Proof.
  intros Hfn Hv Hex run. split.
  - intros Hc. apply (interval_row_caught _ _ _ _ _ v); try done.
    rewrite Hc. by apply bind_raise.
  - intros allowed Hc Hn. apply (interval_row_caught _ _ _ _ _ v); try done.
    rewrite Hc. rewrite (bind_pure _ _ _ _ (of_option_some _ _ _)).
    pose proof (split_on_length comma allowed) as Hl.
    destruct (split_on comma allowed) as [|a [|b [|c l]]]; cbn [length] in Hl;
      try done.
    exfalso. apply Hn. lia.
Qed.

(** X5. With a cell whose two bounds parse, a value that is not a number
    (a string, an aggregate) is logged as the TypeError of the comparison,
    and a NaN is logged as outside the interval, whatever the bounds. *)
Theorem interval_check_incomparable
    (fos : string -> option pyfloat) (row : schema_row) (h : header) (fn v : value)
    (lo hi : pyfloat) (allowed a b : string) :
  lookup_kw "FILENAME" h = Some fn ->
  lookup_kw (row_Keyword row) h = Some v ->
  in_strings (row_Keyword row) kws_specific_values = false ->
  row_Allowed_values row = Some allowed ->
  split_on comma allowed = [a; b] ->
  fos a = Some lo ->
  upper_bound fos b = Some hi ->
  let run := test_kws_in_interval_row fos "test_kws_in_interval" row h in
  (as_number v = None ->
   run = Res h [exn_record "test_kws_in_interval" fn None TypeError] (Normal tt))
  /\ (v = VFloat NaN ->
      run = Res h [interval_record fn (row_Keyword row) lo hi v] (Normal tt)).
Proof.
  intros Hfn Hv Hex Hcell Hsplit Hlo Hhi run.
  assert (Hpre : forall k : pyfloat -> pyfloat -> M unit,
    bind (of_option AttributeError (row_Allowed_values row))
      (fun allowed =>
         match split_on comma allowed with
         | [_min; _max] =>
             bind (py_float fos (VStr _min)) (fun _min =>
             bind (if String.eqb _max "inf" then ret PosInf
                   else py_float fos (VStr _max)) (fun _max => k _min _max))
         | _ => raise (ValueError "wrong number of values to unpack" [])
         end) h = k lo hi h).
  { intros k. rewrite Hcell. rewrite (bind_pure _ _ _ _ (of_option_some _ _ _)).
    rewrite Hsplit.
    rewrite (bind_pure (py_float fos (VStr a)) _ h lo)
      by (unfold py_float; by rewrite Hlo).
    rewrite (bind_pure _ _ h hi); [done|].
    unfold upper_bound in Hhi. destruct (String.eqb b "inf").
    - by injection Hhi as <-.
    - unfold py_float. by rewrite Hhi. }
  split.
  - intros Hn. apply (interval_row_caught _ _ _ _ _ v); try done.
    rewrite Hpre. unfold kw_in_interval. rewrite Hn. by apply bind_raise.
  - intros ->. subst run. unfold test_kws_in_interval_row. apply try_except_normal.
    rewrite (bind_pure _ _ _ _ (getitem_some _ _ _ Hv)).
    rewrite (bind_pure _ _ _ _ (getitem_some _ _ _ Hfn)).
    rewrite Hex. cbn [negb]. rewrite Hpre. unfold kw_in_interval.
    cbn [as_number]. rewrite (bind_pure _ _ _ _ (of_option_some _ _ _)).
    destruct lo; done.
Qed.

(** *** The checks without a guard *)

Lemma for_each_run {X} (xs : list X) (body : X -> M unit) (lines : X -> list record) h :
  (forall x, In x xs -> body x h = Res h (lines x) (Normal tt)) ->
  for_each xs body h = Res h (concat (map lines xs)) (Normal tt).
Proof.
  intros Hb. rewrite for_each_quiet.
  - f_equal. f_equal. apply map_ext_in. intros x Hx. by rewrite (Hb x Hx).
  - intros x Hx. by rewrite (Hb x Hx).
Qed.

Lemma for_hdrs_run (body : M unit) (g : header -> header)
    (lines : header -> list record) (hs : list header) :
  (forall h, In h hs -> body h = Res (g h) (lines h) (Normal tt)) ->
  for_hdrs body hs = Run (map g hs) (concat (map lines hs)) (Normal tt).
Proof.
  induction hs as [|h hs IH]; intros Hb; [done|]. cbn [for_hdrs].
  rewrite (Hb h (or_introl eq_refl)). cbn [r_out r_hdr r_log].
  rewrite IH by (intros h' Hin; apply Hb; by right). done.
Qed.

Lemma for_hdrs_stops (body : M unit) (g : header -> header)
    (lines : header -> list record) (pre post : list header) h h' l e :
  (forall h0, In h0 pre -> body h0 = Res (g h0) (lines h0) (Normal tt)) ->
  body h = Res h' l (Raise e) ->
  for_hdrs body (pre ++ h :: post) =
    Run (map g pre ++ h' :: post) (concat (map lines pre) ++ l) (Raise e).
Proof.
  intros Hpre Hh. induction pre as [|h0 pre IH]; cbn [app for_hdrs map concat].
  - by rewrite Hh.
  - rewrite (Hpre h0 (or_introl eq_refl)). cbn [r_out r_hdr r_log].
    rewrite IH by (intros h1 Hin; apply Hpre; by right).
    cbn [run_hdrs run_log run_out]. by rewrite app_assoc.
Qed.

Lemma for_each_blocked {X} (xs : list X) (body : X -> M unit) h x0 :
  (forall x, readonly (body x)) ->
  In x0 xs ->
  r_out (body x0 h) <> Normal tt ->
  r_out (for_each xs body h) <> Normal tt.
Proof.
  intros Hro Hin Hx0. induction xs as [|x xs IH]; [done|].
  cbn [for_each]. unfold bind.
  destruct (r_out (body x h)) as [[]|e] eqn:Ho; cbn [r_out]; [|done].
  rewrite Hro. destruct Hin as [->|Hin]; [congruence|by apply IH].
Qed.

Lemma for_hdrs_blocked (body : M unit) (hs : list header) h :
  In h hs ->
  r_out (body h) <> Normal tt ->
  run_out (for_hdrs body hs) <> Normal tt.
Proof.
  intros Hin Hh. induction hs as [|h0 hs IH]; [done|]. cbn [for_hdrs].
  destruct (r_out (body h0)) as [[]|e] eqn:Ho; cbn [run_out]; [|done].
  destruct Hin as [->|Hin]; [congruence|by apply IH].
Qed.

Lemma regex_entry_run re h fn kw expression s :
  lookup_kw "FILENAME" h = Some fn ->
  lookup_kw kw h = Some (VStr s) ->
  bind (getitem kw) (fun v =>
    bind (getitem "FILENAME") (fun filename =>
      verify_regex re v expression kw filename "test_kws_regex")) h
  = Res h (regex_lines re h fn (kw, expression)) (Normal tt).
Proof.
  intros Hfn Hk.
  rewrite (bind_pure _ _ _ _ (getitem_some _ _ _ Hk)).
  rewrite (bind_pure _ _ _ _ (getitem_some _ _ _ Hfn)).
  unfold verify_regex, regex_lines. cbn [fst snd]. rewrite Hk.
  by destruct (re expression s).
Qed.

(** X6. On a header that stores a string under each of the eleven keywords
    of the regex catalog (FILENAME is one of them), the regex check ends
    normally, leaves the header as it is, and logs, in the order of the
    catalog, one line for each keyword whose string the pattern does not
    match, and no other line. *)
Theorem regex_check_lines (re : string -> string -> bool) (h : header) (fn : value) :
  lookup_kw "FILENAME" h = Some fn ->
  (forall kw expression, In (kw, expression) regex_expressions ->
     exists s, lookup_kw kw h = Some (VStr s)) ->
  test_kws_regex_hdr re h =
    Res h (concat (map (regex_lines re h fn) regex_expressions)) (Normal tt)
  /\ (forall line,
        In line (r_log (test_kws_regex_hdr re h)) <->
        exists kw expression s,
          In (kw, expression) regex_expressions /\
          lookup_kw kw h = Some (VStr s) /\ re expression s = false /\
          line = {| rec_test := "test_kws_regex"; rec_filename := fn;
                    rec_payload := PRegex kw (VStr s) |}).
Proof.
  intros Hfn Hall.
  assert (Hrun : test_kws_regex_hdr re h =
    Res h (concat (map (regex_lines re h fn) regex_expressions)) (Normal tt)).
  { unfold test_kws_regex_hdr. apply for_each_run.
    intros [kw expression] Hin. destruct (Hall kw expression Hin) as [s Hs].
    exact (regex_entry_run re h fn kw expression s Hfn Hs). }
  split; [exact Hrun|]. intros line. rewrite Hrun. cbn [r_log].
  rewrite in_concat. split.
  - intros (l & ([kw expression] & <- & Hin)%in_map_iff & Hl).
    destruct (Hall kw expression Hin) as [s Hs].
    unfold regex_lines in Hl. cbn [fst snd] in Hl. rewrite Hs in Hl.
    exists kw, expression, s.
    destruct (re expression s) eqn:Hre; [done|].
    destruct Hl as [<-|[]]. done.
  - intros (kw & expression & s & Hin & Hs & Hre & ->).
    exists (regex_lines re h fn (kw, expression)). split.
    + apply in_map_iff. by exists (kw, expression).
    + unfold regex_lines. cbn [fst snd]. rewrite Hs, Hre. by left.
Qed.

Lemma readonly_verify_regex re v e kw fn f : readonly (verify_regex re v e kw fn f).
Proof. unfold verify_regex. readonly_tac; readonly_leaves. Qed.

Lemma readonly_sizes_kw entry : readonly (test_kw_sizes_kw entry).
Proof. unfold test_kw_sizes_kw, verify_str_size. readonly_tac; readonly_leaves. Qed.

Lemma readonly_specific_vals_kw fos ios S kw :
  readonly (test_kws_specific_vals_kw fos ios S kw).
Proof.
  unfold test_kws_specific_vals_kw, allowed_values_of, val_in_list.
  readonly_tac; readonly_leaves.
Qed.

Lemma in_map_fst {A B} (k : A) (l : list (A * B)) :
  In k (map fst l) -> exists v, In (k, v) l.
Proof. intros ([k' v] & E & Hin)%in_map_iff. simpl in E. subst. by exists v. Qed.

(** X7. The regex check, the size check, the simulated-mode check and the
    enumeration check read their keywords without a guard: a batch with a
    header that lacks any keyword of the catalog of one of them does not
    let that check end normally. *)
Theorem unguarded_checks_need_every_keyword
    (fos : string -> option pyfloat) (ios : string -> option Z)
    (re : string -> string -> bool) (S : schema)
    (hs : list header) (h : header) (kw : string) :
  In h hs ->
  lookup_kw kw h = None ->
  (In kw (map fst regex_expressions) -> run_out (test_kws_regex re hs) <> Normal tt)
  /\ (In kw (map fst kws_fixed_str_size) -> run_out (test_kw_sizes hs) <> Normal tt)
  /\ (In kw simulated_mode_kws -> run_out (test_simulated_mode hs) <> Normal tt)
  /\ (In kw kws_specific_values ->
      run_out (test_kws_specific_vals fos ios S hs) <> Normal tt).
Proof.
  intros Hin Hk. repeat split.
  - intros [e He]%in_map_fst. apply (for_hdrs_blocked _ _ h Hin).
    unfold test_kws_regex_hdr. apply (for_each_blocked _ _ _ (kw, e)); [|done|].
    + intros [k x]. readonly_tac. apply readonly_verify_regex.
    + by rewrite (bind_raise _ _ _ _ _ _ (getitem_none _ _ Hk)).
  - intros [n Hn]%in_map_fst. apply (for_hdrs_blocked _ _ h Hin).
    unfold test_kw_sizes_hdr. apply (for_each_blocked _ _ _ (kw, n)); [|done|].
    + apply readonly_sizes_kw.
    + unfold test_kw_sizes_kw.
      by rewrite (bind_raise _ _ _ _ _ _ (getitem_none _ _ Hk)).
  - intros Hs. apply (for_hdrs_blocked _ _ h Hin).
    unfold test_simulated_mode_hdr. cbv zeta.
    apply (for_each_blocked _ _ _ kw); [|done|].
    + intros k. readonly_tac; readonly_leaves.
    + by rewrite (bind_raise _ _ _ _ _ _ (getitem_none _ _ Hk)).
  - intros Hs. apply (for_hdrs_blocked _ _ h Hin).
    unfold test_kws_specific_vals_hdr.
    apply (for_each_blocked _ _ _ kw); [apply readonly_specific_vals_kw|done|].
    unfold test_kws_specific_vals_kw.
    destruct (allowed_values_pure fos ios S kw h) as [[allowed|e] Ha].
    + rewrite (bind_pure _ _ _ _ Ha).
      destruct (lookup_kw "FILENAME" h) as [fn|] eqn:Hfn.
      * rewrite (bind_pure _ _ _ _ (getitem_some _ _ _ Hfn)).
        by rewrite (bind_raise _ _ _ _ _ _ (getitem_none _ _ Hk)).
      * by rewrite (bind_raise _ _ _ _ _ _ (getitem_none _ _ Hfn)).
    + by rewrite (bind_raise _ _ _ _ _ _ Ha).
Qed.

(** X8. The enumeration check looks up the schema row of each of its
    seventeen keywords without a guard: with a schema that has no row for
    one of them, the check raises on the first header, so that on a batch
    that is not empty it never ends normally. *)
Theorem enum_check_needs_schema_rows
    (fos : string -> option pyfloat) (ios : string -> option Z) (S : schema)
    (kw : string) (h : header) (hs : list header) :
  In kw kws_specific_values ->
  (forall row, In row S -> row_Keyword row <> kw) ->
  allowed_values_of fos ios S kw h = Res h [] (Raise IndexError)
  /\ run_out (test_kws_specific_vals fos ios S (h :: hs)) <> Normal tt
  /\ run_hdrs (test_kws_specific_vals fos ios S (h :: hs)) = h :: hs.
Proof.
  intros Hkw Hrows.
  assert (Ha : allowed_values_of fos ios S kw h = Res h [] (Raise IndexError)).
  { unfold allowed_values_of.
    assert (List.filter (fun r => String.eqb (row_Keyword r) kw) S = []) as ->.
    { induction S as [|row S IH]; [done|]. cbn [List.filter].
      destruct (String.eqb_spec (row_Keyword row) kw) as [E|_].
      - destruct (Hrows row (or_introl eq_refl) E).
      - apply IH. intros r Hr. apply Hrows. by right. }
    done. }
  split; [exact Ha|]. split.
  - apply (for_hdrs_blocked _ (h :: hs) h (or_introl eq_refl)).
    unfold test_kws_specific_vals_hdr.
    apply (for_each_blocked _ _ _ kw); [apply readonly_specific_vals_kw|done|].
    unfold test_kws_specific_vals_kw. by rewrite (bind_raise _ _ _ _ _ _ Ha).
  - apply for_hdrs_readonly, readonly_specific_vals.
Qed.

(** *** The simulated-mode flags and the observer *)

Lemma py_eq_false_iff v :
  py_eq v (VBool false) = true <->
  exists q, as_number v = Some (Finite q) /\ (q == 0)%Q.
Proof.
  unfold py_eq. cbn [as_number]. split.
  - destruct (as_number v) as [[q| | |]|] eqn:E; cbn [float_eqb].
    + intros Hq%Qeq_bool_iff. by exists q.
    + discriminate.
    + discriminate.
    + discriminate.
    + destruct v; discriminate.
  - intros (q & -> & Hq). cbn [float_eqb]. by apply Qeq_bool_iff.
Qed.

(** X9. On a header that carries FILENAME and the eight simulated-mode
    keywords, the simulated-mode check ends normally and logs, in the
    order of its list, one line for each keyword whose value equals False;
    the comparison is Python's ==, so the integer 0 and the float 0.0 are
    reported like False, and every other value is accepted. *)
Theorem simulated_mode_lines (h : header) (fn : value) :
  lookup_kw "FILENAME" h = Some fn ->
  carries simulated_mode_kws h ->
  test_simulated_mode_hdr h =
    Res h (concat (map (simulated_lines h fn) simulated_mode_kws)) (Normal tt)
  /\ (forall kw v,
        In kw simulated_mode_kws -> lookup_kw kw h = Some v ->
        (simulated_lines h fn kw <> [] <->
         exists q, as_number v = Some (Finite q) /\ (q == 0)%Q)).
Proof.
  intros Hfn Hc. split.
  - unfold test_simulated_mode_hdr. cbv zeta. apply for_each_run.
    intros kw Hin. unfold carries in Hc. rewrite Forall_forall in Hc.
    destruct (Hc kw (proj2 (list_elem_of_In _ _) Hin)) as [v Hv].
    rewrite (bind_pure _ _ _ _ (getitem_some _ _ _ Hv)).
    unfold simulated_lines. rewrite Hv.
    destruct (py_eq v (VBool false)); [|done].
    by rewrite (bind_pure _ _ _ _ (getitem_some _ _ _ Hfn)).
  - intros kw v Hin Hv. rewrite <- py_eq_false_iff.
    unfold simulated_lines. rewrite Hv.
    destruct (py_eq v (VBool false)); split; done.
Qed.

(** X10. The observer check logs one line exactly when OBSERVER is the
    empty string; any other value, a number included, logs nothing, and
    then FILENAME is not even read; a header without OBSERVER makes the
    check raise KeyError('OBSERVER'). *)
Theorem empty_observer_check (h : header) :
  (forall fn, lookup_kw "FILENAME" h = Some fn ->
     lookup_kw "OBSERVER" h = Some (VStr "") ->
     test_empty_observer_kw_hdr h =
       Res h [ {| rec_test := "test_empty_observer_kw"; rec_filename := fn;
                  rec_payload := PEmptyObserver |} ] (Normal tt))
  /\ (forall v, lookup_kw "OBSERVER" h = Some v -> v <> VStr "" ->
        test_empty_observer_kw_hdr h = Res h [] (Normal tt))
  /\ (lookup_kw "OBSERVER" h = None ->
      test_empty_observer_kw_hdr h = Res h [] (Raise (KeyError "OBSERVER"))).
Proof.
  unfold test_empty_observer_kw_hdr. cbv zeta. repeat split.
  - intros fn Hfn Ho.
    rewrite (bind_pure _ _ _ _ (getitem_some _ _ _ Ho)).
    rewrite (proj2 (py_eq_string _ _) eq_refl).
    by rewrite (bind_pure _ _ _ _ (getitem_some _ _ _ Hfn)).
  - intros v Ho Hv.
    rewrite (bind_pure _ _ _ _ (getitem_some _ _ _ Ho)).
    destruct (py_eq v (VStr "")) eqn:E; [|done].
    apply py_eq_string in E. done.
  - intros Ho. by rewrite (bind_raise _ _ _ _ _ _ (getitem_none _ _ Ho)).
Qed.

(** *** The two presence checks together *)

Lemma presence_hdr_run S h fn :
  lookup_kw "FILENAME" h = Some fn ->
  test_missing_keywords_hdr S h =
    Res (remove_kw "COMMENT" h) (presence_lines S h fn) (Normal tt).
Proof.
  intros Hfn. rewrite <- (lookup_remove_ne "FILENAME" "COMMENT") in Hfn by done.
  unfold test_missing_keywords_hdr.
  rewrite (bind_pure (contains "COMMENT") _ h (has_kw "COMMENT" h) eq_refl).
  rewrite (bind_normal _ _ _ _ _ _ (drop_comment h)).
  rewrite (bind_pure get_keys _ _ (keys (remove_kw "COMMENT" h)) eq_refl).
  rewrite (bind_pure _ _ _ _ (getitem_some _ _ _ Hfn)).
  unfold compare_lists, presence_lines, presence_record. cbv zeta.
  by destruct (bool_decide _).
Qed.

Lemma comments_hdr_run S h fn :
  lookup_kw "FILENAME" h = Some fn ->
  test_kw_comments_hdr S h =
    Res (remove_kw "COMMENT" h) (comments_lines S h fn) (Normal tt).
Proof.
  intros Hfn. rewrite <- (lookup_remove_ne "FILENAME" "COMMENT") in Hfn by done.
  unfold test_kw_comments_hdr.
  rewrite (bind_pure (contains "COMMENT") _ h (has_kw "COMMENT" h) eq_refl).
  rewrite (bind_normal _ _ _ _ _ _ (drop_comment h)).
  rewrite (bind_pure get_comments _ _ (comments (remove_kw "COMMENT" h)) eq_refl).
  rewrite (bind_pure _ _ _ _ (getitem_some _ _ _ Hfn)).
  unfold compare_lists, comments_lines, comments_record. cbv zeta.
  by destruct (bool_decide _).
Qed.

Lemma carries_filename h :
  carries ["FILENAME"] h -> lookup_kw "FILENAME" h = Some (filename_of h).
Proof.
  intros Hc. apply Forall_cons in Hc as [[fn Hfn] _].
  unfold filename_of. by rewrite Hfn.
Qed.

Lemma filename_of_remove h : filename_of (remove_kw "COMMENT" h) = filename_of h.
Proof. unfold filename_of. by rewrite lookup_remove_ne. Qed.

(** X11. The comment-text check treats the comments of the cards as the
    presence check treats the keywords: on a header that carries FILENAME,
    after the COMMENT cards are removed, it logs one line with the
    symmetric difference of the schema's comment set and the header's
    comment set exactly when the two sets differ, and nothing when they
    are equal, whatever the order and the repetitions. *)
Theorem comments_check_sets (S : schema) (h : header) (fn : value) :
  lookup_kw "FILENAME" h = Some fn ->
  let expected : gset string := list_to_set (map row_Comment S) in
  let received : gset string := list_to_set (comments (remove_kw "COMMENT" h)) in
  let r := test_kw_comments_hdr S h in
  r_hdr r = remove_kw "COMMENT" h /\
  r_out r = Normal tt /\
  (expected <> received -> r_log r = [comments_record fn expected received]) /\
  (expected = received -> r_log r = []) /\
  (r_log r = [] <-> symdiff expected received = ∅).
Proof.
  intros Hfn expected received r. subst r.
  rewrite (comments_hdr_run S h fn Hfn). cbn [r_hdr r_out r_log].
  unfold comments_lines. cbv zeta. fold expected received.
  split; [done|]. split; [done|].
  rewrite symdiff_empty.
  case_bool_decide as Hd.
  - split; [done|]. split; [intros E; by destruct Hd|].
    split; [discriminate|intros E; by destruct Hd].
  - assert (expected = received) as Heq
      by (destruct (decide (expected = received)); tauto).
    split; [intros N; by destruct N|]. split; [done|]. split; done.
Qed.

(** X12. On a batch whose headers carry FILENAME the presence check is
    idempotent: run again on the headers it left, it leaves them as they
    are and logs the same lines; and the comment-text check logs the same
    lines and leaves the same headers whether or not the presence check
    ran before it. *)
Theorem presence_checks_idempotent (S : schema) (hs : list header) :
  Forall (carries ["FILENAME"]) hs ->
  let first := test_missing_keywords S hs in
  run_hdrs first = map (remove_kw "COMMENT") hs /\
  run_log first = concat (map (fun h => presence_lines S h (filename_of h)) hs) /\
  test_missing_keywords S (run_hdrs first) = first /\
  test_kw_comments S (run_hdrs first) = test_kw_comments S hs.
Proof.
  intros Hc first.
  assert (Hfn : forall h, In h hs -> lookup_kw "FILENAME" h = Some (filename_of h)).
  { intros h Hin. apply carries_filename. rewrite Forall_forall in Hc.
    apply Hc. by apply list_elem_of_In. }
  assert (Hfirst : first = Run (map (remove_kw "COMMENT") hs)
                     (concat (map (fun h => presence_lines S h (filename_of h)) hs))
                     (Normal tt)).
  { apply for_hdrs_run. intros h Hin. apply presence_hdr_run. by apply Hfn. }
  rewrite Hfirst. cbn [run_hdrs run_log]. split; [done|]. split; [done|].
  assert (Hfn' : forall h, In h (map (remove_kw "COMMENT") hs) ->
            exists h0, In h0 hs /\ h = remove_kw "COMMENT" h0 /\
                       lookup_kw "FILENAME" h = Some (filename_of h0)).
  { intros h (h0 & <- & Hin)%in_map_iff. exists h0. split; [done|]. split; [done|].
    rewrite lookup_remove_ne by done. by apply Hfn. }
  split.
  - unfold test_missing_keywords.
    rewrite (for_hdrs_run _ (remove_kw "COMMENT")
               (fun h => presence_lines S h (filename_of h))).
    + f_equal.
      * rewrite map_map. apply map_ext. intros h. apply remove_kw_idem.
      * f_equal. rewrite map_map. apply map_ext. intros h.
        unfold presence_lines. by rewrite remove_kw_idem, filename_of_remove.
    + intros h Hin. destruct (Hfn' h Hin) as (h0 & Hin0 & -> & E).
      apply presence_hdr_run. by rewrite filename_of_remove.
  - unfold test_kw_comments.
    rewrite (for_hdrs_run _ (remove_kw "COMMENT")
               (fun h => comments_lines S h (filename_of h))).
    + rewrite (for_hdrs_run _ (remove_kw "COMMENT")
                 (fun h => comments_lines S h (filename_of h)) hs).
      * f_equal.
        -- rewrite map_map. apply map_ext. intros h. apply remove_kw_idem.
        -- f_equal. rewrite map_map. apply map_ext. intros h.
           unfold comments_lines. by rewrite remove_kw_idem, filename_of_remove.
      * intros h Hin. apply comments_hdr_run. by apply Hfn.
    + intros h Hin. destruct (Hfn' h Hin) as (h0 & Hin0 & -> & E).
      apply comments_hdr_run. by rewrite filename_of_remove.
Qed.

(** X13. A header without FILENAME stops the presence check with
    KeyError('FILENAME'), but only after its COMMENT cards have been
    deleted: the headers before it have lost COMMENT and logged their
    lines, the header itself has lost COMMENT and logged nothing, and the
    headers after it are untouched. *)
Theorem presence_check_stops_after_deleting
    (S : schema) (pre post : list header) (h : header) :
  Forall (carries ["FILENAME"]) pre ->
  lookup_kw "FILENAME" h = None ->
  test_missing_keywords S (pre ++ h :: post) =
    Run (map (remove_kw "COMMENT") pre ++ remove_kw "COMMENT" h :: post)
        (concat (map (fun h0 => presence_lines S h0 (filename_of h0)) pre))
        (Raise (KeyError "FILENAME")).
Proof.
  intros Hc Hfn. unfold test_missing_keywords.
  rewrite (for_hdrs_stops _ (remove_kw "COMMENT")
             (fun h0 => presence_lines S h0 (filename_of h0)) pre post h
             (remove_kw "COMMENT" h) [] (KeyError "FILENAME")).
  - by rewrite app_nil_r.
  - intros h0 Hin. apply presence_hdr_run, carries_filename.
    rewrite Forall_forall in Hc. apply Hc. by apply list_elem_of_In.
  - by apply presence_hdr_no_filename.
Qed.

(** *** The calibration lookup *)

Lemma select_rows_filter (f1 f2 f3 : value -> bool) (i1 i2 i3 : nat)
    (rs : list (list value)) :
  select_rows
    (zip_and (zip_and (map f1 (map (cell i1) rs)) (map f2 (map (cell i2) rs)))
             (map f3 (map (cell i3) rs))) rs
  = List.filter (fun r => f1 (cell i1 r) && f2 (cell i2 r) && f3 (cell i3 r)) rs.
Proof.
  induction rs as [|r rs IH]; [done|].
  unfold zip_and in *. cbn [map combine select_rows List.filter fst snd].
  rewrite IH. done.
Qed.

Lemma df_column_some table name i h :
  index_of name (columns table) = Some i ->
  df_column table name h = Res h [] (Normal (map (cell i) (rows table))).
Proof. intros E. unfold df_column. rewrite E. done. Qed.

Lemma df_column_none table name h :
  index_of name (columns table) = None ->
  df_column table name h = Res h [] (Raise (KeyError name)).
Proof. intros E. unfold df_column. rewrite E. done. Qed.

(** X14. When the header carries what the calibration check reads and the
    table has the three key columns and the column of the serial number,
    the check compares the header's value with the cell of the first row
    whose EM mode, readout rate and preamp equal the key: later matching
    rows play no part, and when no row matches the check raises
    IndexError. *)
Theorem calibration_first_match
    (fos : string -> option pyfloat) (repr : value -> string) (table : DataFrame)
    (value_kw func_name : string) (em_mode : value) (h : header)
    (fn readout preamp_kw ccdsern gain : value) (c : string) (preamp : pyfloat)
    (i_em i_rate i_preamp j : nat) :
  lookup_kw "FILENAME" h = Some fn ->
  lookup_kw "READRATE" h = Some readout ->
  lookup_kw "PREAMP" h = Some preamp_kw ->
  last_item preamp_kw = Normal (VStr c) ->
  fos c = Some preamp ->
  lookup_kw "CCDSERN" h = Some ccdsern ->
  lookup_kw value_kw h = Some gain ->
  index_of "EM Mode" (columns table) = Some i_em ->
  index_of "Readout Rate" (columns table) = Some i_rate ->
  index_of "Preamp" (columns table) = Some i_preamp ->
  index_of (format_value repr ccdsern) (columns table) = Some j ->
  calibration_lookup fos repr table value_kw func_name em_mode h =
    match matching_rows table i_em i_rate i_preamp em_mode readout preamp with
    | [] => Res h [] (Raise IndexError)
    | r :: _ => compare_numbers (cell j r) gain fn func_name h
    end.
Proof.
  intros Hfn Hr Hp Hlast Hc Hs Hg H1 H2 H3 Hj. unfold calibration_lookup.
  rewrite (bind_pure _ _ _ _ (getitem_some _ _ _ Hr)).
  rewrite (bind_pure _ _ _ _ (getitem_some _ _ _ Hp)).
  rewrite Hlast. rewrite (bind_pure (lift (Normal (VStr c))) _ h (VStr c) eq_refl).
  rewrite (bind_pure (py_float fos (VStr c)) _ h preamp)
    by (unfold py_float; by rewrite Hc).
  rewrite (bind_pure _ _ _ _ (getitem_some _ _ _ Hs)).
  rewrite (bind_pure _ _ _ _ (getitem_some _ _ _ Hg)).
  rewrite (bind_pure _ _ _ _ (df_column_some _ _ _ _ H1)).
  rewrite (bind_pure _ _ _ _ (df_column_some _ _ _ _ H2)).
  rewrite (bind_pure _ _ _ _ (df_column_some _ _ _ _ H3)).
  rewrite (bind_pure _ _ _ _ (getitem_some _ _ _ Hfn)).
  rewrite (select_rows_filter (fun c => py_eq c em_mode) (fun c => py_eq c readout)
             (fun c => py_eq c (VFloat preamp))).
  fold (matching_rows table i_em i_rate i_preamp em_mode readout preamp).
  rewrite (bind_pure _ _ _ _
             (df_column_some
                {| columns := columns table;
                   rows := matching_rows table i_em i_rate i_preamp em_mode readout
                             preamp |} _ j h Hj)).
  cbn [rows].
  destruct (matching_rows table i_em i_rate i_preamp em_mode readout preamp)
    as [|r rs]; cbn [map head].
  - by rewrite (bind_raise _ _ _ _ _ _ (of_option_none _ _)).
  - by rewrite (bind_pure _ _ _ _ (of_option_some _ _ _)).
Qed.

Lemma no_em_row_no_match table i_em i_rate i_preamp readout preamp :
  (forall r, In r (rows table) -> cell i_em r <> VStr "EM") ->
  matching_rows table i_em i_rate i_preamp (VStr "EM") readout preamp = [].
Proof.
  intros Hno. unfold matching_rows.
  induction (rows table) as [|r rs IH]; [done|]. cbn [List.filter].
  destruct (py_eq (cell i_em r) (VStr "EM")) eqn:E.
  - apply py_eq_string in E. destruct (Hno r (or_introl eq_refl) E).
  - cbn [andb]. apply IH. intros r' Hr'. apply Hno. by right.
Qed.

(** The lookup of a key that no row of the table carries ends in
    IndexError, at [.values[0]]. *)
Lemma calibration_lookup_no_row
    (fos : string -> option pyfloat) (repr : value -> string) (table : DataFrame)
    (value_kw func_name : string) (em_mode : value) (h : header)
    (fn readout preamp_kw ccdsern gain : value) (c : string) (preamp : pyfloat)
    (i_em i_rate i_preamp j : nat) :
  lookup_kw "FILENAME" h = Some fn ->
  lookup_kw "READRATE" h = Some readout ->
  lookup_kw "PREAMP" h = Some preamp_kw ->
  last_item preamp_kw = Normal (VStr c) ->
  fos c = Some preamp ->
  lookup_kw "CCDSERN" h = Some ccdsern ->
  lookup_kw value_kw h = Some gain ->
  index_of "EM Mode" (columns table) = Some i_em ->
  index_of "Readout Rate" (columns table) = Some i_rate ->
  index_of "Preamp" (columns table) = Some i_preamp ->
  index_of (format_value repr ccdsern) (columns table) = Some j ->
  matching_rows table i_em i_rate i_preamp em_mode readout preamp = [] ->
  calibration_lookup fos repr table value_kw func_name em_mode h =
    Res h [] (Raise IndexError).
Proof.
  intros Hfn Hr Hp Hlast Hc Hs Hg H1 H2 H3 Hj Hno. unfold calibration_lookup.
  rewrite (bind_pure _ _ _ _ (getitem_some _ _ _ Hr)).
  rewrite (bind_pure _ _ _ _ (getitem_some _ _ _ Hp)).
  rewrite Hlast. rewrite (bind_pure (lift (Normal (VStr c))) _ h (VStr c) eq_refl).
  rewrite (bind_pure (py_float fos (VStr c)) _ h preamp)
    by (unfold py_float; by rewrite Hc).
  rewrite (bind_pure _ _ _ _ (getitem_some _ _ _ Hs)).
  rewrite (bind_pure _ _ _ _ (getitem_some _ _ _ Hg)).
  rewrite (bind_pure _ _ _ _ (df_column_some _ _ _ _ H1)).
  rewrite (bind_pure _ _ _ _ (df_column_some _ _ _ _ H2)).
  rewrite (bind_pure _ _ _ _ (df_column_some _ _ _ _ H3)).
  rewrite (bind_pure _ _ _ _ (getitem_some _ _ _ Hfn)).
  rewrite (select_rows_filter (fun c => py_eq c em_mode) (fun c => py_eq c readout)
             (fun c => py_eq c (VFloat preamp))).
  fold (matching_rows table i_em i_rate i_preamp em_mode readout preamp).
  rewrite Hno.
  rewrite (bind_pure _ _ _ _
             (df_column_some {| columns := columns table; rows := [] |} _ j h Hj)).
  cbn [rows map head].
  by rewrite (bind_raise _ _ _ _ _ _ (of_option_none _ _)).
Qed.

(** C9, as the code has it.  The EM-mode key of both calibration checks
    is "Conventional" when EMMODE is exactly that string and "EM" for
    every other value, so it is always one of the two, and a header whose
    EMMODE is anything else is looked up exactly as one with key "EM".
    The row filter then hits on the EM-mode column exactly when the table
    has a row whose EM mode is "EM": on a table without such a row, a
    header with any other EMMODE than "Conventional" that carries what
    the check reads ends the check in IndexError. *)
Theorem em_mode_key_normalized :
  (forall v, normalize_em_mode v = VStr "Conventional" \/ normalize_em_mode v = VStr "EM")
  /\ (forall v, normalize_em_mode v = VStr "Conventional" <-> v = VStr "Conventional")
  /\ (forall v c, v <> VStr "Conventional" ->
        py_eq c (normalize_em_mode v) = py_eq c (VStr "EM"))
  /\ (forall float_of_string repr ccd_gains read_noises h v,
        lookup_kw "EMMODE" h = Some v ->
        test_ccd_gain_hdr float_of_string repr ccd_gains h =
          calibration_lookup float_of_string repr ccd_gains "GAIN" "test_ccd_gain"
            (if py_eq v (VStr "Conventional") then VStr "Conventional" else VStr "EM") h
        /\ test_read_noise_hdr float_of_string repr read_noises h =
          calibration_lookup float_of_string repr read_noises "RDNOISE" "test_read_noise"
            (if py_eq v (VStr "Conventional") then VStr "Conventional" else VStr "EM") h)
  /\ (forall (table : DataFrame) (i_em : nat) v,
        v <> VStr "Conventional" ->
        (existsb (fun c => py_eq c (normalize_em_mode v)) (map (cell i_em) (rows table))
           = true
         <-> exists r, In r (rows table) /\ cell i_em r = VStr "EM"))
  /\ (forall fos repr table value_kw func_name h v fn readout preamp_kw ccdsern gain
             c preamp i_em i_rate i_preamp j,
        lookup_kw "EMMODE" h = Some v ->
        v <> VStr "Conventional" ->
        lookup_kw "FILENAME" h = Some fn ->
        lookup_kw "READRATE" h = Some readout ->
        lookup_kw "PREAMP" h = Some preamp_kw ->
        last_item preamp_kw = Normal (VStr c) ->
        fos c = Some preamp ->
        lookup_kw "CCDSERN" h = Some ccdsern ->
        lookup_kw value_kw h = Some gain ->
        index_of "EM Mode" (columns table) = Some i_em ->
        index_of "Readout Rate" (columns table) = Some i_rate ->
        index_of "Preamp" (columns table) = Some i_preamp ->
        index_of (format_value repr ccdsern) (columns table) = Some j ->
        (forall r, In r (rows table) -> cell i_em r <> VStr "EM") ->
        calibration_hdr fos repr table value_kw func_name h =
          Res h [] (Raise IndexError)).
Proof.
  assert (Hnorm : forall v, normalize_em_mode v =
            if py_eq v (VStr "Conventional") then VStr "Conventional" else VStr "EM").
  { intros v. unfold normalize_em_mode.
    destruct (py_eq v (VStr "Conventional")) eqn:E; [|done].
    by apply py_eq_string in E. }
  split; [|split; [|split; [|split; [|split]]]].
  - intros v. rewrite Hnorm. destruct (py_eq v _); auto.
  - intros v. rewrite Hnorm. destruct (py_eq v _) eqn:E.
    + apply py_eq_string in E. by subst.
    + split; [discriminate|]. intros ->. by rewrite (proj2 (py_eq_string _ _)) in E.
  - intros v c Hv. by rewrite normalize_em_mode_other.
  - intros fos repr gains noises h v Hv.
    unfold test_ccd_gain_hdr, test_read_noise_hdr, calibration_hdr.
    rewrite !(bind_pure _ _ _ _ (getitem_some _ _ _ Hv)).
    by rewrite Hnorm.
  - intros table i_em v Hv. rewrite (normalize_em_mode_other v Hv).
    rewrite existsb_exists. split.
    + intros (c & (r & <- & Hr)%in_map_iff & E%py_eq_string). by exists r.
    + intros (r & Hr & E). exists (cell i_em r). split; [by apply in_map|].
      by apply py_eq_string.
  - intros fos repr table value_kw func_name h v fn readout preamp_kw ccdsern gain
      c preamp i_em i_rate i_preamp j Hv Hne Hfn Hr Hp Hlast Hc Hs Hg H1 H2 H3 Hj Hno.
    unfold calibration_hdr.
    rewrite (bind_pure _ _ _ _ (getitem_some _ _ _ Hv)).
    rewrite (normalize_em_mode_other v Hne).
    apply (calibration_lookup_no_row fos repr table value_kw func_name (VStr "EM") h
             fn readout preamp_kw ccdsern gain c preamp i_em i_rate i_preamp j);
      try done.
    by apply no_em_row_no_match.
Qed.

(** X15. The calibration check takes the preamp level from the last
    character of PREAMP without a guard: a header without PREAMP raises
    KeyError, an empty string IndexError, a number TypeError, and a last
    character that is no number the ValueError of float(); nothing is
    logged and the header is left as it is. *)
Theorem calibration_malformed_preamp
    (fos : string -> option pyfloat) (repr : value -> string) (table : DataFrame)
    (value_kw func_name : string) (em_mode readout : value) (h : header) :
  lookup_kw "READRATE" h = Some readout ->
  let run := calibration_lookup fos repr table value_kw func_name em_mode h in
  (lookup_kw "PREAMP" h = None -> run = Res h [] (Raise (KeyError "PREAMP")))
  /\ (lookup_kw "PREAMP" h = Some (VStr "") -> run = Res h [] (Raise IndexError))
  /\ (forall v, lookup_kw "PREAMP" h = Some v -> is_Some (as_number v) ->
        run = Res h [] (Raise TypeError))
  /\ (forall v c, lookup_kw "PREAMP" h = Some v ->
        last_item v = Normal (VStr c) -> fos c = None ->
        run = Res h [] (Raise (ValueError "could not convert string to float"
                                 [VStr c]))).
Proof.
  intros Hr run. subst run. unfold calibration_lookup.
  rewrite (bind_pure _ _ _ _ (getitem_some _ _ _ Hr)). repeat split.
  - intros Hp. by rewrite (bind_raise _ _ _ _ _ _ (getitem_none _ _ Hp)).
  - intros Hp. rewrite (bind_pure _ _ _ _ (getitem_some _ _ _ Hp)).
    by apply bind_raise.
  - intros v Hp [x Hx]. rewrite (bind_pure _ _ _ _ (getitem_some _ _ _ Hp)).
    apply bind_raise. destruct v; try discriminate; done.
  - intros v c Hp Hl Hc. rewrite (bind_pure _ _ _ _ (getitem_some _ _ _ Hp)).
    rewrite Hl. rewrite (bind_pure (lift (Normal (VStr c))) _ h (VStr c) eq_refl).
    apply bind_raise. unfold py_float. by rewrite Hc.
Qed.

(** *** Exact and approximate equality *)

Lemma float_eqb_sym a b : float_eqb a b = float_eqb b a.
Proof.
  destruct a as [x| | |], b as [y| | |]; try done. cbn [float_eqb].
  destruct (Qeq_bool x y) eqn:E1, (Qeq_bool y x) eqn:E2; try done.
  - apply Qeq_bool_iff in E1. symmetry in E1. apply Qeq_bool_iff in E1. congruence.
  - apply Qeq_bool_iff in E2. symmetry in E2. apply Qeq_bool_iff in E2. congruence.
Qed.

Lemma float_eqb_isclose a b : float_eqb a b = true -> isclose a b = true.
Proof.
  destruct a as [x| | |], b as [y| | |]; try done. cbn [float_eqb isclose].
  intros E%Qeq_bool_iff. apply Qle_bool_iff.
  assert (Qabs (x - y) == 0)%Q as ->.
  { assert (x - y == 0)%Q as -> by (rewrite E; ring). done. }
  pose proof (Qabs_nonneg y) as Hy. unfold atol, rtol.
  apply Qle_trans with (y := (0 + (1 # 100000) * 0)%Q); [by compute|].
  apply Qplus_le_compat; [by compute|].
  apply Qmult_le_l; [done|exact Hy].
Qed.

(** X16. Two numbers that are equal are close: a header value equal to the
    expected number never makes [compare_numbers] log, so every value that
    the enumeration check accepts against a single allowed number is
    accepted by [compare_numbers] against that number. *)
Theorem equal_numbers_are_close
    (expected received fn : value) (func_name : string) (h : header) (a b : pyfloat) :
  as_number expected = Some a ->
  as_number received = Some b ->
  py_in received [expected] = true ->
  isclose a b = true /\
  compare_numbers expected received fn func_name h = Res h [] (Normal tt).
Proof.
  intros Ha Hb Hin.
  assert (Hc : isclose a b = true).
  { apply float_eqb_isclose. rewrite float_eqb_sym.
    unfold py_in in Hin. cbn [existsb] in Hin. rewrite orb_false_r in Hin.
    unfold py_eq in Hin. by rewrite Ha, Hb in Hin. }
  split; [exact Hc|].
  rewrite (compare_numbers_run _ _ _ _ _ _ _ Ha Hb). by rewrite Hc.
Qed.

(** *** The allowed values of an enumeration *)

Lemma split_on_concat c s : String.concat (String c "") (split_on c s) = s.
Proof.
  induction s as [|d s IH]; [done|]. cbn [split_on].
  destruct (Ascii.eqb_spec d c) as [->|Hd].
  - destruct (split_on c s) as [|w ws] eqn:E.
    + pose proof (split_on_length c s) as Hl. rewrite E in Hl. discriminate.
    + cbn [String.concat]. cbn [String.concat] in IH. rewrite IH. done.
  - destruct (split_on c s) as [|w ws] eqn:E.
    + pose proof (split_on_length c s) as Hl. rewrite E in Hl. discriminate.
    + destruct ws as [|w' ws]; cbn [String.concat] in *.
      * by rewrite IH.
      * by rewrite <- IH.
Qed.

Lemma split_on_parts c s p : In p (split_on c s) -> count_char c p = 0%nat.
Proof.
  revert p. induction s as [|d s IH]; intros p.
  - intros [<-|[]]. done.
  - cbn [split_on]. destruct (Ascii.eqb_spec d c) as [->|Hd].
    + intros [<-|Hin]; [done|by apply IH].
    + destruct (split_on c s) as [|w ws] eqn:E; [intros [<-|[]]|].
      * cbn [count_char]. destruct (Ascii.eqb_spec d c); done.
      * intros [<-|Hin].
        -- cbn [count_char]. destruct (Ascii.eqb_spec d c); [done|].
           rewrite (IH w (or_introl eq_refl)). done.
        -- apply IH. by right.
Qed.

(** X17. For a keyword whose first schema row is not of a numeric type,
    the allowed values of the enumeration check are the comma-separated
    parts of the cell, taken as they are: there is at least one, there is
    one more than the cell has commas, none contains a comma, and joined
    with commas they give the cell back. *)
Theorem enum_allowed_values_roundtrip
    (fos : string -> option pyfloat) (ios : string -> option Z) (S : schema)
    (kw : string) (h : header) (first : schema_row) (allowed : string) :
  head (List.filter (fun r => String.eqb (row_Keyword r) kw) S) = Some first ->
  row_Allowed_values first = Some allowed ->
  is_numeric_type (row_Type first) = false ->
  exists parts,
    allowed_values_of fos ios S kw h = Res h [] (Normal (map VStr parts)) /\
    String.concat "," parts = allowed /\
    length parts = Datatypes.S (count_char comma allowed) /\
    (forall p, In p parts -> count_char comma p = 0%nat).
Proof.
  intros Hrow Hcell Hty. exists (split_on comma allowed). split; [|split; [|split]].
  - unfold allowed_values_of. rewrite Hrow.
    rewrite (bind_pure _ _ _ _ (of_option_some _ _ _)). rewrite Hcell.
    rewrite (bind_pure _ _ _ _ (of_option_some _ _ _)). by rewrite Hty.
  - apply (split_on_concat comma).
  - apply split_on_length.
  - apply split_on_parts.
Qed.

(* ===================================================================== *)
(** ** Properties of the loader *)
(* ===================================================================== *)

Lemma fits_named_nil listing :
  fits_named listing = [] <-> forall f, In f listing -> is_infix ".fits" f = false.
Proof.
  unfold fits_named. induction listing as [|f l IH]; cbn [List.filter].
  - split; [intros _ f []|done].
  - destruct (is_infix ".fits" f) eqn:E.
    + split; [discriminate|]. intros H. specialize (H f (or_introl eq_refl)). congruence.
    + rewrite IH. split.
      * intros H g [<-|Hg]; [done|by apply H].
      * intros H g Hg. apply H. by right.
Qed.

Lemma image_folder_today listdir isdir join stamp today listing f :
  listdir today = Got listing ->
  In f listing -> is_infix ".fits" f = true ->
  _get_image_folder listdir isdir join stamp today = Got today.
Proof.
  intros Hl Hin Hf. unfold _get_image_folder. rewrite Hl. cbv zeta.
  destruct (fits_named listing) as [|g l] eqn:E; [|done].
  rewrite (proj1 (fits_named_nil listing) E f Hin) in Hf. discriminate.
Qed.

(** X18. The folder of the batch is today's folder when its listing has a
    name that contains ".fits"; when it has none it is yesterday's folder,
    today/../YYYYMMDD, if that is a directory, and the loader fails with
    FileNotFoundError naming that folder if it is not; a listing that
    fails is not caught. *)
Theorem image_folder_policy
    (listdir : string -> attempt (list string)) (isdir : string -> bool)
    (join : string -> string -> string) (stamp today : string) :
  let yesterday := join (join today "..") stamp in
  let folder := _get_image_folder listdir isdir join stamp today in
  (forall e, listdir today = Failed e -> folder = Failed e)
  /\ (forall listing, listdir today = Got listing ->
        ((exists f, In f listing /\ is_infix ".fits" f = true) -> folder = Got today)
        /\ ((forall f, In f listing -> is_infix ".fits" f = false) ->
            isdir yesterday = true -> folder = Got yesterday)
        /\ ((forall f, In f listing -> is_infix ".fits" f = false) ->
            isdir yesterday = false ->
            folder = Failed (FileNotFoundError
                               ("The folder " ++ yesterday ++ " does not exist.")))).
Proof.
  intros yesterday folder. subst folder. unfold _get_image_folder. split.
  - intros e ->. done.
  - intros listing ->. cbv zeta. fold yesterday. repeat split.
    + intros (f & Hin & Hf).
      destruct (fits_named listing) as [|g l] eqn:E; [|done].
      rewrite (proj1 (fits_named_nil listing) E f Hin) in Hf. discriminate.
    + intros Hnone Hd. rewrite (proj2 (fits_named_nil listing) Hnone).
      by rewrite Hd.
    + intros Hnone Hd. rewrite (proj2 (fits_named_nil listing) Hnone).
      by rewrite Hd.
Qed.

Lemma read_headers_all getheader join folder (decode : string -> header) listing acc :
  (forall f, In f listing -> ends_fits f = true ->
     getheader (join folder f) = Got (decode f)) ->
  read_headers join getheader folder listing acc
  = Got (acc ++ map decode (List.filter ends_fits listing)).
Proof.
  revert acc. induction listing as [|f l IH]; intros acc Hd; cbn [read_headers].
  - by rewrite app_nil_r.
  - fold (ends_fits f). cbn [List.filter]. destruct (ends_fits f) eqn:E; cbn [negb].
    + rewrite (Hd f (or_introl eq_refl) E).
      rewrite IH by (intros g Hg; apply Hd; by right).
      cbn [map]. by rewrite <- app_assoc.
    + apply IH. intros g Hg. apply Hd. by right.
Qed.

Lemma read_headers_fails getheader join folder (decode : string -> header)
    pre f post acc e :
  (forall g, In g pre -> ends_fits g = true ->
     getheader (join folder g) = Got (decode g)) ->
  ends_fits f = true ->
  getheader (join folder f) = Failed e ->
  read_headers join getheader folder (pre ++ f :: post) acc = Failed e.
Proof.
  revert acc. induction pre as [|g pre IH]; intros acc Hd Hf He;
    cbn [app read_headers].
  - fold (ends_fits f). rewrite Hf. cbn [negb]. by rewrite He.
  - fold (ends_fits g). destruct (ends_fits g) eqn:E; cbn [negb].
    + rewrite (Hd g (or_introl eq_refl) E).
      apply IH; [|done|done]. intros g' Hg'. apply Hd. by right.
    + apply IH; [|done|done]. intros g' Hg'. apply Hd. by right.
Qed.

(** X19. [_get_headers] decodes the files of the folder whose names end in
    the four characters "fits", and no other, in the order of the
    listing: when each of them decodes, the batch is the list of their
    headers; when one of them fails to decode, the error is not caught
    and no batch is returned. *)
Theorem get_headers_selection
    (listdir : string -> attempt (list string)) (join : string -> string -> string)
    (getheader : string -> attempt header) (decode : string -> header)
    (folder : string) (listing : list string) :
  listdir folder = Got listing ->
  ((forall f, In f listing -> ends_fits f = true ->
      getheader (join folder f) = Got (decode f)) ->
   _get_headers listdir join getheader folder =
     Got (map decode (List.filter ends_fits listing)))
  /\ (forall pre f post e,
        listing = pre ++ f :: post ->
        (forall g, In g pre -> ends_fits g = true ->
           getheader (join folder g) = Got (decode g)) ->
        ends_fits f = true ->
        getheader (join folder f) = Failed e ->
        _get_headers listdir join getheader folder = Failed e).
Proof.
  intros Hl. unfold _get_headers. cbv zeta. rewrite Hl. split.
  - intros Hd. by rewrite (read_headers_all _ _ _ decode).
  - intros pre f post e -> Hd Hf He. by apply (read_headers_fails _ _ _ decode).
Qed.

Lemma prefix_refl s : String.prefix s s = true.
Proof. induction s as [|c s IH]; [done|]. cbn. by destruct (ascii_dec c c). Qed.

Lemma is_infix_suffix sub pre : is_infix sub (pre ++ sub) = true.
Proof.
  induction pre as [|c pre IH].
  - change ("" ++ sub)%string with sub. destruct sub as [|c sub]; [done|].
    cbn [is_infix]. by rewrite prefix_refl.
  - change (String c pre ++ sub)%string with (String c (pre ++ sub)).
    cbn [is_infix]. rewrite IH. apply orb_true_r.
Qed.

Lemma string_length_app (s t : string) :
  String.length (s ++ t) = (String.length s + String.length t)%nat.
Proof. induction s as [|c s IH]; [done|]. simpl. by rewrite IH. Qed.

Lemma last_chars_fits base : last_chars 4 (base ++ ".fits") = "fits".
Proof.
  unfold last_chars. rewrite string_length_app.
  replace (String.length base + String.length ".fits" - 4)%nat
    with (Datatypes.S (String.length base)) by (simpl; lia).
  induction base as [|c base IH]; [done|].
  change (String c base ++ ".fits")%string with (String c (base ++ ".fits")).
  change (String.length (String c base)) with (Datatypes.S (String.length base)).
  cbn [String.substring]. exact IH.
Qed.

(** X20. A file whose name ends in ".fits" is seen by both steps of the
    loader: as soon as today's listing has one, the batch is read from
    today's folder, and when the selected files decode, the header of
    that file is in the batch, which is therefore not empty. *)
Theorem fits_file_is_loaded
    (listdir : string -> attempt (list string)) (isdir : string -> bool)
    (join : string -> string -> string) (getheader : string -> attempt header)
    (decode : string -> header) (stamp today base : string) (listing : list string) :
  listdir today = Got listing ->
  In (base ++ ".fits")%string listing ->
  (forall f, In f listing -> ends_fits f = true ->
     getheader (join today f) = Got (decode f)) ->
  _get_image_folder listdir isdir join stamp today = Got today /\
  setUpClass_hdrs_list listdir isdir join getheader stamp today =
    Got (map decode (List.filter ends_fits listing)) /\
  In (decode (base ++ ".fits")%string) (map decode (List.filter ends_fits listing)).
Proof.
  intros Hl Hin Hd.
  assert (Hfolder : _get_image_folder listdir isdir join stamp today = Got today).
  { apply (image_folder_today _ _ _ _ _ listing (base ++ ".fits")%string);
      [done|done|apply is_infix_suffix]. }
  split; [exact Hfolder|]. split.
  - unfold setUpClass_hdrs_list. rewrite Hfolder.
    unfold _get_headers. cbv zeta. rewrite Hl.
    by rewrite (read_headers_all _ _ _ decode).
  - apply in_map, filter_In. split; [done|].
    unfold ends_fits. by rewrite last_chars_fits.
Qed.

(* ===================================================================== *)
(** ** Properties of the log scanner *)
(* ===================================================================== *)

Lemma str_cons_app (x : ascii) (a b : string) :
  (String x a ++ b)%string = String x (a ++ b).
Proof. reflexivity. Qed.

Lemma str_app_assoc (a b c : string) : ((a ++ b) ++ c = a ++ (b ++ c))%string.
Proof. induction a as [|x a IH]; [done|]. rewrite !str_cons_app. by rewrite IH. Qed.

Lemma str_app_nil_r (a : string) : (a ++ "")%string = a.
Proof. induction a as [|x a IH]; [done|]. rewrite str_cons_app. by rewrite IH. Qed.

Lemma str_app_cancel (a t : string) : (a ++ t)%string = a -> t = "".
Proof.
  induction a as [|x a IH]; [done|]. rewrite str_cons_app. intros [= E]. by apply IH.
Qed.

Lemma scan_spec lines EMAIL_STRING i :
  scan lines EMAIL_STRING i =
    ((EMAIL_STRING ++ error_text (error_lines lines))%string,
     (i + length (error_lines lines))%nat).
Proof.
  revert EMAIL_STRING i. induction lines as [|line lines IH]; intros E i.
  - cbn [scan error_lines List.filter error_text fold_right length].
    by rewrite str_app_nil_r, Nat.add_0_r.
  - cbn [scan]. unfold error_lines in *. cbn [List.filter].
    destruct (is_infix "ERROR" line).
    + rewrite IH. cbn [error_text fold_right length].
      fold (error_text (List.filter (is_infix "ERROR") lines)).
      rewrite !str_app_assoc. f_equal. lia.
    + apply IH.
Qed.

Lemma error_text_nil ls : error_text ls = "" <-> ls = [].
Proof.
  split; [|by intros ->]. destruct ls as [|l ls]; [done|].
  cbn [error_text fold_right]. intros E.
  assert (String.length (l ++ newline ++ error_text ls)%string = 0%nat) as Hl.
  { unfold error_text in E |- *. by rewrite E. }
  rewrite !string_length_app in Hl. cbn in Hl. lia.
Qed.

Lemma error_lines_length lines : (length (error_lines lines) <= length lines)%nat.
Proof.
  unfold error_lines. induction lines as [|l ls IH]; [done|]. cbn [List.filter].
  destruct (is_infix "ERROR" l); cbn [length]; lia.
Qed.

(** X21. The scanner keeps the lines of the events log that contain the
    text ERROR, and only those, in their order: the counter is their
    number and the mail body is the greeting followed by each of them and
    a line feed.  A line that only says WARNING is not reported. *)
Theorem scan_reports_error_lines (lines : list string) (BASE : string) :
  scan lines BASE 0 =
    ((BASE ++ error_text (error_lines lines))%string, length (error_lines lines))
  /\ (forall line, In line (error_lines lines) <->
                   In line lines /\ is_infix "ERROR" line = true)
  /\ (length (error_lines lines) <= length lines)%nat
  /\ (fst (scan lines BASE 0) = BASE <-> error_lines lines = []).
Proof.
  assert (Hs := scan_spec lines BASE 0). cbn [Nat.add] in Hs.
  split; [exact Hs|]. split; [|split].
  - intros line. unfold error_lines. apply filter_In.
  - apply error_lines_length.
  - rewrite Hs. cbn [fst]. split.
    + intros E%str_app_cancel. by apply error_text_nil.
    + intros ->. apply str_app_nil_r.
Qed.

Lemma split_on_line c l rest :
  count_char c l = 0%nat ->
  split_on c (l ++ String c rest) = l :: split_on c rest.
Proof.
  induction l as [|d l IH].
  - intros _. change ("" ++ String c rest)%string with (String c rest).
    cbn [split_on]. by rewrite Ascii.eqb_refl.
  - change (String d l ++ String c rest)%string with (String d (l ++ String c rest)).
    cbn [count_char split_on]. destruct (Ascii.eqb d c); [discriminate|].
    intros Hl. by rewrite IH.
Qed.

Lemma error_text_split (ls : list string) :
  (forall line, In line ls -> count_char (ascii_of_nat 10) line = 0%nat) ->
  split_on (ascii_of_nat 10) (error_text ls) = ls ++ [""].
Proof.
  intros Hl. induction ls as [|l ls IH]; [done|].
  cbn [error_text fold_right app].
  change (l ++ newline ++ fold_right (fun line acc => line ++ newline ++ acc) "" ls)%string
    with (l ++ String (ascii_of_nat 10) (error_text ls))%string.
  rewrite split_on_line by (apply Hl; by left).
  rewrite IH; [done|]. intros line Hin. apply Hl. by right.
Qed.

Lemma count_char_app c (a b : string) :
  count_char c (a ++ b) = (count_char c a + count_char c b)%nat.
Proof.
  induction a as [|d a IH]; [done|]. rewrite str_cons_app. cbn [count_char].
  rewrite IH. lia.
Qed.

Lemma error_text_line_feeds (ls : list string) :
  (forall line, In line ls -> count_char (ascii_of_nat 10) line = 0%nat) ->
  count_char (ascii_of_nat 10) (error_text ls) = length ls.
Proof.
  intros Hl. induction ls as [|l ls IH]; [done|].
  cbn [error_text fold_right length].
  fold (error_text ls). rewrite !count_char_app.
  rewrite (Hl l (or_introl eq_refl)), IH by (intros line Hin; apply Hl; by right).
  reflexivity.
Qed.

Lemma str_app_inv_head (a t u : string) : (a ++ t)%string = (a ++ u)%string -> t = u.
Proof.
  induction a as [|x a IH]; [done|]. rewrite !str_cons_app. intros [= E]. by apply IH.
Qed.

(** X22. The body of the mail tells which lines were reported: when no
    line of the events log contains a line feed (they come from
    [splitlines]), two logs for which the scanner builds the same body
    from the same greeting have the same lines with ERROR, in the same
    order; and the body has as many line feeds more than the greeting as
    the counter says. *)
Theorem scan_body_determines_lines (lines others : list string) (BASE : string) :
  (forall line, In line lines -> count_char (ascii_of_nat 10) line = 0%nat) ->
  (forall line, In line others -> count_char (ascii_of_nat 10) line = 0%nat) ->
  (fst (scan lines BASE 0) = fst (scan others BASE 0) ->
   error_lines lines = error_lines others)
  /\ count_char (ascii_of_nat 10) (fst (scan lines BASE 0))
     = (count_char (ascii_of_nat 10) BASE + snd (scan lines BASE 0))%nat.
Proof.
  intros Hl Ho.
  assert (Hl' : forall line, In line (error_lines lines) ->
                             count_char (ascii_of_nat 10) line = 0%nat).
  { intros line [Hin _]%filter_In. by apply Hl. }
  assert (Ho' : forall line, In line (error_lines others) ->
                             count_char (ascii_of_nat 10) line = 0%nat).
  { intros line [Hin _]%filter_In. by apply Ho. }
  rewrite !scan_spec. cbn [fst snd Nat.add]. split.
  - intros E%str_app_inv_head.
    apply (f_equal (split_on (ascii_of_nat 10))) in E.
    rewrite (error_text_split _ Hl'), (error_text_split _ Ho') in E.
    by apply app_inv_tail in E.
  - rewrite count_char_app. by rewrite (error_text_line_feeds _ Hl').
Qed.

Lemma send_all_one smtp_sendmail USER texto :
  send_all smtp_sendmail USER texto [USER] =
    match smtp_sendmail USER USER texto with
    | Failed e => ([], Failed e)
    | Got _ =>
        ([Sent USER USER texto;
          Info ("The email has been sent to " ++ USER ++ " succesfully.")], Got tt)
    end.
Proof.
  cbn [send_all]. by destruct (smtp_sendmail USER USER texto).
Qed.

Lemma send_step_sent smtp_connect smtp_login smtp_sendmail smtp_quit as_string
    repr_error USER PASSWORD msg EMAIL_STRING BASE s r t :
  In (Sent s r t)
     (send_step smtp_connect smtp_login smtp_sendmail smtp_quit as_string repr_error
        USER PASSWORD msg [USER] EMAIL_STRING BASE) ->
  String.eqb EMAIL_STRING BASE = false /\ s = USER /\ r = USER /\ t = as_string msg.
Proof.
  unfold send_step, send_try.
  destruct (String.eqb EMAIL_STRING BASE); cbn [negb].
  { intros [E|[E|[]]]; discriminate. }
  rewrite send_all_one.
  destruct smtp_connect; [|intros [E|[]]; discriminate].
  destruct (smtp_login USER PASSWORD); [|intros [E|[]]; discriminate].
  destruct (smtp_sendmail USER USER (as_string msg)); [|intros [E|[]]; discriminate].
  destruct smtp_quit.
  - intros [[= <- <- <-]|[E|[]]]; [done|discriminate].
  - intros Hin. apply in_app_or in Hin as [[[= <- <- <-]|[E|[]]]|[E|[]]];
      [done|discriminate|discriminate].
Qed.

(** X23. The scanner sends mail only for error lines: whatever the mail
    server does, a mail leaves only when the events log was read and has
    a line that contains ERROR, it goes from USER to USER and to nobody
    else, and its text is the rendering of the message (sender, subject,
    greeting followed by the error lines) taken before any recipient is
    set in it. *)
Theorem mail_only_for_error_lines
    (smtp_connect : attempt unit) (smtp_login : string -> string -> attempt unit)
    (smtp_sendmail : string -> string -> string -> attempt unit)
    (smtp_quit : attempt unit) (as_string : message -> string)
    (repr_error : os_error -> string)
    (channel yesterday USER PASSWORD : string) (file : attempt (list string))
    (s r t : string) :
  In (Sent s r t)
     (fst (read_log smtp_connect smtp_login smtp_sendmail smtp_quit as_string
             repr_error channel yesterday USER PASSWORD file)) ->
  exists lines,
    file = Got lines /\ error_lines lines <> [] /\ s = USER /\ r = USER /\
    t = as_string
          (report channel yesterday USER
             (BASE_STRING channel yesterday ++ error_text (error_lines lines))).
Proof.
  unfold read_log. destruct file as [lines|e].
  - rewrite scan_spec. cbv zeta. cbn [fst Nat.add]. intros Hin.
    apply in_app_or in Hin as [Hin|Hin].
    { apply in_app_or in Hin as [Hin|[E|[]]]; [|discriminate].
      apply in_app_or in Hin as [[E|[]]|[E|[]]]; discriminate. }
    apply send_step_sent in Hin as (Hne & -> & -> & ->).
    exists lines. split; [done|]. split; [|done].
    intros E. rewrite E in Hne. cbn [error_text fold_right] in Hne.
    rewrite str_app_nil_r, String.eqb_refl in Hne. discriminate.
  - destruct e as [d|n|d]; cbn [fst].
    + intros Hin. apply in_app_or in Hin as [[E|[]]|[E|[]]]; discriminate.
    + intros [E|[]]. discriminate.
    + intros [E|[]]. discriminate.
Qed.

(** X24. A failure of the mail server never stops the scanner: once the
    events log has been read the script ends normally whatever the server
    does.  With no error line it logs twice that there is nothing to
    report; with error lines and a server that accepts every step it hands
    over exactly one mail and logs it.  An events log that is not found
    is logged and then stops the script with NameError, because [lines]
    was never bound. *)
Theorem scanner_outcomes
    (smtp_connect : attempt unit) (smtp_login : string -> string -> attempt unit)
    (smtp_sendmail : string -> string -> string -> attempt unit)
    (smtp_quit : attempt unit) (as_string : message -> string)
    (repr_error : os_error -> string)
    (channel yesterday USER PASSWORD : string) :
  let run := read_log smtp_connect smtp_login smtp_sendmail smtp_quit as_string
               repr_error channel yesterday USER PASSWORD in
  let head_of lines :=
    [Info ("The observation date was " ++ yesterday ++ ".");
     Info "The log file has been read.";
     Info ("There is (are) " ++ pretty (length (error_lines lines))
           ++ " line(s) to log.")] in
  (forall lines, snd (run (Got lines)) = Got tt)
  /\ (forall lines, error_lines lines = [] ->
        fst (run (Got lines)) =
          head_of lines ++ [Info "There are no events to report.";
                            Info "There are no events to report."])
  /\ (forall lines, error_lines lines <> [] ->
        let text := as_string
                      (report channel yesterday USER
                         (BASE_STRING channel yesterday
                          ++ error_text (error_lines lines))) in
        smtp_connect = Got tt -> smtp_login USER PASSWORD = Got tt ->
        smtp_sendmail USER USER text = Got tt -> smtp_quit = Got tt ->
        fst (run (Got lines)) =
          head_of lines ++
          [Sent USER USER text;
           Info ("The email has been sent to " ++ USER ++ " succesfully.")])
  /\ (forall d, snd (run (Failed (FileNotFoundError d))) = Failed (NameError "lines")
                /\ length (fst (run (Failed (FileNotFoundError d)))) = 2%nat).
Proof.
  intros run head_of. subst run head_of. cbv beta. repeat split.
  - intros lines. unfold read_log. rewrite scan_spec. done.
  - intros lines Hnone. unfold read_log. rewrite scan_spec. cbv zeta.
    cbn [fst Nat.add]. rewrite Hnone. cbn [error_text fold_right length].
    rewrite str_app_nil_r. unfold send_step. rewrite String.eqb_refl. done.
  - intros lines Hsome text Hc Hlog Hs Hq. unfold read_log. rewrite scan_spec.
    cbv zeta. cbn [fst Nat.add]. unfold send_step, send_try.
    assert (String.eqb (BASE_STRING channel yesterday
                        ++ error_text (error_lines lines))
                       (BASE_STRING channel yesterday) = false) as ->.
    { apply String.eqb_neq. intros E%str_app_cancel. by apply error_text_nil in E. }
    cbn [negb]. rewrite send_all_one, Hc, Hlog.
    fold (report channel yesterday USER
            (BASE_STRING channel yesterday ++ error_text (error_lines lines))).
    fold text. rewrite Hs, Hq. done.
Qed.

(* ===================================================================== *)
(** ** The further properties at work on the example night *)
(* ===================================================================== *)

Lemma type_check_row_witness :
  lookup_kw "FILENAME" ex_hdr = Some ex_filename /\
  lookup_kw "BITPIX" ex_hdr = Some (VInt 16) /\
  test_keywords_types_row "test_keywords_types"
    (mk_row "BITPIX" "integer" (Some "16")) ex_hdr = Res ex_hdr [] (Normal tt).
Proof.
  split; [reflexivity|]. split; [reflexivity|].
  exact (proj1 (type_check_row (mk_row "BITPIX" "integer" (Some "16")) ex_hdr
                  ex_filename (VInt 16) eq_refl eq_refl) TInt eq_refl).
Defined.

Lemma guards_need_filename_witness :
  lookup_kw "FILENAME" ex_hdr_anonymous = None /\
  test_keywords_types ex_schema [ex_hdr_anonymous] =
    Run [ex_hdr_anonymous] [] (Raise (KeyError "FILENAME")).
Proof.
  split; [reflexivity|].
  refine (proj2 (proj1 (guards_need_filename dec_float ex_schema ex_hdr_anonymous []
                          eq_refl) _)).
  discriminate.
Defined.

Lemma interval_check_excluded_witness :
  in_strings "BITPIX" kws_specific_values = true /\
  test_kws_in_interval_row dec_float "test_kws_in_interval"
    (mk_row "BITPIX" "integer" (Some "16")) ex_hdr = Res ex_hdr [] (Normal tt).
Proof.
  split; [reflexivity|].
  refine (proj1 (interval_check_excluded dec_float
                   (mk_row "BITPIX" "integer" (Some "16")) ex_hdr ex_filename
                   eq_refl eq_refl) _).
  eexists. reflexivity.
Defined.

Lemma interval_check_cell_shape_witness :
  lookup_kw "EXPTIME" ex_hdr = Some (VFloat (Finite (1 # 4))) /\
  count_char comma "0.5" = 0%nat /\
  test_kws_in_interval_row dec_float "test_kws_in_interval"
    (mk_row "EXPTIME" "float" (Some "0.5")) ex_hdr =
    Res ex_hdr [exn_record "test_kws_in_interval" ex_filename None
                  (ValueError "wrong number of values to unpack" [])] (Normal tt).
Proof.
  split; [reflexivity|]. split; [reflexivity|].
  refine (proj2 (interval_check_cell_shape dec_float
                   (mk_row "EXPTIME" "float" (Some "0.5")) ex_hdr ex_filename
                   (VFloat (Finite (1 # 4))) eq_refl eq_refl eq_refl)
            "0.5" eq_refl _).
  discriminate.
Defined.

Lemma interval_check_incomparable_witness :
  lookup_kw "EXPTIME" ex_hdr_text = Some (VStr "fast") /\
  test_kws_in_interval_row dec_float "test_kws_in_interval"
    (mk_row "EXPTIME" "float" (Some "0.5,inf")) ex_hdr_text =
    Res ex_hdr_text
      [exn_record "test_kws_in_interval" (VStr "20250522_s4c1_000005.fits") None
         TypeError] (Normal tt).
Proof.
  split; [reflexivity|].
  exact (proj1 (interval_check_incomparable dec_float
                  (mk_row "EXPTIME" "float" (Some "0.5,inf")) ex_hdr_text
                  (VStr "20250522_s4c1_000005.fits") (VStr "fast")
                  (Finite (1 # 2)) PosInf "0.5,inf" "0.5" "inf"
                  eq_refl eq_refl eq_refl eq_refl eq_refl eq_refl eq_refl) eq_refl).
Defined.

Lemma ex_hdr_regex_strings :
  forall kw expression, In (kw, expression) regex_expressions ->
    exists s, lookup_kw kw ex_hdr_regex = Some (VStr s).
Proof.
  intros kw expression H.
  repeat (destruct H as [[= <- <-]|H]; [eexists; reflexivity|]). destruct H.
Defined.

Lemma regex_check_lines_witness :
  lookup_kw "FILENAME" ex_hdr_regex = Some (VStr "20250522_s4c1_000008.fits") /\
  test_kws_regex_hdr ex_re_match ex_hdr_regex =
    Res ex_hdr_regex
      [ {| rec_test := "test_kws_regex";
           rec_filename := VStr "20250522_s4c1_000008.fits";
           rec_payload := PRegex "UTDATE" (VStr "22/05/2025") |};
        {| rec_test := "test_kws_regex";
           rec_filename := VStr "20250522_s4c1_000008.fits";
           rec_payload := PRegex "ACSVRSN" (VStr "1.46.4") |} ]
      (Normal tt).
Proof.
  split; [reflexivity|].
  exact (proj1 (regex_check_lines ex_re_match ex_hdr_regex
                  (VStr "20250522_s4c1_000008.fits") eq_refl ex_hdr_regex_strings)).
Defined.

Lemma unguarded_checks_need_every_keyword_witness :
  lookup_kw "FILTER" ex_hdr_no_filter = None /\
  run_out (test_kws_specific_vals dec_float dec_int ex_schema [ex_hdr_no_filter])
    <> Normal tt.
Proof.
  split; [reflexivity|].
  refine (proj2 (proj2 (proj2
    (unguarded_checks_need_every_keyword dec_float dec_int ex_re_match ex_schema
       [ex_hdr_no_filter] ex_hdr_no_filter "FILTER" _ eq_refl))) _).
  - left. reflexivity.
  - do 3 right. left. reflexivity.
Defined.

Lemma ex_schema_no_obstype : forall row, In row ex_schema -> row_Keyword row <> "OBSTYPE".
Proof.
  intros row H. repeat (destruct H as [<-|H]; [discriminate|]). destruct H.
Defined.

Lemma enum_check_needs_schema_rows_witness :
  In "OBSTYPE" kws_specific_values /\
  run_out (test_kws_specific_vals dec_float dec_int ex_schema [ex_hdr]) <> Normal tt.
Proof.
  assert (Hin : In "OBSTYPE" kws_specific_values) by (do 4 right; left; reflexivity).
  split; [exact Hin|].
  exact (proj1 (proj2 (enum_check_needs_schema_rows dec_float dec_int ex_schema
                         "OBSTYPE" ex_hdr [] Hin ex_schema_no_obstype))).
Defined.

Lemma ex_hdr_simulated_carries : carries simulated_mode_kws ex_hdr_simulated.
Proof. repeat constructor; eexists; reflexivity. Defined.

Lemma simulated_mode_lines_witness :
  carries simulated_mode_kws ex_hdr_simulated /\
  test_simulated_mode_hdr ex_hdr_simulated =
    Res ex_hdr_simulated
      [ {| rec_test := "test_simulated_mode";
           rec_filename := VStr "20250522_s4c1_000006.fits";
           rec_payload := PSimulated "ACSMODE" |} ] (Normal tt).
Proof.
  split; [exact ex_hdr_simulated_carries|].
  exact (proj1 (simulated_mode_lines ex_hdr_simulated
                  (VStr "20250522_s4c1_000006.fits") eq_refl ex_hdr_simulated_carries)).
Defined.

Lemma empty_observer_check_witness :
  lookup_kw "OBSERVER" ex_hdr
    = Some (VStr "abcdefghijabcdefghijabcdefghijabcdefghijabcdefghijabcdefghij") /\
  test_empty_observer_kw_hdr ex_hdr = Res ex_hdr [] (Normal tt).
Proof.
  split; [reflexivity|].
  refine (proj1 (proj2 (empty_observer_check ex_hdr)) _ eq_refl _).
  discriminate.
Defined.

Lemma comments_check_sets_witness :
  lookup_kw "FILENAME" ex_hdr = Some ex_filename /\
  r_hdr (test_kw_comments_hdr ex_schema ex_hdr) = remove_kw "COMMENT" ex_hdr /\
  r_out (test_kw_comments_hdr ex_schema ex_hdr) = Normal tt.
Proof.
  split; [reflexivity|].
  pose proof (comments_check_sets ex_schema ex_hdr ex_filename eq_refl) as H.
  cbv zeta in H. split; [exact (proj1 H)|exact (proj1 (proj2 H))].
Defined.

Lemma presence_checks_idempotent_witness :
  Forall (carries ["FILENAME"]) [ex_hdr; ex_hdr_no_filter] /\
  test_missing_keywords ex_schema
    (run_hdrs (test_missing_keywords ex_schema [ex_hdr; ex_hdr_no_filter]))
  = test_missing_keywords ex_schema [ex_hdr; ex_hdr_no_filter].
Proof.
  split; [exact ex_carries_filename|].
  pose proof (presence_checks_idempotent ex_schema [ex_hdr; ex_hdr_no_filter]
                ex_carries_filename) as H.
  cbv zeta in H. exact (proj1 (proj2 (proj2 H))).
Defined.

Lemma ex_carries_filename_one : Forall (carries ["FILENAME"]) [ex_hdr].
Proof. repeat constructor; by eexists. Defined.

Lemma presence_check_stops_after_deleting_witness :
  lookup_kw "FILENAME" ex_hdr_anonymous = None /\
  run_out (test_missing_keywords ex_schema
             ([ex_hdr] ++ ex_hdr_anonymous :: [ex_hdr_polar]))
  = Raise (KeyError "FILENAME") /\
  run_hdrs (test_missing_keywords ex_schema
              ([ex_hdr] ++ ex_hdr_anonymous :: [ex_hdr_polar]))
  = [remove_kw "COMMENT" ex_hdr; ex_hdr_anonymous; ex_hdr_polar].
Proof.
  split; [reflexivity|].
  pose proof (presence_check_stops_after_deleting ex_schema [ex_hdr] [ex_hdr_polar]
                ex_hdr_anonymous ex_carries_filename_one eq_refl) as H.
  rewrite H. split; reflexivity.
Defined.

Lemma calibration_first_match_witness :
  last_item (VStr "Gain 1") = Normal (VStr "1") /\
  index_of (format_value value_text (VInt 9914)) (columns ex_gains) = Some 3%nat /\
  calibration_lookup dec_float value_text ex_gains "GAIN" "test_ccd_gain"
    (VStr "EM") ex_hdr = Res ex_hdr [] (Normal tt).
Proof.
  split; [reflexivity|]. split; [reflexivity|].
  pose proof (calibration_first_match dec_float value_text ex_gains "GAIN"
                "test_ccd_gain" (VStr "EM") ex_hdr ex_filename (VInt 1)
                (VStr "Gain 1") (VInt 9914) (VFloat (Finite (33 # 10))) "1"
                (Finite 1) 0 1 2 3
                eq_refl eq_refl eq_refl eq_refl eq_refl eq_refl eq_refl
                eq_refl eq_refl eq_refl eq_refl) as H.
  rewrite H. reflexivity.
Defined.

Lemma calibration_malformed_preamp_witness :
  lookup_kw "READRATE" ex_hdr_no_preamp = Some (VInt 1) /\
  calibration_lookup dec_float value_text ex_gains "GAIN" "test_ccd_gain"
    (VStr "EM") ex_hdr_no_preamp =
    Res ex_hdr_no_preamp [] (Raise (KeyError "PREAMP")).
Proof.
  split; [reflexivity|].
  exact (proj1 (calibration_malformed_preamp dec_float value_text ex_gains "GAIN"
                  "test_ccd_gain" (VStr "EM") (VInt 1) ex_hdr_no_preamp eq_refl)
           eq_refl).
Defined.

Lemma equal_numbers_are_close_witness :
  py_in (VFloat (Finite 16)) [VInt 16] = true /\
  compare_numbers (VInt 16) (VFloat (Finite 16)) ex_filename "test_BITPIX" ex_hdr
  = Res ex_hdr [] (Normal tt).
Proof.
  split; [reflexivity|].
  exact (proj2 (equal_numbers_are_close (VInt 16) (VFloat (Finite 16)) ex_filename
                  "test_BITPIX" ex_hdr (Finite 16) (Finite 16)
                  eq_refl eq_refl eq_refl)).
Defined.

Lemma enum_allowed_values_roundtrip_witness :
  is_numeric_type "string" = false /\
  exists parts,
    allowed_values_of dec_float dec_int ex_schema "FILTER" ex_hdr
      = Res ex_hdr [] (Normal (map VStr parts)) /\
    String.concat "," parts = "CLEAR,B,V,R,I" /\
    length parts = 5%nat /\
    (forall p, In p parts -> count_char comma p = 0%nat).
Proof.
  split; [reflexivity|].
  exact (enum_allowed_values_roundtrip dec_float dec_int ex_schema "FILTER" ex_hdr
           (mk_row "FILTER" "string" (Some "CLEAR,B,V,R,I")) "CLEAR,B,V,R,I"
           eq_refl eq_refl eq_refl).
Defined.

Lemma image_folder_policy_witness :
  ex_listdir ex_today = Got ex_listing /\
  _get_image_folder ex_listdir ex_isdir ex_join "20250521" ex_today = Got ex_today.
Proof.
  split; [reflexivity|].
  refine (proj1 (proj2 (image_folder_policy ex_listdir ex_isdir ex_join "20250521"
                          ex_today) ex_listing eq_refl) _).
  exists "20250522_s4c1_000001.fits". split; [right; left; reflexivity|reflexivity].
Defined.

Lemma get_headers_selection_witness :
  ex_listdir ex_today = Got ex_listing /\
  _get_headers ex_listdir ex_join ex_getheader ex_today = Got [ex_hdr].
Proof.
  split; [reflexivity|].
  refine (proj1 (get_headers_selection ex_listdir ex_join ex_getheader ex_decode
                   ex_today ex_listing eq_refl) _).
  intros f _ _. reflexivity.
Defined.

Lemma fits_file_is_loaded_witness :
  In ("20250522_s4c1_000001" ++ ".fits")%string ex_listing /\
  setUpClass_hdrs_list ex_listdir ex_isdir ex_join ex_getheader "20250521" ex_today
  = Got [ex_hdr].
Proof.
  assert (Hin : In ("20250522_s4c1_000001" ++ ".fits")%string ex_listing)
    by (right; left; reflexivity).
  split; [exact Hin|].
  refine (proj1 (proj2 (fits_file_is_loaded ex_listdir ex_isdir ex_join ex_getheader
                          ex_decode "20250521" ex_today "20250522_s4c1_000001"
                          ex_listing eq_refl Hin _))).
  intros f _ _. reflexivity.
Defined.

Lemma scan_reports_error_lines_witness :
  scan ex_lines "Hello" 0 =
    (("Hello" ++ "08:05 ERROR shutter timeout" ++ newline)%string, 1%nat).
Proof. exact (proj1 (scan_reports_error_lines ex_lines "Hello")). Defined.

Lemma ex_lines_single : forall line, In line ex_lines ->
  count_char (ascii_of_nat 10) line = 0%nat.
Proof.
  intros line H. repeat (destruct H as [<-|H]; [reflexivity|]). destruct H.
Defined.

Lemma scan_body_determines_lines_witness :
  (forall line, In line ex_lines -> count_char (ascii_of_nat 10) line = 0%nat) /\
  count_char (ascii_of_nat 10) (fst (scan ex_lines "Hello" 0))
  = (count_char (ascii_of_nat 10) "Hello" + snd (scan ex_lines "Hello" 0))%nat /\
  snd (scan ex_lines "Hello" 0) = 1%nat.
Proof.
  split; [exact ex_lines_single|]. split; [|reflexivity].
  exact (proj2 (scan_body_determines_lines ex_lines ex_lines "Hello"
                  ex_lines_single ex_lines_single)).
Defined.

Lemma mail_only_for_error_lines_witness :
  exists lines,
    Got ex_lines = Got lines /\ error_lines lines <> [] /\
    "sparc4" = "sparc4" /\ "sparc4" = "sparc4" /\
    (BASE_STRING "1" "20250521" ++ error_text (error_lines ex_lines))%string =
    ex_as_string
      (report "1" "20250521" "sparc4"
         (BASE_STRING "1" "20250521" ++ error_text (error_lines lines))).
Proof.
  refine (mail_only_for_error_lines ex_connect ex_login ex_sendmail ex_connect
            ex_as_string ex_repr "1" "20250521" "sparc4" "secret" (Got ex_lines)
            "sparc4" "sparc4"
            (BASE_STRING "1" "20250521" ++ error_text (error_lines ex_lines))%string _).
  do 3 right. left. reflexivity.
Defined.

Lemma scanner_outcomes_witness :
  error_lines ["08:00 INFO dome open"] = [] /\
  fst (read_log ex_connect ex_login ex_sendmail ex_connect ex_as_string ex_repr
         "1" "20250521" "sparc4" "secret" (Got ["08:00 INFO dome open"])) =
    [Info "The observation date was 20250521.";
     Info "The log file has been read.";
     Info "There is (are) 0 line(s) to log.";
     Info "There are no events to report.";
     Info "There are no events to report."].
Proof.
  split; [reflexivity|].
  exact (proj1 (proj2 (scanner_outcomes ex_connect ex_login ex_sendmail ex_connect
                         ex_as_string ex_repr "1" "20250521" "sparc4" "secret"))
           ["08:00 INFO dome open"] eq_refl).
Defined.

Lemma ex_no_em_row :
  forall r, In r (rows ex_gains_conventional) -> cell 0 r <> VStr "EM".
Proof. intros r [<-|[]]. discriminate. Defined.

Lemma em_mode_key_normalized_witness :
  lookup_kw "EMMODE" ex_hdr = Some (VStr "Convencional") /\
  VStr "Convencional" <> VStr "Conventional" /\
  (forall r, In r (rows ex_gains_conventional) -> cell 0 r <> VStr "EM") /\
  test_ccd_gain_hdr dec_float value_text ex_gains ex_hdr =
    calibration_lookup dec_float value_text ex_gains "GAIN" "test_ccd_gain"
      (VStr "EM") ex_hdr /\
  calibration_hdr dec_float value_text ex_gains_conventional "GAIN" "test_ccd_gain" ex_hdr
    = Res ex_hdr [] (Raise IndexError).
Proof.
  assert (Hne : VStr "Convencional" <> VStr "Conventional") by discriminate.
  split; [reflexivity|]. split; [exact Hne|]. split; [exact ex_no_em_row|]. split.
  - exact (proj1 (proj1 (proj2 (proj2 (proj2 em_mode_key_normalized)))
                   dec_float value_text ex_gains ex_gains ex_hdr
                   (VStr "Convencional") eq_refl)).
  - exact (proj2 (proj2 (proj2 (proj2 (proj2 em_mode_key_normalized))))
             dec_float value_text ex_gains_conventional "GAIN" "test_ccd_gain" ex_hdr
             (VStr "Convencional") ex_filename (VInt 1) (VStr "Gain 1") (VInt 9914)
             (VFloat (Finite (33 # 10))) "1" (Finite 1) 0%nat 1%nat 2%nat 3%nat
             eq_refl Hne eq_refl eq_refl eq_refl eq_refl eq_refl eq_refl eq_refl
             eq_refl eq_refl eq_refl eq_refl ex_no_em_row).
Defined.

